(** * withdatabase.py: credential store, session gate and indicator engine

    A shallow embedding of [src/withdatabase.py].

    - The SQLite table [users] is a list of rows in insertion order together
      with the AUTOINCREMENT counter.
    - A pandas [Series] of floats is a list of cells; a cell is [None] for NaN
      and [Some q] for a number.  Numbers are exact rationals: the embedding
      follows the window structure and the NaN propagation of the pandas
      calls, not IEEE rounding.
    - The Streamlit script is a function from the widget values of one run to
      the new session state, the new table and the list of calls it makes
      (messages, fetches, charts).
    - A Python [str] is the [string] of its UTF-8 bytes; [str.upper()]
      follows the case mapping of Python 3.11 (Unicode 14.0), given as a
      table.
    - In [main_app] the lines [with tab1:] and [with tab3:] stand one column
      to the left of [with tab2:] and [with tab4:]; the embedding reads the
      four blocks as the body of the [else] branch, in their order. *)

From Stdlib Require Import String Ascii List Sorted Bool Arith NArith ZArith QArith Lia Lqa.
Import ListNotations.

(** ** Cells and series *)

Definition cell := option Q.
Definition Series := list cell.

Definition NaN : cell := None.

Definition lift2 (f : Q -> Q -> Q) (a b : cell) : cell :=
  match a, b with
  | Some x, Some y => Some (f x y)
  | _, _ => NaN
  end.

Definition cadd : cell -> cell -> cell := lift2 Qplus.
Definition csub : cell -> cell -> cell := lift2 Qminus.
Definition cmul : cell -> cell -> cell := lift2 Qmult.

(** Division.  The code never divides by a zero (theorem
    [rsi_divisors_nonzero]); a zero divisor gives no number here. *)
Definition cdiv (a b : cell) : cell :=
  match a, b with
  | Some x, Some y => if Qeq_bool y 0 then NaN else Some (x / y)
  | _, _ => NaN
  end.

(** Equality of cells up to the equality of rationals. *)
Definition cell_eq (a b : cell) : Prop :=
  match a, b with
  | Some x, Some y => x == y
  | None, None => True
  | _, _ => False
  end.

Definition defined (c : cell) : Prop := c <> NaN.

(** [a op b] on two series with the same index. *)
Definition series_op (f : cell -> cell -> cell) (a b : Series) : Series :=
  map (fun xy => f (fst xy) (snd xy)) (combine a b).

(** [Series.diff()]: the first row has no predecessor. *)
Fixpoint diff_from (prev : cell) (s : Series) : Series :=
  match s with
  | [] => []
  | x :: rest => csub x prev :: diff_from x rest
  end.

Definition diff (s : Series) : Series := diff_from NaN s.

(** [Series.clip(lower=lo)] and [Series.clip(upper=hi)]. *)
Definition clip_lower (lo : Q) (s : Series) : Series :=
  map (option_map (fun x => if Qle_bool lo x then x else lo)) s.

Definition clip_upper (hi : Q) (s : Series) : Series :=
  map (option_map (fun x => if Qle_bool x hi then x else hi)) s.

(** [Series.replace(old, new)]. *)
Definition replace_cell (old : Q) (new : cell) (c : cell) : cell :=
  match c with
  | Some x => if Qeq_bool x old then new else c
  | None => c
  end.

Definition replace (old : Q) (new : cell) (s : Series) : Series :=
  map (replace_cell old new) s.

(** *** Rolling windows

    [Series.rolling(window=w)] with the default [min_periods = w]: the window
    of row [i] holds rows [i-w+1 .. i] that exist; the aggregate is NaN unless
    the window has at least [w] observations (cells that are not NaN). *)

Definition window (w i : nat) (s : Series) : Series :=
  skipn (i + 1 - w) (firstn (i + 1) s).

Fixpoint observations (win : Series) : list Q :=
  match win with
  | [] => []
  | Some x :: rest => x :: observations rest
  | None :: rest => observations rest
  end.

Definition rolling_at (agg : list Q -> cell) (w : nat) (s : Series) (i : nat) : cell :=
  let obs := observations (window w i s) in
  if (length obs <? w)%nat then NaN else agg obs.

Definition rolling (agg : list Q -> cell) (w : nat) (s : Series) : Series :=
  map (rolling_at agg w s) (seq 0 (length s)).

Definition Qsum (l : list Q) : Q := fold_right Qplus 0 l.

Definition Qlen (l : list Q) : Q := inject_Z (Z.of_nat (length l)).

Definition mean (obs : list Q) : cell :=
  match obs with
  | [] => NaN
  | _ => Some (Qsum obs / Qlen obs)
  end.

Definition rolling_mean : nat -> Series -> Series := rolling mean.

(** *** Exponentially weighted mean

    [Series.ewm(span=n, adjust=False).mean()] with [ignore_na=False]:
    [weighted] is the running average, [old_wt] its weight, which decays by
    [1 - alpha] at every row, also at a NaN row. *)

Definition alpha (span : Z) : Q := 2 / (inject_Z span + 1).

Fixpoint ewm_from (a : Q) (weighted : cell) (old_wt : Q) (s : Series) : Series :=
  match s with
  | [] => []
  | cur :: rest =>
      match weighted, cur with
      | Some wv, Some c =>
          let ow := old_wt * (1 - a) in
          let wv' := (ow * wv + a * c) / (ow + a) in
          Some wv' :: ewm_from a (Some wv') 1 rest
      | Some wv, None => Some wv :: ewm_from a weighted (old_wt * (1 - a)) rest
      | None, Some c => Some c :: ewm_from a cur 1 rest
      | None, None => NaN :: ewm_from a NaN 1 rest
      end
  end.

Definition ewm_mean (span : Z) (s : Series) : Series :=
  ewm_from (alpha span) NaN 1 s.

(** ** Credential store *)

Record user := mkUser { id : Z; username : string; password : string }.

(** The table [users] and the AUTOINCREMENT counter of [sqlite_sequence]. *)
Record table := mkTable { rows : list user; last_id : Z }.

Definition empty_table : table := mkTable [] 0.

(** [DB_FILE] before and after [CREATE TABLE IF NOT EXISTS]. *)
Definition initialize_database (db : option table) : table :=
  match db with
  | Some t => t
  | None => empty_table
  end.

(** [username TEXT UNIQUE]: the insert raises [IntegrityError] when a row
    has this username already. *)
Definition username_taken (u : string) (t : table) : bool :=
  existsb (fun r => String.eqb (username r) u) (rows t).

Definition register_user (u p : string) (t : table) : table * bool :=
  if username_taken u t then (t, false)
  else (mkTable (rows t ++ [mkUser (last_id t + 1) u p]) (last_id t + 1), true).

(** [SELECT * FROM users WHERE username = ? AND password = ?], then
    [fetchone() is not None]. *)
Definition select_user (u p : string) (t : table) : option user :=
  find (fun r => String.eqb (username r) u && String.eqb (password r) p) (rows t).

Definition authenticate_user (u p : string) (t : table) : bool :=
  match select_user u p t with
  | Some _ => true
  | None => false
  end.

(** The password stored for a username, if any. *)
Definition stored_password (u : string) (t : table) : option string :=
  option_map password (find (fun r => String.eqb (username r) u) (rows t)).

(** ** Dates, tickers and fetched rows *)

Record date := mkDate { year : Z; month : Z; day : Z }.

(** [a > b] on [datetime.date]. *)
Definition date_gt (a b : date) : bool :=
  match (year a ?= year b)%Z with
  | Gt => true
  | Lt => false
  | Eq => match (month a ?= month b)%Z with
          | Gt => true
          | Lt => false
          | Eq => (day b <? day a)%Z
          end
  end.

(** *** Text

    A Python [str] is a sequence of Unicode code points; here it is the
    [string] of its UTF-8 bytes, which is well formed for every text a
    widget returns. *)

Definition continuation (b : ascii) : N := (N_of_ascii b mod 64)%N.

Fixpoint utf8_decode (s : string) : list N :=
  match s with
  | EmptyString => []
  | String b0 r0 =>
      let n0 := N_of_ascii b0 in
      if (n0 <? 192)%N then n0 :: utf8_decode r0
      else if (n0 <? 224)%N then
        match r0 with
        | String b1 r1 =>
            ((n0 - 192) * 64 + continuation b1)%N :: utf8_decode r1
        | _ => n0 :: utf8_decode r0
        end
      else if (n0 <? 240)%N then
        match r0 with
        | String b1 (String b2 r2) =>
            ((n0 - 224) * 4096 + continuation b1 * 64 + continuation b2)%N
            :: utf8_decode r2
        | _ => n0 :: utf8_decode r0
        end
      else
        match r0 with
        | String b1 (String b2 (String b3 r3)) =>
            ((n0 - 240) * 262144 + continuation b1 * 4096
             + continuation b2 * 64 + continuation b3)%N
            :: utf8_decode r3
        | _ => n0 :: utf8_decode r0
        end
  end.

Definition utf8_encode_code (c : N) : string :=
  if (c <? 128)%N then String (ascii_of_N c) EmptyString
  else if (c <? 2048)%N then
    String (ascii_of_N (192 + c / 64))
      (String (ascii_of_N (128 + c mod 64)) EmptyString)
  else if (c <? 65536)%N then
    String (ascii_of_N (224 + c / 4096))
      (String (ascii_of_N (128 + (c / 64) mod 64))
         (String (ascii_of_N (128 + c mod 64)) EmptyString))
  else
    String (ascii_of_N (240 + c / 262144))
      (String (ascii_of_N (128 + (c / 4096) mod 64))
         (String (ascii_of_N (128 + (c / 64) mod 64))
            (String (ascii_of_N (128 + c mod 64)) EmptyString))).

Fixpoint utf8_encode (l : list N) : string :=
  match l with
  | [] => EmptyString
  | c :: rest => append (utf8_encode_code c) (utf8_encode rest)
  end.

(** The code points that [str.upper()] changes, each with the code points
    it becomes (Unicode 14.0, full case mapping). *)
Definition upper_table : list (N * list N) :=
  [(97, [65]); (98, [66]); (99, [67]); (100, [68]); (101, [69]); (102, [70]);
   (103, [71]); (104, [72]); (105, [73]); (106, [74]); (107, [75]);
   (108, [76]); (109, [77]); (110, [78]); (111, [79]); (112, [80]);
   (113, [81]); (114, [82]); (115, [83]); (116, [84]); (117, [85]);
   (118, [86]); (119, [87]); (120, [88]); (121, [89]); (122, [90]);
   (181, [924]); (223, [83; 83]); (224, [192]); (225, [193]); (226, [194]);
   (227, [195]); (228, [196]); (229, [197]); (230, [198]); (231, [199]);
   (232, [200]); (233, [201]); (234, [202]); (235, [203]); (236, [204]);
   (237, [205]); (238, [206]); (239, [207]); (240, [208]); (241, [209]);
   (242, [210]); (243, [211]); (244, [212]); (245, [213]); (246, [214]);
   (248, [216]); (249, [217]); (250, [218]); (251, [219]); (252, [220]);
   (253, [221]); (254, [222]); (255, [376]); (257, [256]); (259, [258]);
   (261, [260]); (263, [262]); (265, [264]); (267, [266]); (269, [268]);
   (271, [270]); (273, [272]); (275, [274]); (277, [276]); (279, [278]);
   (281, [280]); (283, [282]); (285, [284]); (287, [286]); (289, [288]);
   (291, [290]); (293, [292]); (295, [294]); (297, [296]); (299, [298]);
   (301, [300]); (303, [302]); (305, [73]); (307, [306]); (309, [308]);
   (311, [310]); (314, [313]); (316, [315]); (318, [317]); (320, [319]);
   (322, [321]); (324, [323]); (326, [325]); (328, [327]); (329, [700; 78]);
   (331, [330]); (333, [332]); (335, [334]); (337, [336]); (339, [338]);
   (341, [340]); (343, [342]); (345, [344]); (347, [346]); (349, [348]);
   (351, [350]); (353, [352]); (355, [354]); (357, [356]); (359, [358]);
   (361, [360]); (363, [362]); (365, [364]); (367, [366]); (369, [368]);
   (371, [370]); (373, [372]); (375, [374]); (378, [377]); (380, [379]);
   (382, [381]); (383, [83]); (384, [579]); (387, [386]); (389, [388]);
   (392, [391]); (396, [395]); (402, [401]); (405, [502]); (409, [408]);
   (410, [573]); (414, [544]); (417, [416]); (419, [418]); (421, [420]);
   (424, [423]); (429, [428]); (432, [431]); (436, [435]); (438, [437]);
   (441, [440]); (445, [444]); (447, [503]); (453, [452]); (454, [452]);
   (456, [455]); (457, [455]); (459, [458]); (460, [458]); (462, [461]);
   (464, [463]); (466, [465]); (468, [467]); (470, [469]); (472, [471]);
   (474, [473]); (476, [475]); (477, [398]); (479, [478]); (481, [480]);
   (483, [482]); (485, [484]); (487, [486]); (489, [488]); (491, [490]);
   (493, [492]); (495, [494]); (496, [74; 780]); (498, [497]); (499, [497]);
   (501, [500]); (505, [504]); (507, [506]); (509, [508]); (511, [510]);
   (513, [512]); (515, [514]); (517, [516]); (519, [518]); (521, [520]);
   (523, [522]); (525, [524]); (527, [526]); (529, [528]); (531, [530]);
   (533, [532]); (535, [534]); (537, [536]); (539, [538]); (541, [540]);
   (543, [542]); (547, [546]); (549, [548]); (551, [550]); (553, [552]);
   (555, [554]); (557, [556]); (559, [558]); (561, [560]); (563, [562]);
   (572, [571]); (575, [11390]); (576, [11391]); (578, [577]); (583, [582]);
   (585, [584]); (587, [586]); (589, [588]); (591, [590]); (592, [11375]);
   (593, [11373]); (594, [11376]); (595, [385]); (596, [390]); (598, [393]);
   (599, [394]); (601, [399]); (603, [400]); (604, [42923]); (608, [403]);
   (609, [42924]); (611, [404]); (613, [42893]); (614, [42922]);
   (616, [407]); (617, [406]); (618, [42926]); (619, [11362]);
   (620, [42925]); (623, [412]); (625, [11374]); (626, [413]); (629, [415]);
   (637, [11364]); (640, [422]); (642, [42949]); (643, [425]);
   (647, [42929]); (648, [430]); (649, [580]); (650, [433]); (651, [434]);
   (652, [581]); (658, [439]); (669, [42930]); (670, [42928]); (837, [921]);
   (881, [880]); (883, [882]); (887, [886]); (891, [1021]); (892, [1022]);
   (893, [1023]); (912, [921; 776; 769]); (940, [902]); (941, [904]);
   (942, [905]); (943, [906]); (944, [933; 776; 769]); (945, [913]);
   (946, [914]); (947, [915]); (948, [916]); (949, [917]); (950, [918]);
   (951, [919]); (952, [920]); (953, [921]); (954, [922]); (955, [923]);
   (956, [924]); (957, [925]); (958, [926]); (959, [927]); (960, [928]);
   (961, [929]); (962, [931]); (963, [931]); (964, [932]); (965, [933]);
   (966, [934]); (967, [935]); (968, [936]); (969, [937]); (970, [938]);
   (971, [939]); (972, [908]); (973, [910]); (974, [911]); (976, [914]);
   (977, [920]); (981, [934]); (982, [928]); (983, [975]); (985, [984]);
   (987, [986]); (989, [988]); (991, [990]); (993, [992]); (995, [994]);
   (997, [996]); (999, [998]); (1001, [1000]); (1003, [1002]);
   (1005, [1004]); (1007, [1006]); (1008, [922]); (1009, [929]);
   (1010, [1017]); (1011, [895]); (1013, [917]); (1016, [1015]);
   (1019, [1018]); (1072, [1040]); (1073, [1041]); (1074, [1042]);
   (1075, [1043]); (1076, [1044]); (1077, [1045]); (1078, [1046]);
   (1079, [1047]); (1080, [1048]); (1081, [1049]); (1082, [1050]);
   (1083, [1051]); (1084, [1052]); (1085, [1053]); (1086, [1054]);
   (1087, [1055]); (1088, [1056]); (1089, [1057]); (1090, [1058]);
   (1091, [1059]); (1092, [1060]); (1093, [1061]); (1094, [1062]);
   (1095, [1063]); (1096, [1064]); (1097, [1065]); (1098, [1066]);
   (1099, [1067]); (1100, [1068]); (1101, [1069]); (1102, [1070]);
   (1103, [1071]); (1104, [1024]); (1105, [1025]); (1106, [1026]);
   (1107, [1027]); (1108, [1028]); (1109, [1029]); (1110, [1030]);
   (1111, [1031]); (1112, [1032]); (1113, [1033]); (1114, [1034]);
   (1115, [1035]); (1116, [1036]); (1117, [1037]); (1118, [1038]);
   (1119, [1039]); (1121, [1120]); (1123, [1122]); (1125, [1124]);
   (1127, [1126]); (1129, [1128]); (1131, [1130]); (1133, [1132]);
   (1135, [1134]); (1137, [1136]); (1139, [1138]); (1141, [1140]);
   (1143, [1142]); (1145, [1144]); (1147, [1146]); (1149, [1148]);
   (1151, [1150]); (1153, [1152]); (1163, [1162]); (1165, [1164]);
   (1167, [1166]); (1169, [1168]); (1171, [1170]); (1173, [1172]);
   (1175, [1174]); (1177, [1176]); (1179, [1178]); (1181, [1180]);
   (1183, [1182]); (1185, [1184]); (1187, [1186]); (1189, [1188]);
   (1191, [1190]); (1193, [1192]); (1195, [1194]); (1197, [1196]);
   (1199, [1198]); (1201, [1200]); (1203, [1202]); (1205, [1204]);
   (1207, [1206]); (1209, [1208]); (1211, [1210]); (1213, [1212]);
   (1215, [1214]); (1218, [1217]); (1220, [1219]); (1222, [1221]);
   (1224, [1223]); (1226, [1225]); (1228, [1227]); (1230, [1229]);
   (1231, [1216]); (1233, [1232]); (1235, [1234]); (1237, [1236]);
   (1239, [1238]); (1241, [1240]); (1243, [1242]); (1245, [1244]);
   (1247, [1246]); (1249, [1248]); (1251, [1250]); (1253, [1252]);
   (1255, [1254]); (1257, [1256]); (1259, [1258]); (1261, [1260]);
   (1263, [1262]); (1265, [1264]); (1267, [1266]); (1269, [1268]);
   (1271, [1270]); (1273, [1272]); (1275, [1274]); (1277, [1276]);
   (1279, [1278]); (1281, [1280]); (1283, [1282]); (1285, [1284]);
   (1287, [1286]); (1289, [1288]); (1291, [1290]); (1293, [1292]);
   (1295, [1294]); (1297, [1296]); (1299, [1298]); (1301, [1300]);
   (1303, [1302]); (1305, [1304]); (1307, [1306]); (1309, [1308]);
   (1311, [1310]); (1313, [1312]); (1315, [1314]); (1317, [1316]);
   (1319, [1318]); (1321, [1320]); (1323, [1322]); (1325, [1324]);
   (1327, [1326]); (1377, [1329]); (1378, [1330]); (1379, [1331]);
   (1380, [1332]); (1381, [1333]); (1382, [1334]); (1383, [1335]);
   (1384, [1336]); (1385, [1337]); (1386, [1338]); (1387, [1339]);
   (1388, [1340]); (1389, [1341]); (1390, [1342]); (1391, [1343]);
   (1392, [1344]); (1393, [1345]); (1394, [1346]); (1395, [1347]);
   (1396, [1348]); (1397, [1349]); (1398, [1350]); (1399, [1351]);
   (1400, [1352]); (1401, [1353]); (1402, [1354]); (1403, [1355]);
   (1404, [1356]); (1405, [1357]); (1406, [1358]); (1407, [1359]);
   (1408, [1360]); (1409, [1361]); (1410, [1362]); (1411, [1363]);
   (1412, [1364]); (1413, [1365]); (1414, [1366]); (1415, [1333; 1362]);
   (4304, [7312]); (4305, [7313]); (4306, [7314]); (4307, [7315]);
   (4308, [7316]); (4309, [7317]); (4310, [7318]); (4311, [7319]);
   (4312, [7320]); (4313, [7321]); (4314, [7322]); (4315, [7323]);
   (4316, [7324]); (4317, [7325]); (4318, [7326]); (4319, [7327]);
   (4320, [7328]); (4321, [7329]); (4322, [7330]); (4323, [7331]);
   (4324, [7332]); (4325, [7333]); (4326, [7334]); (4327, [7335]);
   (4328, [7336]); (4329, [7337]); (4330, [7338]); (4331, [7339]);
   (4332, [7340]); (4333, [7341]); (4334, [7342]); (4335, [7343]);
   (4336, [7344]); (4337, [7345]); (4338, [7346]); (4339, [7347]);
   (4340, [7348]); (4341, [7349]); (4342, [7350]); (4343, [7351]);
   (4344, [7352]); (4345, [7353]); (4346, [7354]); (4349, [7357]);
   (4350, [7358]); (4351, [7359]); (5112, [5104]); (5113, [5105]);
   (5114, [5106]); (5115, [5107]); (5116, [5108]); (5117, [5109]);
   (7296, [1042]); (7297, [1044]); (7298, [1054]); (7299, [1057]);
   (7300, [1058]); (7301, [1058]); (7302, [1066]); (7303, [1122]);
   (7304, [42570]); (7545, [42877]); (7549, [11363]); (7566, [42950]);
   (7681, [7680]); (7683, [7682]); (7685, [7684]); (7687, [7686]);
   (7689, [7688]); (7691, [7690]); (7693, [7692]); (7695, [7694]);
   (7697, [7696]); (7699, [7698]); (7701, [7700]); (7703, [7702]);
   (7705, [7704]); (7707, [7706]); (7709, [7708]); (7711, [7710]);
   (7713, [7712]); (7715, [7714]); (7717, [7716]); (7719, [7718]);
   (7721, [7720]); (7723, [7722]); (7725, [7724]); (7727, [7726]);
   (7729, [7728]); (7731, [7730]); (7733, [7732]); (7735, [7734]);
   (7737, [7736]); (7739, [7738]); (7741, [7740]); (7743, [7742]);
   (7745, [7744]); (7747, [7746]); (7749, [7748]); (7751, [7750]);
   (7753, [7752]); (7755, [7754]); (7757, [7756]); (7759, [7758]);
   (7761, [7760]); (7763, [7762]); (7765, [7764]); (7767, [7766]);
   (7769, [7768]); (7771, [7770]); (7773, [7772]); (7775, [7774]);
   (7777, [7776]); (7779, [7778]); (7781, [7780]); (7783, [7782]);
   (7785, [7784]); (7787, [7786]); (7789, [7788]); (7791, [7790]);
   (7793, [7792]); (7795, [7794]); (7797, [7796]); (7799, [7798]);
   (7801, [7800]); (7803, [7802]); (7805, [7804]); (7807, [7806]);
   (7809, [7808]); (7811, [7810]); (7813, [7812]); (7815, [7814]);
   (7817, [7816]); (7819, [7818]); (7821, [7820]); (7823, [7822]);
   (7825, [7824]); (7827, [7826]); (7829, [7828]); (7830, [72; 817]);
   (7831, [84; 776]); (7832, [87; 778]); (7833, [89; 778]);
   (7834, [65; 702]); (7835, [7776]); (7841, [7840]); (7843, [7842]);
   (7845, [7844]); (7847, [7846]); (7849, [7848]); (7851, [7850]);
   (7853, [7852]); (7855, [7854]); (7857, [7856]); (7859, [7858]);
   (7861, [7860]); (7863, [7862]); (7865, [7864]); (7867, [7866]);
   (7869, [7868]); (7871, [7870]); (7873, [7872]); (7875, [7874]);
   (7877, [7876]); (7879, [7878]); (7881, [7880]); (7883, [7882]);
   (7885, [7884]); (7887, [7886]); (7889, [7888]); (7891, [7890]);
   (7893, [7892]); (7895, [7894]); (7897, [7896]); (7899, [7898]);
   (7901, [7900]); (7903, [7902]); (7905, [7904]); (7907, [7906]);
   (7909, [7908]); (7911, [7910]); (7913, [7912]); (7915, [7914]);
   (7917, [7916]); (7919, [7918]); (7921, [7920]); (7923, [7922]);
   (7925, [7924]); (7927, [7926]); (7929, [7928]); (7931, [7930]);
   (7933, [7932]); (7935, [7934]); (7936, [7944]); (7937, [7945]);
   (7938, [7946]); (7939, [7947]); (7940, [7948]); (7941, [7949]);
   (7942, [7950]); (7943, [7951]); (7952, [7960]); (7953, [7961]);
   (7954, [7962]); (7955, [7963]); (7956, [7964]); (7957, [7965]);
   (7968, [7976]); (7969, [7977]); (7970, [7978]); (7971, [7979]);
   (7972, [7980]); (7973, [7981]); (7974, [7982]); (7975, [7983]);
   (7984, [7992]); (7985, [7993]); (7986, [7994]); (7987, [7995]);
   (7988, [7996]); (7989, [7997]); (7990, [7998]); (7991, [7999]);
   (8000, [8008]); (8001, [8009]); (8002, [8010]); (8003, [8011]);
   (8004, [8012]); (8005, [8013]); (8016, [933; 787]); (8017, [8025]);
   (8018, [933; 787; 768]); (8019, [8027]); (8020, [933; 787; 769]);
   (8021, [8029]); (8022, [933; 787; 834]); (8023, [8031]); (8032, [8040]);
   (8033, [8041]); (8034, [8042]); (8035, [8043]); (8036, [8044]);
   (8037, [8045]); (8038, [8046]); (8039, [8047]); (8048, [8122]);
   (8049, [8123]); (8050, [8136]); (8051, [8137]); (8052, [8138]);
   (8053, [8139]); (8054, [8154]); (8055, [8155]); (8056, [8184]);
   (8057, [8185]); (8058, [8170]); (8059, [8171]); (8060, [8186]);
   (8061, [8187]); (8064, [7944; 921]); (8065, [7945; 921]);
   (8066, [7946; 921]); (8067, [7947; 921]); (8068, [7948; 921]);
   (8069, [7949; 921]); (8070, [7950; 921]); (8071, [7951; 921]);
   (8072, [7944; 921]); (8073, [7945; 921]); (8074, [7946; 921]);
   (8075, [7947; 921]); (8076, [7948; 921]); (8077, [7949; 921]);
   (8078, [7950; 921]); (8079, [7951; 921]); (8080, [7976; 921]);
   (8081, [7977; 921]); (8082, [7978; 921]); (8083, [7979; 921]);
   (8084, [7980; 921]); (8085, [7981; 921]); (8086, [7982; 921]);
   (8087, [7983; 921]); (8088, [7976; 921]); (8089, [7977; 921]);
   (8090, [7978; 921]); (8091, [7979; 921]); (8092, [7980; 921]);
   (8093, [7981; 921]); (8094, [7982; 921]); (8095, [7983; 921]);
   (8096, [8040; 921]); (8097, [8041; 921]); (8098, [8042; 921]);
   (8099, [8043; 921]); (8100, [8044; 921]); (8101, [8045; 921]);
   (8102, [8046; 921]); (8103, [8047; 921]); (8104, [8040; 921]);
   (8105, [8041; 921]); (8106, [8042; 921]); (8107, [8043; 921]);
   (8108, [8044; 921]); (8109, [8045; 921]); (8110, [8046; 921]);
   (8111, [8047; 921]); (8112, [8120]); (8113, [8121]); (8114, [8122; 921]);
   (8115, [913; 921]); (8116, [902; 921]); (8118, [913; 834]);
   (8119, [913; 834; 921]); (8124, [913; 921]); (8126, [921]);
   (8130, [8138; 921]); (8131, [919; 921]); (8132, [905; 921]);
   (8134, [919; 834]); (8135, [919; 834; 921]); (8140, [919; 921]);
   (8144, [8152]); (8145, [8153]); (8146, [921; 776; 768]);
   (8147, [921; 776; 769]); (8150, [921; 834]); (8151, [921; 776; 834]);
   (8160, [8168]); (8161, [8169]); (8162, [933; 776; 768]);
   (8163, [933; 776; 769]); (8164, [929; 787]); (8165, [8172]);
   (8166, [933; 834]); (8167, [933; 776; 834]); (8178, [8186; 921]);
   (8179, [937; 921]); (8180, [911; 921]); (8182, [937; 834]);
   (8183, [937; 834; 921]); (8188, [937; 921]); (8526, [8498]);
   (8560, [8544]); (8561, [8545]); (8562, [8546]); (8563, [8547]);
   (8564, [8548]); (8565, [8549]); (8566, [8550]); (8567, [8551]);
   (8568, [8552]); (8569, [8553]); (8570, [8554]); (8571, [8555]);
   (8572, [8556]); (8573, [8557]); (8574, [8558]); (8575, [8559]);
   (8580, [8579]); (9424, [9398]); (9425, [9399]); (9426, [9400]);
   (9427, [9401]); (9428, [9402]); (9429, [9403]); (9430, [9404]);
   (9431, [9405]); (9432, [9406]); (9433, [9407]); (9434, [9408]);
   (9435, [9409]); (9436, [9410]); (9437, [9411]); (9438, [9412]);
   (9439, [9413]); (9440, [9414]); (9441, [9415]); (9442, [9416]);
   (9443, [9417]); (9444, [9418]); (9445, [9419]); (9446, [9420]);
   (9447, [9421]); (9448, [9422]); (9449, [9423]); (11312, [11264]);
   (11313, [11265]); (11314, [11266]); (11315, [11267]); (11316, [11268]);
   (11317, [11269]); (11318, [11270]); (11319, [11271]); (11320, [11272]);
   (11321, [11273]); (11322, [11274]); (11323, [11275]); (11324, [11276]);
   (11325, [11277]); (11326, [11278]); (11327, [11279]); (11328, [11280]);
   (11329, [11281]); (11330, [11282]); (11331, [11283]); (11332, [11284]);
   (11333, [11285]); (11334, [11286]); (11335, [11287]); (11336, [11288]);
   (11337, [11289]); (11338, [11290]); (11339, [11291]); (11340, [11292]);
   (11341, [11293]); (11342, [11294]); (11343, [11295]); (11344, [11296]);
   (11345, [11297]); (11346, [11298]); (11347, [11299]); (11348, [11300]);
   (11349, [11301]); (11350, [11302]); (11351, [11303]); (11352, [11304]);
   (11353, [11305]); (11354, [11306]); (11355, [11307]); (11356, [11308]);
   (11357, [11309]); (11358, [11310]); (11359, [11311]); (11361, [11360]);
   (11365, [570]); (11366, [574]); (11368, [11367]); (11370, [11369]);
   (11372, [11371]); (11379, [11378]); (11382, [11381]); (11393, [11392]);
   (11395, [11394]); (11397, [11396]); (11399, [11398]); (11401, [11400]);
   (11403, [11402]); (11405, [11404]); (11407, [11406]); (11409, [11408]);
   (11411, [11410]); (11413, [11412]); (11415, [11414]); (11417, [11416]);
   (11419, [11418]); (11421, [11420]); (11423, [11422]); (11425, [11424]);
   (11427, [11426]); (11429, [11428]); (11431, [11430]); (11433, [11432]);
   (11435, [11434]); (11437, [11436]); (11439, [11438]); (11441, [11440]);
   (11443, [11442]); (11445, [11444]); (11447, [11446]); (11449, [11448]);
   (11451, [11450]); (11453, [11452]); (11455, [11454]); (11457, [11456]);
   (11459, [11458]); (11461, [11460]); (11463, [11462]); (11465, [11464]);
   (11467, [11466]); (11469, [11468]); (11471, [11470]); (11473, [11472]);
   (11475, [11474]); (11477, [11476]); (11479, [11478]); (11481, [11480]);
   (11483, [11482]); (11485, [11484]); (11487, [11486]); (11489, [11488]);
   (11491, [11490]); (11500, [11499]); (11502, [11501]); (11507, [11506]);
   (11520, [4256]); (11521, [4257]); (11522, [4258]); (11523, [4259]);
   (11524, [4260]); (11525, [4261]); (11526, [4262]); (11527, [4263]);
   (11528, [4264]); (11529, [4265]); (11530, [4266]); (11531, [4267]);
   (11532, [4268]); (11533, [4269]); (11534, [4270]); (11535, [4271]);
   (11536, [4272]); (11537, [4273]); (11538, [4274]); (11539, [4275]);
   (11540, [4276]); (11541, [4277]); (11542, [4278]); (11543, [4279]);
   (11544, [4280]); (11545, [4281]); (11546, [4282]); (11547, [4283]);
   (11548, [4284]); (11549, [4285]); (11550, [4286]); (11551, [4287]);
   (11552, [4288]); (11553, [4289]); (11554, [4290]); (11555, [4291]);
   (11556, [4292]); (11557, [4293]); (11559, [4295]); (11565, [4301]);
   (42561, [42560]); (42563, [42562]); (42565, [42564]); (42567, [42566]);
   (42569, [42568]); (42571, [42570]); (42573, [42572]); (42575, [42574]);
   (42577, [42576]); (42579, [42578]); (42581, [42580]); (42583, [42582]);
   (42585, [42584]); (42587, [42586]); (42589, [42588]); (42591, [42590]);
   (42593, [42592]); (42595, [42594]); (42597, [42596]); (42599, [42598]);
   (42601, [42600]); (42603, [42602]); (42605, [42604]); (42625, [42624]);
   (42627, [42626]); (42629, [42628]); (42631, [42630]); (42633, [42632]);
   (42635, [42634]); (42637, [42636]); (42639, [42638]); (42641, [42640]);
   (42643, [42642]); (42645, [42644]); (42647, [42646]); (42649, [42648]);
   (42651, [42650]); (42787, [42786]); (42789, [42788]); (42791, [42790]);
   (42793, [42792]); (42795, [42794]); (42797, [42796]); (42799, [42798]);
   (42803, [42802]); (42805, [42804]); (42807, [42806]); (42809, [42808]);
   (42811, [42810]); (42813, [42812]); (42815, [42814]); (42817, [42816]);
   (42819, [42818]); (42821, [42820]); (42823, [42822]); (42825, [42824]);
   (42827, [42826]); (42829, [42828]); (42831, [42830]); (42833, [42832]);
   (42835, [42834]); (42837, [42836]); (42839, [42838]); (42841, [42840]);
   (42843, [42842]); (42845, [42844]); (42847, [42846]); (42849, [42848]);
   (42851, [42850]); (42853, [42852]); (42855, [42854]); (42857, [42856]);
   (42859, [42858]); (42861, [42860]); (42863, [42862]); (42874, [42873]);
   (42876, [42875]); (42879, [42878]); (42881, [42880]); (42883, [42882]);
   (42885, [42884]); (42887, [42886]); (42892, [42891]); (42897, [42896]);
   (42899, [42898]); (42900, [42948]); (42903, [42902]); (42905, [42904]);
   (42907, [42906]); (42909, [42908]); (42911, [42910]); (42913, [42912]);
   (42915, [42914]); (42917, [42916]); (42919, [42918]); (42921, [42920]);
   (42933, [42932]); (42935, [42934]); (42937, [42936]); (42939, [42938]);
   (42941, [42940]); (42943, [42942]); (42945, [42944]); (42947, [42946]);
   (42952, [42951]); (42954, [42953]); (42961, [42960]); (42967, [42966]);
   (42969, [42968]); (42998, [42997]); (43859, [42931]); (43888, [5024]);
   (43889, [5025]); (43890, [5026]); (43891, [5027]); (43892, [5028]);
   (43893, [5029]); (43894, [5030]); (43895, [5031]); (43896, [5032]);
   (43897, [5033]); (43898, [5034]); (43899, [5035]); (43900, [5036]);
   (43901, [5037]); (43902, [5038]); (43903, [5039]); (43904, [5040]);
   (43905, [5041]); (43906, [5042]); (43907, [5043]); (43908, [5044]);
   (43909, [5045]); (43910, [5046]); (43911, [5047]); (43912, [5048]);
   (43913, [5049]); (43914, [5050]); (43915, [5051]); (43916, [5052]);
   (43917, [5053]); (43918, [5054]); (43919, [5055]); (43920, [5056]);
   (43921, [5057]); (43922, [5058]); (43923, [5059]); (43924, [5060]);
   (43925, [5061]); (43926, [5062]); (43927, [5063]); (43928, [5064]);
   (43929, [5065]); (43930, [5066]); (43931, [5067]); (43932, [5068]);
   (43933, [5069]); (43934, [5070]); (43935, [5071]); (43936, [5072]);
   (43937, [5073]); (43938, [5074]); (43939, [5075]); (43940, [5076]);
   (43941, [5077]); (43942, [5078]); (43943, [5079]); (43944, [5080]);
   (43945, [5081]); (43946, [5082]); (43947, [5083]); (43948, [5084]);
   (43949, [5085]); (43950, [5086]); (43951, [5087]); (43952, [5088]);
   (43953, [5089]); (43954, [5090]); (43955, [5091]); (43956, [5092]);
   (43957, [5093]); (43958, [5094]); (43959, [5095]); (43960, [5096]);
   (43961, [5097]); (43962, [5098]); (43963, [5099]); (43964, [5100]);
   (43965, [5101]); (43966, [5102]); (43967, [5103]); (64256, [70; 70]);
   (64257, [70; 73]); (64258, [70; 76]); (64259, [70; 70; 73]);
   (64260, [70; 70; 76]); (64261, [83; 84]); (64262, [83; 84]);
   (64275, [1348; 1350]); (64276, [1348; 1333]); (64277, [1348; 1339]);
   (64278, [1358; 1350]); (64279, [1348; 1341]); (65345, [65313]);
   (65346, [65314]); (65347, [65315]); (65348, [65316]); (65349, [65317]);
   (65350, [65318]); (65351, [65319]); (65352, [65320]); (65353, [65321]);
   (65354, [65322]); (65355, [65323]); (65356, [65324]); (65357, [65325]);
   (65358, [65326]); (65359, [65327]); (65360, [65328]); (65361, [65329]);
   (65362, [65330]); (65363, [65331]); (65364, [65332]); (65365, [65333]);
   (65366, [65334]); (65367, [65335]); (65368, [65336]); (65369, [65337]);
   (65370, [65338]); (66600, [66560]); (66601, [66561]); (66602, [66562]);
   (66603, [66563]); (66604, [66564]); (66605, [66565]); (66606, [66566]);
   (66607, [66567]); (66608, [66568]); (66609, [66569]); (66610, [66570]);
   (66611, [66571]); (66612, [66572]); (66613, [66573]); (66614, [66574]);
   (66615, [66575]); (66616, [66576]); (66617, [66577]); (66618, [66578]);
   (66619, [66579]); (66620, [66580]); (66621, [66581]); (66622, [66582]);
   (66623, [66583]); (66624, [66584]); (66625, [66585]); (66626, [66586]);
   (66627, [66587]); (66628, [66588]); (66629, [66589]); (66630, [66590]);
   (66631, [66591]); (66632, [66592]); (66633, [66593]); (66634, [66594]);
   (66635, [66595]); (66636, [66596]); (66637, [66597]); (66638, [66598]);
   (66639, [66599]); (66776, [66736]); (66777, [66737]); (66778, [66738]);
   (66779, [66739]); (66780, [66740]); (66781, [66741]); (66782, [66742]);
   (66783, [66743]); (66784, [66744]); (66785, [66745]); (66786, [66746]);
   (66787, [66747]); (66788, [66748]); (66789, [66749]); (66790, [66750]);
   (66791, [66751]); (66792, [66752]); (66793, [66753]); (66794, [66754]);
   (66795, [66755]); (66796, [66756]); (66797, [66757]); (66798, [66758]);
   (66799, [66759]); (66800, [66760]); (66801, [66761]); (66802, [66762]);
   (66803, [66763]); (66804, [66764]); (66805, [66765]); (66806, [66766]);
   (66807, [66767]); (66808, [66768]); (66809, [66769]); (66810, [66770]);
   (66811, [66771]); (66967, [66928]); (66968, [66929]); (66969, [66930]);
   (66970, [66931]); (66971, [66932]); (66972, [66933]); (66973, [66934]);
   (66974, [66935]); (66975, [66936]); (66976, [66937]); (66977, [66938]);
   (66979, [66940]); (66980, [66941]); (66981, [66942]); (66982, [66943]);
   (66983, [66944]); (66984, [66945]); (66985, [66946]); (66986, [66947]);
   (66987, [66948]); (66988, [66949]); (66989, [66950]); (66990, [66951]);
   (66991, [66952]); (66992, [66953]); (66993, [66954]); (66995, [66956]);
   (66996, [66957]); (66997, [66958]); (66998, [66959]); (66999, [66960]);
   (67000, [66961]); (67001, [66962]); (67003, [66964]); (67004, [66965]);
   (68800, [68736]); (68801, [68737]); (68802, [68738]); (68803, [68739]);
   (68804, [68740]); (68805, [68741]); (68806, [68742]); (68807, [68743]);
   (68808, [68744]); (68809, [68745]); (68810, [68746]); (68811, [68747]);
   (68812, [68748]); (68813, [68749]); (68814, [68750]); (68815, [68751]);
   (68816, [68752]); (68817, [68753]); (68818, [68754]); (68819, [68755]);
   (68820, [68756]); (68821, [68757]); (68822, [68758]); (68823, [68759]);
   (68824, [68760]); (68825, [68761]); (68826, [68762]); (68827, [68763]);
   (68828, [68764]); (68829, [68765]); (68830, [68766]); (68831, [68767]);
   (68832, [68768]); (68833, [68769]); (68834, [68770]); (68835, [68771]);
   (68836, [68772]); (68837, [68773]); (68838, [68774]); (68839, [68775]);
   (68840, [68776]); (68841, [68777]); (68842, [68778]); (68843, [68779]);
   (68844, [68780]); (68845, [68781]); (68846, [68782]); (68847, [68783]);
   (68848, [68784]); (68849, [68785]); (68850, [68786]); (71872, [71840]);
   (71873, [71841]); (71874, [71842]); (71875, [71843]); (71876, [71844]);
   (71877, [71845]); (71878, [71846]); (71879, [71847]); (71880, [71848]);
   (71881, [71849]); (71882, [71850]); (71883, [71851]); (71884, [71852]);
   (71885, [71853]); (71886, [71854]); (71887, [71855]); (71888, [71856]);
   (71889, [71857]); (71890, [71858]); (71891, [71859]); (71892, [71860]);
   (71893, [71861]); (71894, [71862]); (71895, [71863]); (71896, [71864]);
   (71897, [71865]); (71898, [71866]); (71899, [71867]); (71900, [71868]);
   (71901, [71869]); (71902, [71870]); (71903, [71871]); (93792, [93760]);
   (93793, [93761]); (93794, [93762]); (93795, [93763]); (93796, [93764]);
   (93797, [93765]); (93798, [93766]); (93799, [93767]); (93800, [93768]);
   (93801, [93769]); (93802, [93770]); (93803, [93771]); (93804, [93772]);
   (93805, [93773]); (93806, [93774]); (93807, [93775]); (93808, [93776]);
   (93809, [93777]); (93810, [93778]); (93811, [93779]); (93812, [93780]);
   (93813, [93781]); (93814, [93782]); (93815, [93783]); (93816, [93784]);
   (93817, [93785]); (93818, [93786]); (93819, [93787]); (93820, [93788]);
   (93821, [93789]); (93822, [93790]); (93823, [93791]); (125218, [125184]);
   (125219, [125185]); (125220, [125186]); (125221, [125187]);
   (125222, [125188]); (125223, [125189]); (125224, [125190]);
   (125225, [125191]); (125226, [125192]); (125227, [125193]);
   (125228, [125194]); (125229, [125195]); (125230, [125196]);
   (125231, [125197]); (125232, [125198]); (125233, [125199]);
   (125234, [125200]); (125235, [125201]); (125236, [125202]);
   (125237, [125203]); (125238, [125204]); (125239, [125205]);
   (125240, [125206]); (125241, [125207]); (125242, [125208]);
   (125243, [125209]); (125244, [125210]); (125245, [125211]);
   (125246, [125212]); (125247, [125213]); (125248, [125214]);
   (125249, [125215]); (125250, [125216]); (125251, [125217])]%N.

(** The uppercase form of one code point. *)
Definition upper_code (c : N) : list N :=
  match find (fun e => (fst e =? c)%N) upper_table with
  | Some e => snd e
  | None => [c]
  end.

(** [str.upper()]: every code point gives way to its uppercase form. *)
Definition upper (s : string) : string :=
  utf8_encode (flat_map upper_code (utf8_decode s)).

Record PriceRow := mkRow {
  row_date : date;
  row_open : cell;
  row_high : cell;
  row_low : cell;
  row_close : cell;
  row_volume : Z
}.

(** What [yf.download] gives back: a table, maybe empty, or an exception. *)
Inductive fetch_result :=
| Fetched (data : list PriceRow)
| Raised (e : string).

(** The columns the script adds to [data]. *)
Inductive column :=
| col_MA_days (ma_days : nat)
| col_MA
| col_Std
| col_Upper_Band
| col_Lower_Band
| col_RSI
| col_MACD
| col_Signal_Line.

Record DataFrame := mkFrame {
  price : list PriceRow;
  derived : list (column * Series)
}.

(** ** Calls the script makes *)

Inductive trace :=
| Candlestick (open high low close : Series)
| Scatter (name : column) (y : Series).

Inductive call :=
| st_title (body : string)
| st_success (body : string)
| st_info (body : string)
| st_warning (body : string)
| st_error (body : string)
| st_stop
| yf_download_call (ticker : string) (start stop : date)
| st_tabs
| st_plotly_chart (title : string) (fig : list trace)
| st_dataframe (data : DataFrame).

Inductive menu_choice := Login | Register.

(** The widget values of one run of the script. *)
Record widgets := mkWidgets {
  menu : menu_choice;
  login_username : string;
  login_password : string;
  login_button : bool;
  register_username : string;
  register_password : string;
  register_button : bool;
  logout_button : bool;
  ticker_input : string;
  start_date : date;
  end_date : date;
  ma_days : nat;
  bb_window : nat;
  rsi_period : nat;
  show_data_table : bool
}.

(** [st.session_state]: the value under the key ["authenticated"], [None]
    while the key is absent; and the table of [DB_FILE]. *)
Record world := mkWorld { session_state : option bool; db : table }.

Section Dashboard.

(** The square root of [Series.std()] and the remote data provider. *)
Variable np_sqrt : Q -> Q.
Variable yf_download : string -> date -> date -> fetch_result.

(** *** Indicator engine *)

(** Sample standard deviation ([ddof = 1]). *)
Definition std (obs : list Q) : cell :=
  if (length obs <=? 1)%nat then NaN
  else
    let m := Qsum obs / Qlen obs in
    Some (np_sqrt (Qsum (map (fun x => (x - m) * (x - m)) obs) / (Qlen obs - 1))).

Definition rolling_std : nat -> Series -> Series := rolling std.

Definition Close (data : list PriceRow) : Series := map row_close data.

(** Lines 114 and 119. *)
Definition MA (window : nat) (close : Series) : Series :=
  rolling_mean window close.

(** Line 120. *)
Definition Std (bb_window : nat) (close : Series) : Series :=
  rolling_std bb_window close.

(** Lines 121 and 122. *)
Definition Upper_Band (bb_window : nat) (close : Series) : Series :=
  series_op cadd (MA bb_window close)
            (map (fun c => cmul c (Some 2)) (Std bb_window close)).

Definition Lower_Band (bb_window : nat) (close : Series) : Series :=
  series_op csub (MA bb_window close)
            (map (fun c => cmul c (Some 2)) (Std bb_window close)).

(** Lines 130 to 136. *)
Definition delta (close : Series) : Series := diff close.
Definition up (close : Series) : Series := clip_lower 0 (delta close).
Definition down (close : Series) : Series :=
  map (cmul (Some (-1))) (clip_upper 0 (delta close)).
Definition avg_up (p : nat) (close : Series) : Series :=
  rolling_mean p (up close).
Definition avg_down (p : nat) (close : Series) : Series :=
  rolling_mean p (down close).
Definition rs_divisor (p : nat) (close : Series) : Series :=
  replace 0 NaN (avg_down p close).
Definition rs (p : nat) (close : Series) : Series :=
  series_op cdiv (avg_up p close) (rs_divisor p close).
Definition rsi_divisor (p : nat) (close : Series) : Series :=
  map (cadd (Some 1)) (rs p close).
Definition RSI (p : nat) (close : Series) : Series :=
  map (csub (Some 100)) (map (cdiv (Some 100)) (rsi_divisor p close)).

(** Lines 142 to 145. *)
Definition exp1 (close : Series) : Series := ewm_mean 12 close.
Definition exp2 (close : Series) : Series := ewm_mean 26 close.
Definition MACD (close : Series) : Series :=
  series_op csub (exp1 close) (exp2 close).
Definition Signal_Line (close : Series) : Series :=
  ewm_mean 9 (MACD close).

(** *** The charting view *)

Definition tab1 (ticker : string) (w : widgets) (data : list PriceRow) : call :=
  let close := Close data in
  st_plotly_chart (append "Harga Saham " ticker)
    [Candlestick (map row_open data) (map row_high data) (map row_low data) close;
     Scatter (col_MA_days (ma_days w)) (MA (ma_days w) close);
     Scatter col_Upper_Band (Upper_Band (bb_window w) close);
     Scatter col_Lower_Band (Lower_Band (bb_window w) close)].

Definition tab2 (ticker : string) (w : widgets) (data : list PriceRow) : call :=
  st_plotly_chart (append "RSI " ticker)
    [Scatter col_RSI (RSI (rsi_period w) (Close data))].

Definition tab3 (ticker : string) (data : list PriceRow) : call :=
  st_plotly_chart (append "MACD " ticker)
    [Scatter col_MACD (MACD (Close data));
     Scatter col_Signal_Line (Signal_Line (Close data))].

(** [data] after all tabs have added their columns. *)
Definition final_frame (w : widgets) (data : list PriceRow) : DataFrame :=
  let close := Close data in
  mkFrame data
    [(col_MA_days (ma_days w), MA (ma_days w) close);
     (col_MA, MA (bb_window w) close);
     (col_Std, Std (bb_window w) close);
     (col_Upper_Band, Upper_Band (bb_window w) close);
     (col_Lower_Band, Lower_Band (bb_window w) close);
     (col_RSI, RSI (rsi_period w) close);
     (col_MACD, MACD close);
     (col_Signal_Line, Signal_Line close)].

Definition tab4 (w : widgets) (data : list PriceRow) : list call :=
  if show_data_table w then [st_dataframe (final_frame w data)] else [].

Definition main_app (w : widgets) : list call :=
  let ticker := upper (ticker_input w) in
  st_title "Interactive Stock Candlestick App" ::
  if date_gt (start_date w) (end_date w) then
    [st_error "Start date must be before end date."; st_stop]
  else
    yf_download_call ticker (start_date w) (end_date w) ::
    match yf_download ticker (start_date w) (end_date w) with
    | Raised e =>
        [st_error (append "An error occurred: "
                     (append e ". Please check the ticker symbol and date range."))]
    | Fetched [] =>
        [st_warning (append "No data found for ticker "
                       (append ticker " in the selected date range."))]
    | Fetched data =>
        st_tabs :: tab1 ticker w data :: tab2 ticker w data :: tab3 ticker data
        :: tab4 w data
    end.

(** *** Login, registration and the main program *)

Definition login (w : widgets) (st : world) : world * list call :=
  if login_button w then
    if authenticate_user (login_username w) (login_password w) (db st) then
      (mkWorld (Some true) (db st), [st_title "Login"; st_success "Login successful!"])
    else (st, [st_title "Login"; st_error "Invalid username or password."])
  else (st, [st_title "Login"]).

Definition register (w : widgets) (st : world) : world * list call :=
  if register_button w then
    let '(t, ok) := register_user (register_username w) (register_password w) (db st) in
    if ok then
      (mkWorld (session_state st) t,
       [st_title "Register"; st_success "Registration successful! Please log in."])
    else
      (mkWorld (session_state st) t,
       [st_title "Register";
        st_error "Username already exists. Please choose another username."])
  else (st, [st_title "Register"]).

Definition logout (st : world) : world * list call :=
  (mkWorld (Some false) (db st), [st_info "You have logged out."]).

(** Lines 163 to 176, one run of the script. *)
Definition script (w : widgets) (st : world) : world * list call :=
  let st0 := match session_state st with
             | Some _ => st
             | None => mkWorld (Some false) (db st)
             end in
  match session_state st0 with
  | Some true =>
      if logout_button w then logout st0 else (st0, main_app w)
  | _ =>
      match menu w with
      | Login => login w st0
      | Register => register w st0
      end
  end.

(** A session: the script runs once per interaction. *)
Fixpoint session (ws : list widgets) (st : world) : world :=
  match ws with
  | [] => st
  | w :: rest => session rest (fst (script w st))
  end.

Definition authenticated (st : world) : bool :=
  match session_state st with
  | Some b => b
  | None => false
  end.

(** A new browser session over whatever table the file holds. *)
Definition new_session (file : option table) : world :=
  mkWorld None (initialize_database file).

End Dashboard.

(** Registering a list of (username, password) pairs one after the other,
    counting the calls for [u] that return [True]. *)
Fixpoint successes (u : string) (calls : list (string * string)) (t : table) : nat :=
  match calls with
  | [] => 0
  | (u', p') :: rest =>
      let '(t', ok) := register_user u' p' t in
      ((if ok && String.eqb u' u then 1 else 0) + successes u rest t')%nat
  end.

(** The table after a list of registrations. *)
Fixpoint register_all (calls : list (string * string)) (t : table) : table :=
  match calls with
  | [] => t
  | (u, p) :: rest => register_all rest (fst (register_user u p t))
  end.

(** The invariant [username TEXT UNIQUE] keeps. *)
Definition unique_usernames (t : table) : Prop :=
  NoDup (map username (rows t)).

(** ASCII text, and the uppercase of ASCII text: [a]..[z] go to [A]..[Z]. *)
Fixpoint is_ascii (s : string) : bool :=
  match s with
  | EmptyString => true
  | String c rest => (N_of_ascii c <? 128)%N && is_ascii rest
  end.

Definition upper_ascii (c : ascii) : ascii :=
  let n := nat_of_ascii c in
  if ((97 <=? n) && (n <=? 122))%nat then ascii_of_nat (n - 32) else c.

Fixpoint ascii_upper (s : string) : string :=
  match s with
  | EmptyString => EmptyString
  | String c rest => String (upper_ascii c) (ascii_upper rest)
  end.

(** The code points whose lowercase form [str.lower()] differs from them,
    each with that form (Unicode 14.0). *)
Definition lower_table : list (N * list N) :=
  [(65, [97]); (66, [98]); (67, [99]); (68, [100]); (69, [101]); (70, [102]);
   (71, [103]); (72, [104]); (73, [105]); (74, [106]); (75, [107]);
   (76, [108]); (77, [109]); (78, [110]); (79, [111]); (80, [112]);
   (81, [113]); (82, [114]); (83, [115]); (84, [116]); (85, [117]);
   (86, [118]); (87, [119]); (88, [120]); (89, [121]); (90, [122]);
   (192, [224]); (193, [225]); (194, [226]); (195, [227]); (196, [228]);
   (197, [229]); (198, [230]); (199, [231]); (200, [232]); (201, [233]);
   (202, [234]); (203, [235]); (204, [236]); (205, [237]); (206, [238]);
   (207, [239]); (208, [240]); (209, [241]); (210, [242]); (211, [243]);
   (212, [244]); (213, [245]); (214, [246]); (216, [248]); (217, [249]);
   (218, [250]); (219, [251]); (220, [252]); (221, [253]); (222, [254]);
   (256, [257]); (258, [259]); (260, [261]); (262, [263]); (264, [265]);
   (266, [267]); (268, [269]); (270, [271]); (272, [273]); (274, [275]);
   (276, [277]); (278, [279]); (280, [281]); (282, [283]); (284, [285]);
   (286, [287]); (288, [289]); (290, [291]); (292, [293]); (294, [295]);
   (296, [297]); (298, [299]); (300, [301]); (302, [303]); (304, [105; 775]);
   (306, [307]); (308, [309]); (310, [311]); (313, [314]); (315, [316]);
   (317, [318]); (319, [320]); (321, [322]); (323, [324]); (325, [326]);
   (327, [328]); (330, [331]); (332, [333]); (334, [335]); (336, [337]);
   (338, [339]); (340, [341]); (342, [343]); (344, [345]); (346, [347]);
   (348, [349]); (350, [351]); (352, [353]); (354, [355]); (356, [357]);
   (358, [359]); (360, [361]); (362, [363]); (364, [365]); (366, [367]);
   (368, [369]); (370, [371]); (372, [373]); (374, [375]); (376, [255]);
   (377, [378]); (379, [380]); (381, [382]); (385, [595]); (386, [387]);
   (388, [389]); (390, [596]); (391, [392]); (393, [598]); (394, [599]);
   (395, [396]); (398, [477]); (399, [601]); (400, [603]); (401, [402]);
   (403, [608]); (404, [611]); (406, [617]); (407, [616]); (408, [409]);
   (412, [623]); (413, [626]); (415, [629]); (416, [417]); (418, [419]);
   (420, [421]); (422, [640]); (423, [424]); (425, [643]); (428, [429]);
   (430, [648]); (431, [432]); (433, [650]); (434, [651]); (435, [436]);
   (437, [438]); (439, [658]); (440, [441]); (444, [445]); (452, [454]);
   (453, [454]); (455, [457]); (456, [457]); (458, [460]); (459, [460]);
   (461, [462]); (463, [464]); (465, [466]); (467, [468]); (469, [470]);
   (471, [472]); (473, [474]); (475, [476]); (478, [479]); (480, [481]);
   (482, [483]); (484, [485]); (486, [487]); (488, [489]); (490, [491]);
   (492, [493]); (494, [495]); (497, [499]); (498, [499]); (500, [501]);
   (502, [405]); (503, [447]); (504, [505]); (506, [507]); (508, [509]);
   (510, [511]); (512, [513]); (514, [515]); (516, [517]); (518, [519]);
   (520, [521]); (522, [523]); (524, [525]); (526, [527]); (528, [529]);
   (530, [531]); (532, [533]); (534, [535]); (536, [537]); (538, [539]);
   (540, [541]); (542, [543]); (544, [414]); (546, [547]); (548, [549]);
   (550, [551]); (552, [553]); (554, [555]); (556, [557]); (558, [559]);
   (560, [561]); (562, [563]); (570, [11365]); (571, [572]); (573, [410]);
   (574, [11366]); (577, [578]); (579, [384]); (580, [649]); (581, [652]);
   (582, [583]); (584, [585]); (586, [587]); (588, [589]); (590, [591]);
   (880, [881]); (882, [883]); (886, [887]); (895, [1011]); (902, [940]);
   (904, [941]); (905, [942]); (906, [943]); (908, [972]); (910, [973]);
   (911, [974]); (913, [945]); (914, [946]); (915, [947]); (916, [948]);
   (917, [949]); (918, [950]); (919, [951]); (920, [952]); (921, [953]);
   (922, [954]); (923, [955]); (924, [956]); (925, [957]); (926, [958]);
   (927, [959]); (928, [960]); (929, [961]); (931, [963]); (932, [964]);
   (933, [965]); (934, [966]); (935, [967]); (936, [968]); (937, [969]);
   (938, [970]); (939, [971]); (975, [983]); (984, [985]); (986, [987]);
   (988, [989]); (990, [991]); (992, [993]); (994, [995]); (996, [997]);
   (998, [999]); (1000, [1001]); (1002, [1003]); (1004, [1005]);
   (1006, [1007]); (1012, [952]); (1015, [1016]); (1017, [1010]);
   (1018, [1019]); (1021, [891]); (1022, [892]); (1023, [893]);
   (1024, [1104]); (1025, [1105]); (1026, [1106]); (1027, [1107]);
   (1028, [1108]); (1029, [1109]); (1030, [1110]); (1031, [1111]);
   (1032, [1112]); (1033, [1113]); (1034, [1114]); (1035, [1115]);
   (1036, [1116]); (1037, [1117]); (1038, [1118]); (1039, [1119]);
   (1040, [1072]); (1041, [1073]); (1042, [1074]); (1043, [1075]);
   (1044, [1076]); (1045, [1077]); (1046, [1078]); (1047, [1079]);
   (1048, [1080]); (1049, [1081]); (1050, [1082]); (1051, [1083]);
   (1052, [1084]); (1053, [1085]); (1054, [1086]); (1055, [1087]);
   (1056, [1088]); (1057, [1089]); (1058, [1090]); (1059, [1091]);
   (1060, [1092]); (1061, [1093]); (1062, [1094]); (1063, [1095]);
   (1064, [1096]); (1065, [1097]); (1066, [1098]); (1067, [1099]);
   (1068, [1100]); (1069, [1101]); (1070, [1102]); (1071, [1103]);
   (1120, [1121]); (1122, [1123]); (1124, [1125]); (1126, [1127]);
   (1128, [1129]); (1130, [1131]); (1132, [1133]); (1134, [1135]);
   (1136, [1137]); (1138, [1139]); (1140, [1141]); (1142, [1143]);
   (1144, [1145]); (1146, [1147]); (1148, [1149]); (1150, [1151]);
   (1152, [1153]); (1162, [1163]); (1164, [1165]); (1166, [1167]);
   (1168, [1169]); (1170, [1171]); (1172, [1173]); (1174, [1175]);
   (1176, [1177]); (1178, [1179]); (1180, [1181]); (1182, [1183]);
   (1184, [1185]); (1186, [1187]); (1188, [1189]); (1190, [1191]);
   (1192, [1193]); (1194, [1195]); (1196, [1197]); (1198, [1199]);
   (1200, [1201]); (1202, [1203]); (1204, [1205]); (1206, [1207]);
   (1208, [1209]); (1210, [1211]); (1212, [1213]); (1214, [1215]);
   (1216, [1231]); (1217, [1218]); (1219, [1220]); (1221, [1222]);
   (1223, [1224]); (1225, [1226]); (1227, [1228]); (1229, [1230]);
   (1232, [1233]); (1234, [1235]); (1236, [1237]); (1238, [1239]);
   (1240, [1241]); (1242, [1243]); (1244, [1245]); (1246, [1247]);
   (1248, [1249]); (1250, [1251]); (1252, [1253]); (1254, [1255]);
   (1256, [1257]); (1258, [1259]); (1260, [1261]); (1262, [1263]);
   (1264, [1265]); (1266, [1267]); (1268, [1269]); (1270, [1271]);
   (1272, [1273]); (1274, [1275]); (1276, [1277]); (1278, [1279]);
   (1280, [1281]); (1282, [1283]); (1284, [1285]); (1286, [1287]);
   (1288, [1289]); (1290, [1291]); (1292, [1293]); (1294, [1295]);
   (1296, [1297]); (1298, [1299]); (1300, [1301]); (1302, [1303]);
   (1304, [1305]); (1306, [1307]); (1308, [1309]); (1310, [1311]);
   (1312, [1313]); (1314, [1315]); (1316, [1317]); (1318, [1319]);
   (1320, [1321]); (1322, [1323]); (1324, [1325]); (1326, [1327]);
   (1329, [1377]); (1330, [1378]); (1331, [1379]); (1332, [1380]);
   (1333, [1381]); (1334, [1382]); (1335, [1383]); (1336, [1384]);
   (1337, [1385]); (1338, [1386]); (1339, [1387]); (1340, [1388]);
   (1341, [1389]); (1342, [1390]); (1343, [1391]); (1344, [1392]);
   (1345, [1393]); (1346, [1394]); (1347, [1395]); (1348, [1396]);
   (1349, [1397]); (1350, [1398]); (1351, [1399]); (1352, [1400]);
   (1353, [1401]); (1354, [1402]); (1355, [1403]); (1356, [1404]);
   (1357, [1405]); (1358, [1406]); (1359, [1407]); (1360, [1408]);
   (1361, [1409]); (1362, [1410]); (1363, [1411]); (1364, [1412]);
   (1365, [1413]); (1366, [1414]); (4256, [11520]); (4257, [11521]);
   (4258, [11522]); (4259, [11523]); (4260, [11524]); (4261, [11525]);
   (4262, [11526]); (4263, [11527]); (4264, [11528]); (4265, [11529]);
   (4266, [11530]); (4267, [11531]); (4268, [11532]); (4269, [11533]);
   (4270, [11534]); (4271, [11535]); (4272, [11536]); (4273, [11537]);
   (4274, [11538]); (4275, [11539]); (4276, [11540]); (4277, [11541]);
   (4278, [11542]); (4279, [11543]); (4280, [11544]); (4281, [11545]);
   (4282, [11546]); (4283, [11547]); (4284, [11548]); (4285, [11549]);
   (4286, [11550]); (4287, [11551]); (4288, [11552]); (4289, [11553]);
   (4290, [11554]); (4291, [11555]); (4292, [11556]); (4293, [11557]);
   (4295, [11559]); (4301, [11565]); (5024, [43888]); (5025, [43889]);
   (5026, [43890]); (5027, [43891]); (5028, [43892]); (5029, [43893]);
   (5030, [43894]); (5031, [43895]); (5032, [43896]); (5033, [43897]);
   (5034, [43898]); (5035, [43899]); (5036, [43900]); (5037, [43901]);
   (5038, [43902]); (5039, [43903]); (5040, [43904]); (5041, [43905]);
   (5042, [43906]); (5043, [43907]); (5044, [43908]); (5045, [43909]);
   (5046, [43910]); (5047, [43911]); (5048, [43912]); (5049, [43913]);
   (5050, [43914]); (5051, [43915]); (5052, [43916]); (5053, [43917]);
   (5054, [43918]); (5055, [43919]); (5056, [43920]); (5057, [43921]);
   (5058, [43922]); (5059, [43923]); (5060, [43924]); (5061, [43925]);
   (5062, [43926]); (5063, [43927]); (5064, [43928]); (5065, [43929]);
   (5066, [43930]); (5067, [43931]); (5068, [43932]); (5069, [43933]);
   (5070, [43934]); (5071, [43935]); (5072, [43936]); (5073, [43937]);
   (5074, [43938]); (5075, [43939]); (5076, [43940]); (5077, [43941]);
   (5078, [43942]); (5079, [43943]); (5080, [43944]); (5081, [43945]);
   (5082, [43946]); (5083, [43947]); (5084, [43948]); (5085, [43949]);
   (5086, [43950]); (5087, [43951]); (5088, [43952]); (5089, [43953]);
   (5090, [43954]); (5091, [43955]); (5092, [43956]); (5093, [43957]);
   (5094, [43958]); (5095, [43959]); (5096, [43960]); (5097, [43961]);
   (5098, [43962]); (5099, [43963]); (5100, [43964]); (5101, [43965]);
   (5102, [43966]); (5103, [43967]); (5104, [5112]); (5105, [5113]);
   (5106, [5114]); (5107, [5115]); (5108, [5116]); (5109, [5117]);
   (7312, [4304]); (7313, [4305]); (7314, [4306]); (7315, [4307]);
   (7316, [4308]); (7317, [4309]); (7318, [4310]); (7319, [4311]);
   (7320, [4312]); (7321, [4313]); (7322, [4314]); (7323, [4315]);
   (7324, [4316]); (7325, [4317]); (7326, [4318]); (7327, [4319]);
   (7328, [4320]); (7329, [4321]); (7330, [4322]); (7331, [4323]);
   (7332, [4324]); (7333, [4325]); (7334, [4326]); (7335, [4327]);
   (7336, [4328]); (7337, [4329]); (7338, [4330]); (7339, [4331]);
   (7340, [4332]); (7341, [4333]); (7342, [4334]); (7343, [4335]);
   (7344, [4336]); (7345, [4337]); (7346, [4338]); (7347, [4339]);
   (7348, [4340]); (7349, [4341]); (7350, [4342]); (7351, [4343]);
   (7352, [4344]); (7353, [4345]); (7354, [4346]); (7357, [4349]);
   (7358, [4350]); (7359, [4351]); (7680, [7681]); (7682, [7683]);
   (7684, [7685]); (7686, [7687]); (7688, [7689]); (7690, [7691]);
   (7692, [7693]); (7694, [7695]); (7696, [7697]); (7698, [7699]);
   (7700, [7701]); (7702, [7703]); (7704, [7705]); (7706, [7707]);
   (7708, [7709]); (7710, [7711]); (7712, [7713]); (7714, [7715]);
   (7716, [7717]); (7718, [7719]); (7720, [7721]); (7722, [7723]);
   (7724, [7725]); (7726, [7727]); (7728, [7729]); (7730, [7731]);
   (7732, [7733]); (7734, [7735]); (7736, [7737]); (7738, [7739]);
   (7740, [7741]); (7742, [7743]); (7744, [7745]); (7746, [7747]);
   (7748, [7749]); (7750, [7751]); (7752, [7753]); (7754, [7755]);
   (7756, [7757]); (7758, [7759]); (7760, [7761]); (7762, [7763]);
   (7764, [7765]); (7766, [7767]); (7768, [7769]); (7770, [7771]);
   (7772, [7773]); (7774, [7775]); (7776, [7777]); (7778, [7779]);
   (7780, [7781]); (7782, [7783]); (7784, [7785]); (7786, [7787]);
   (7788, [7789]); (7790, [7791]); (7792, [7793]); (7794, [7795]);
   (7796, [7797]); (7798, [7799]); (7800, [7801]); (7802, [7803]);
   (7804, [7805]); (7806, [7807]); (7808, [7809]); (7810, [7811]);
   (7812, [7813]); (7814, [7815]); (7816, [7817]); (7818, [7819]);
   (7820, [7821]); (7822, [7823]); (7824, [7825]); (7826, [7827]);
   (7828, [7829]); (7838, [223]); (7840, [7841]); (7842, [7843]);
   (7844, [7845]); (7846, [7847]); (7848, [7849]); (7850, [7851]);
   (7852, [7853]); (7854, [7855]); (7856, [7857]); (7858, [7859]);
   (7860, [7861]); (7862, [7863]); (7864, [7865]); (7866, [7867]);
   (7868, [7869]); (7870, [7871]); (7872, [7873]); (7874, [7875]);
   (7876, [7877]); (7878, [7879]); (7880, [7881]); (7882, [7883]);
   (7884, [7885]); (7886, [7887]); (7888, [7889]); (7890, [7891]);
   (7892, [7893]); (7894, [7895]); (7896, [7897]); (7898, [7899]);
   (7900, [7901]); (7902, [7903]); (7904, [7905]); (7906, [7907]);
   (7908, [7909]); (7910, [7911]); (7912, [7913]); (7914, [7915]);
   (7916, [7917]); (7918, [7919]); (7920, [7921]); (7922, [7923]);
   (7924, [7925]); (7926, [7927]); (7928, [7929]); (7930, [7931]);
   (7932, [7933]); (7934, [7935]); (7944, [7936]); (7945, [7937]);
   (7946, [7938]); (7947, [7939]); (7948, [7940]); (7949, [7941]);
   (7950, [7942]); (7951, [7943]); (7960, [7952]); (7961, [7953]);
   (7962, [7954]); (7963, [7955]); (7964, [7956]); (7965, [7957]);
   (7976, [7968]); (7977, [7969]); (7978, [7970]); (7979, [7971]);
   (7980, [7972]); (7981, [7973]); (7982, [7974]); (7983, [7975]);
   (7992, [7984]); (7993, [7985]); (7994, [7986]); (7995, [7987]);
   (7996, [7988]); (7997, [7989]); (7998, [7990]); (7999, [7991]);
   (8008, [8000]); (8009, [8001]); (8010, [8002]); (8011, [8003]);
   (8012, [8004]); (8013, [8005]); (8025, [8017]); (8027, [8019]);
   (8029, [8021]); (8031, [8023]); (8040, [8032]); (8041, [8033]);
   (8042, [8034]); (8043, [8035]); (8044, [8036]); (8045, [8037]);
   (8046, [8038]); (8047, [8039]); (8072, [8064]); (8073, [8065]);
   (8074, [8066]); (8075, [8067]); (8076, [8068]); (8077, [8069]);
   (8078, [8070]); (8079, [8071]); (8088, [8080]); (8089, [8081]);
   (8090, [8082]); (8091, [8083]); (8092, [8084]); (8093, [8085]);
   (8094, [8086]); (8095, [8087]); (8104, [8096]); (8105, [8097]);
   (8106, [8098]); (8107, [8099]); (8108, [8100]); (8109, [8101]);
   (8110, [8102]); (8111, [8103]); (8120, [8112]); (8121, [8113]);
   (8122, [8048]); (8123, [8049]); (8124, [8115]); (8136, [8050]);
   (8137, [8051]); (8138, [8052]); (8139, [8053]); (8140, [8131]);
   (8152, [8144]); (8153, [8145]); (8154, [8054]); (8155, [8055]);
   (8168, [8160]); (8169, [8161]); (8170, [8058]); (8171, [8059]);
   (8172, [8165]); (8184, [8056]); (8185, [8057]); (8186, [8060]);
   (8187, [8061]); (8188, [8179]); (8486, [969]); (8490, [107]);
   (8491, [229]); (8498, [8526]); (8544, [8560]); (8545, [8561]);
   (8546, [8562]); (8547, [8563]); (8548, [8564]); (8549, [8565]);
   (8550, [8566]); (8551, [8567]); (8552, [8568]); (8553, [8569]);
   (8554, [8570]); (8555, [8571]); (8556, [8572]); (8557, [8573]);
   (8558, [8574]); (8559, [8575]); (8579, [8580]); (9398, [9424]);
   (9399, [9425]); (9400, [9426]); (9401, [9427]); (9402, [9428]);
   (9403, [9429]); (9404, [9430]); (9405, [9431]); (9406, [9432]);
   (9407, [9433]); (9408, [9434]); (9409, [9435]); (9410, [9436]);
   (9411, [9437]); (9412, [9438]); (9413, [9439]); (9414, [9440]);
   (9415, [9441]); (9416, [9442]); (9417, [9443]); (9418, [9444]);
   (9419, [9445]); (9420, [9446]); (9421, [9447]); (9422, [9448]);
   (9423, [9449]); (11264, [11312]); (11265, [11313]); (11266, [11314]);
   (11267, [11315]); (11268, [11316]); (11269, [11317]); (11270, [11318]);
   (11271, [11319]); (11272, [11320]); (11273, [11321]); (11274, [11322]);
   (11275, [11323]); (11276, [11324]); (11277, [11325]); (11278, [11326]);
   (11279, [11327]); (11280, [11328]); (11281, [11329]); (11282, [11330]);
   (11283, [11331]); (11284, [11332]); (11285, [11333]); (11286, [11334]);
   (11287, [11335]); (11288, [11336]); (11289, [11337]); (11290, [11338]);
   (11291, [11339]); (11292, [11340]); (11293, [11341]); (11294, [11342]);
   (11295, [11343]); (11296, [11344]); (11297, [11345]); (11298, [11346]);
   (11299, [11347]); (11300, [11348]); (11301, [11349]); (11302, [11350]);
   (11303, [11351]); (11304, [11352]); (11305, [11353]); (11306, [11354]);
   (11307, [11355]); (11308, [11356]); (11309, [11357]); (11310, [11358]);
   (11311, [11359]); (11360, [11361]); (11362, [619]); (11363, [7549]);
   (11364, [637]); (11367, [11368]); (11369, [11370]); (11371, [11372]);
   (11373, [593]); (11374, [625]); (11375, [592]); (11376, [594]);
   (11378, [11379]); (11381, [11382]); (11390, [575]); (11391, [576]);
   (11392, [11393]); (11394, [11395]); (11396, [11397]); (11398, [11399]);
   (11400, [11401]); (11402, [11403]); (11404, [11405]); (11406, [11407]);
   (11408, [11409]); (11410, [11411]); (11412, [11413]); (11414, [11415]);
   (11416, [11417]); (11418, [11419]); (11420, [11421]); (11422, [11423]);
   (11424, [11425]); (11426, [11427]); (11428, [11429]); (11430, [11431]);
   (11432, [11433]); (11434, [11435]); (11436, [11437]); (11438, [11439]);
   (11440, [11441]); (11442, [11443]); (11444, [11445]); (11446, [11447]);
   (11448, [11449]); (11450, [11451]); (11452, [11453]); (11454, [11455]);
   (11456, [11457]); (11458, [11459]); (11460, [11461]); (11462, [11463]);
   (11464, [11465]); (11466, [11467]); (11468, [11469]); (11470, [11471]);
   (11472, [11473]); (11474, [11475]); (11476, [11477]); (11478, [11479]);
   (11480, [11481]); (11482, [11483]); (11484, [11485]); (11486, [11487]);
   (11488, [11489]); (11490, [11491]); (11499, [11500]); (11501, [11502]);
   (11506, [11507]); (42560, [42561]); (42562, [42563]); (42564, [42565]);
   (42566, [42567]); (42568, [42569]); (42570, [42571]); (42572, [42573]);
   (42574, [42575]); (42576, [42577]); (42578, [42579]); (42580, [42581]);
   (42582, [42583]); (42584, [42585]); (42586, [42587]); (42588, [42589]);
   (42590, [42591]); (42592, [42593]); (42594, [42595]); (42596, [42597]);
   (42598, [42599]); (42600, [42601]); (42602, [42603]); (42604, [42605]);
   (42624, [42625]); (42626, [42627]); (42628, [42629]); (42630, [42631]);
   (42632, [42633]); (42634, [42635]); (42636, [42637]); (42638, [42639]);
   (42640, [42641]); (42642, [42643]); (42644, [42645]); (42646, [42647]);
   (42648, [42649]); (42650, [42651]); (42786, [42787]); (42788, [42789]);
   (42790, [42791]); (42792, [42793]); (42794, [42795]); (42796, [42797]);
   (42798, [42799]); (42802, [42803]); (42804, [42805]); (42806, [42807]);
   (42808, [42809]); (42810, [42811]); (42812, [42813]); (42814, [42815]);
   (42816, [42817]); (42818, [42819]); (42820, [42821]); (42822, [42823]);
   (42824, [42825]); (42826, [42827]); (42828, [42829]); (42830, [42831]);
   (42832, [42833]); (42834, [42835]); (42836, [42837]); (42838, [42839]);
   (42840, [42841]); (42842, [42843]); (42844, [42845]); (42846, [42847]);
   (42848, [42849]); (42850, [42851]); (42852, [42853]); (42854, [42855]);
   (42856, [42857]); (42858, [42859]); (42860, [42861]); (42862, [42863]);
   (42873, [42874]); (42875, [42876]); (42877, [7545]); (42878, [42879]);
   (42880, [42881]); (42882, [42883]); (42884, [42885]); (42886, [42887]);
   (42891, [42892]); (42893, [613]); (42896, [42897]); (42898, [42899]);
   (42902, [42903]); (42904, [42905]); (42906, [42907]); (42908, [42909]);
   (42910, [42911]); (42912, [42913]); (42914, [42915]); (42916, [42917]);
   (42918, [42919]); (42920, [42921]); (42922, [614]); (42923, [604]);
   (42924, [609]); (42925, [620]); (42926, [618]); (42928, [670]);
   (42929, [647]); (42930, [669]); (42931, [43859]); (42932, [42933]);
   (42934, [42935]); (42936, [42937]); (42938, [42939]); (42940, [42941]);
   (42942, [42943]); (42944, [42945]); (42946, [42947]); (42948, [42900]);
   (42949, [642]); (42950, [7566]); (42951, [42952]); (42953, [42954]);
   (42960, [42961]); (42966, [42967]); (42968, [42969]); (42997, [42998]);
   (65313, [65345]); (65314, [65346]); (65315, [65347]); (65316, [65348]);
   (65317, [65349]); (65318, [65350]); (65319, [65351]); (65320, [65352]);
   (65321, [65353]); (65322, [65354]); (65323, [65355]); (65324, [65356]);
   (65325, [65357]); (65326, [65358]); (65327, [65359]); (65328, [65360]);
   (65329, [65361]); (65330, [65362]); (65331, [65363]); (65332, [65364]);
   (65333, [65365]); (65334, [65366]); (65335, [65367]); (65336, [65368]);
   (65337, [65369]); (65338, [65370]); (66560, [66600]); (66561, [66601]);
   (66562, [66602]); (66563, [66603]); (66564, [66604]); (66565, [66605]);
   (66566, [66606]); (66567, [66607]); (66568, [66608]); (66569, [66609]);
   (66570, [66610]); (66571, [66611]); (66572, [66612]); (66573, [66613]);
   (66574, [66614]); (66575, [66615]); (66576, [66616]); (66577, [66617]);
   (66578, [66618]); (66579, [66619]); (66580, [66620]); (66581, [66621]);
   (66582, [66622]); (66583, [66623]); (66584, [66624]); (66585, [66625]);
   (66586, [66626]); (66587, [66627]); (66588, [66628]); (66589, [66629]);
   (66590, [66630]); (66591, [66631]); (66592, [66632]); (66593, [66633]);
   (66594, [66634]); (66595, [66635]); (66596, [66636]); (66597, [66637]);
   (66598, [66638]); (66599, [66639]); (66736, [66776]); (66737, [66777]);
   (66738, [66778]); (66739, [66779]); (66740, [66780]); (66741, [66781]);
   (66742, [66782]); (66743, [66783]); (66744, [66784]); (66745, [66785]);
   (66746, [66786]); (66747, [66787]); (66748, [66788]); (66749, [66789]);
   (66750, [66790]); (66751, [66791]); (66752, [66792]); (66753, [66793]);
   (66754, [66794]); (66755, [66795]); (66756, [66796]); (66757, [66797]);
   (66758, [66798]); (66759, [66799]); (66760, [66800]); (66761, [66801]);
   (66762, [66802]); (66763, [66803]); (66764, [66804]); (66765, [66805]);
   (66766, [66806]); (66767, [66807]); (66768, [66808]); (66769, [66809]);
   (66770, [66810]); (66771, [66811]); (66928, [66967]); (66929, [66968]);
   (66930, [66969]); (66931, [66970]); (66932, [66971]); (66933, [66972]);
   (66934, [66973]); (66935, [66974]); (66936, [66975]); (66937, [66976]);
   (66938, [66977]); (66940, [66979]); (66941, [66980]); (66942, [66981]);
   (66943, [66982]); (66944, [66983]); (66945, [66984]); (66946, [66985]);
   (66947, [66986]); (66948, [66987]); (66949, [66988]); (66950, [66989]);
   (66951, [66990]); (66952, [66991]); (66953, [66992]); (66954, [66993]);
   (66956, [66995]); (66957, [66996]); (66958, [66997]); (66959, [66998]);
   (66960, [66999]); (66961, [67000]); (66962, [67001]); (66964, [67003]);
   (66965, [67004]); (68736, [68800]); (68737, [68801]); (68738, [68802]);
   (68739, [68803]); (68740, [68804]); (68741, [68805]); (68742, [68806]);
   (68743, [68807]); (68744, [68808]); (68745, [68809]); (68746, [68810]);
   (68747, [68811]); (68748, [68812]); (68749, [68813]); (68750, [68814]);
   (68751, [68815]); (68752, [68816]); (68753, [68817]); (68754, [68818]);
   (68755, [68819]); (68756, [68820]); (68757, [68821]); (68758, [68822]);
   (68759, [68823]); (68760, [68824]); (68761, [68825]); (68762, [68826]);
   (68763, [68827]); (68764, [68828]); (68765, [68829]); (68766, [68830]);
   (68767, [68831]); (68768, [68832]); (68769, [68833]); (68770, [68834]);
   (68771, [68835]); (68772, [68836]); (68773, [68837]); (68774, [68838]);
   (68775, [68839]); (68776, [68840]); (68777, [68841]); (68778, [68842]);
   (68779, [68843]); (68780, [68844]); (68781, [68845]); (68782, [68846]);
   (68783, [68847]); (68784, [68848]); (68785, [68849]); (68786, [68850]);
   (71840, [71872]); (71841, [71873]); (71842, [71874]); (71843, [71875]);
   (71844, [71876]); (71845, [71877]); (71846, [71878]); (71847, [71879]);
   (71848, [71880]); (71849, [71881]); (71850, [71882]); (71851, [71883]);
   (71852, [71884]); (71853, [71885]); (71854, [71886]); (71855, [71887]);
   (71856, [71888]); (71857, [71889]); (71858, [71890]); (71859, [71891]);
   (71860, [71892]); (71861, [71893]); (71862, [71894]); (71863, [71895]);
   (71864, [71896]); (71865, [71897]); (71866, [71898]); (71867, [71899]);
   (71868, [71900]); (71869, [71901]); (71870, [71902]); (71871, [71903]);
   (93760, [93792]); (93761, [93793]); (93762, [93794]); (93763, [93795]);
   (93764, [93796]); (93765, [93797]); (93766, [93798]); (93767, [93799]);
   (93768, [93800]); (93769, [93801]); (93770, [93802]); (93771, [93803]);
   (93772, [93804]); (93773, [93805]); (93774, [93806]); (93775, [93807]);
   (93776, [93808]); (93777, [93809]); (93778, [93810]); (93779, [93811]);
   (93780, [93812]); (93781, [93813]); (93782, [93814]); (93783, [93815]);
   (93784, [93816]); (93785, [93817]); (93786, [93818]); (93787, [93819]);
   (93788, [93820]); (93789, [93821]); (93790, [93822]); (93791, [93823]);
   (125184, [125218]); (125185, [125219]); (125186, [125220]);
   (125187, [125221]); (125188, [125222]); (125189, [125223]);
   (125190, [125224]); (125191, [125225]); (125192, [125226]);
   (125193, [125227]); (125194, [125228]); (125195, [125229]);
   (125196, [125230]); (125197, [125231]); (125198, [125232]);
   (125199, [125233]); (125200, [125234]); (125201, [125235]);
   (125202, [125236]); (125203, [125237]); (125204, [125238]);
   (125205, [125239]); (125206, [125240]); (125207, [125241]);
   (125208, [125242]); (125209, [125243]); (125210, [125244]);
   (125211, [125245]); (125212, [125246]); (125213, [125247]);
   (125214, [125248]); (125215, [125249]); (125216, [125250]);
   (125217, [125251])]%N.

(** The lowercase form of one code point. *)
Definition lower_code (c : N) : list N :=
  match find (fun e => (fst e =? c)%N) lower_table with
  | Some e => snd e
  | None => [c]
  end.

Fixpoint codes_eqb (l1 l2 : list N) : bool :=
  match l1, l2 with
  | [], [] => true
  | a :: r1, b :: r2 => (a =? b)%N && codes_eqb r1 r2
  | _, _ => false
  end.

(** Two code points that are the same letter in two cases: they are equal,
    or one is the uppercase or the lowercase form of the other. *)
Definition case_variant (a b : N) : bool :=
  (a =? b)%N
  || codes_eqb (upper_code a) [b] || codes_eqb (upper_code b) [a]
  || codes_eqb (lower_code a) [b] || codes_eqb (lower_code b) [a].

Fixpoint all_case_variants (l1 l2 : list N) : bool :=
  match l1, l2 with
  | [], [] => true
  | a :: r1, b :: r2 => case_variant a b && all_case_variants r1 r2
  | _, _ => false
  end.

(** Two texts that differ only in letter case: character by character
    they hold case variants. *)
Definition differ_in_letter_case_only (s1 s2 : string) : bool :=
  all_case_variants (utf8_decode s1) (utf8_decode s2).

Definition ascii_codes : list N := map N.of_nat (seq 0 128).

(** The Kelvin sign U+212A, whose lowercase form is [k], and the word
    "strasse" written with U+00DF. *)
Definition kelvin_sign : string :=
  String (ascii_of_nat 226) (String (ascii_of_nat 132)
    (String (ascii_of_nat 170) EmptyString)).

Definition strasse : string :=
  append "stra" (String (ascii_of_nat 195) (String (ascii_of_nat 159) "e")).

(** [w] with another text in the ticker box. *)
Definition with_ticker (t : string) (w : widgets) : widgets :=
  mkWidgets (menu w) (login_username w) (login_password w) (login_button w)
            (register_username w) (register_password w) (register_button w)
            (logout_button w) t (start_date w) (end_date w)
            (ma_days w) (bb_window w) (rsi_period w) (show_data_table w).

(** The moving average as the specification words it: the mean of the
    [w] closes that end at row [i]. *)
Definition mean_of_closes (qs : list Q) (i w : nat) : Q :=
  Qsum (map (fun k => nth (i + 1 - w + k) qs 0) (seq 0 w)) / inject_Z (Z.of_nat w).

(** The closes of the end-to-end scenario. *)
Definition scenario_closes : list Q :=
  map inject_Z [10; 11; 12; 13; 14; 15; 16; 17; 18; 19; 20]%Z.

(** The recurrence of the specification: [ema[0] = close[0]] and
    [ema[i] = close[i] * k + ema[i-1] * (1 - k)]. *)
Fixpoint ema_from (k : Q) (prev : Q) (qs : list Q) : list Q :=
  match qs with
  | [] => []
  | c :: rest => let e := c * k + prev * (1 - k) in e :: ema_from k e rest
  end.

Definition ema (k : Q) (qs : list Q) : list Q :=
  match qs with
  | [] => []
  | c :: rest => c :: ema_from k c rest
  end.

(** The window of row [i] over a series without NaN. *)
Definition Qwindow (w i : nat) (qs : list Q) : list Q :=
  skipn (i + 1 - w) (firstn (i + 1) qs).

(** A series whose cells all carry the number [c]. *)
Definition all_equal_to (c : Q) (s : Series) : Prop :=
  Forall (fun x => cell_eq x (Some c)) s.

(** A close series that rises at every row. *)
Fixpoint increasing_from (prev : Q) (qs : list Q) : Prop :=
  match qs with
  | [] => True
  | x :: rest => prev < x /\ increasing_from x rest
  end.

Definition strictly_increasing (qs : list Q) : Prop :=
  match qs with
  | [] => True
  | x :: rest => increasing_from x rest
  end.

(** Every cell that holds a number holds one with property [P]. *)
Definition every (P : Q -> Prop) (s : Series) : Prop :=
  Forall (fun c => match c with Some x => P x | None => True end) s.

(** The differences of consecutive closes, from the second row on. *)
Fixpoint Qdiffs (prev : Q) (qs : list Q) : list Q :=
  match qs with
  | [] => []
  | x :: rest => (x - prev) :: Qdiffs x rest
  end.

(** One cell of the RSI column from the two rolling means of its row. *)
Definition rsi_cell (au ad : cell) : cell :=
  csub (Some 100) (cdiv (Some 100) (cadd (Some 1) (cdiv au (replace_cell 0 NaN ad)))).

(** The rises and the falls of a list of differences, as [clip] and the
    product by [-1] give them. *)
Definition rises (ds : list Q) : list Q :=
  map (fun x => if Qle_bool 0 x then x else 0) ds.

Definition falls (ds : list Q) : list Q :=
  map (fun x => -1 * (if Qle_bool x 0 then x else 0)) ds.

(** ** Sample inputs *)

(** A square root on the rationals that is exact on squares. *)
Definition sample_sqrt (x : Q) : Q :=
  Z.sqrt (Qnum x * Zpos (Qden x)) # Qden x.

(** A provider that knows one ticker. *)
Definition sample_rows : list PriceRow :=
  map (fun z => mkRow (mkDate 2021 1 (z - 9)) (Some (inject_Z z)) (Some (inject_Z z))
                      (Some (inject_Z z)) (Some (inject_Z z)) 1000)
      [10; 11; 12; 13; 14; 15; 16; 17; 18; 19; 20]%Z.

Definition sample_download (ticker : string) (start stop : date) : fetch_result :=
  if String.eqb ticker "AAPL" then Fetched sample_rows else Fetched [].

Definition sample_widgets : widgets :=
  mkWidgets Register "" "" false "alice" "Secret" true false
            "aapl" (mkDate 2021 1 1) (mkDate 2021 6 1) 20 20 14 false.

Definition reversed_dates : widgets :=
  mkWidgets Login "" "" false "" "" false false
            "AAPL" (mkDate 2021 6 1) (mkDate 2021 1 1) 20 20 14 false.

(** AUTOINCREMENT: the ids grow in insertion order and none is above the
    counter. *)
Definition ids_ordered (t : table) : Prop :=
  StronglySorted Z.lt (map id (rows t))
  /\ Forall (fun r => (id r <= last_id t)%Z) (rows t).

(** Calls that only the charting view makes, and the kinds of call that one
    run of [main_app] ends in. *)
Definition charting_call (c : call) : bool :=
  match c with
  | yf_download_call _ _ _ | st_tabs | st_plotly_chart _ _ | st_dataframe _ => true
  | _ => false
  end.

Definition is_fetch (c : call) : bool :=
  match c with yf_download_call _ _ _ => true | _ => false end.

Definition is_chart (c : call) : bool :=
  match c with st_plotly_chart _ _ => true | _ => false end.

Definition is_message (c : call) : bool :=
  match c with st_error _ | st_warning _ => true | _ => false end.

(** The number of points a chart trace has. *)
Definition trace_points (tr : trace) : nat :=
  match tr with
  | Candlestick _ _ _ close => length close
  | Scatter _ y => length y
  end.

(** The rise and the fall of the close at row [j], and their sums over the
    [p] rows that end at row [i]. *)
Definition gain (qs : list Q) (j : nat) : Q :=
  let d := nth j qs 0 - nth (j - 1) qs 0 in
  if Qle_bool 0 d then d else 0.

Definition loss (qs : list Q) (j : nat) : Q :=
  let d := nth j qs 0 - nth (j - 1) qs 0 in
  -1 * (if Qle_bool d 0 then d else 0).

Definition gains (qs : list Q) (i p : nat) : Q :=
  Qsum (map (fun k => gain qs (i + 1 - p + k)) (seq 0 p)).

Definition losses (qs : list Q) (i p : nat) : Q :=
  Qsum (map (fun k => loss qs (i + 1 - p + k)) (seq 0 p)).

(** A close series that falls at every row. *)
Fixpoint decreasing_from (prev : Q) (qs : list Q) : Prop :=
  match qs with
  | [] => True
  | x :: rest => x < prev /\ decreasing_from x rest
  end.

Definition strictly_decreasing (qs : list Q) : Prop :=
  match qs with
  | [] => True
  | x :: rest => decreasing_from x rest
  end.

Definition sample_login : widgets :=
  mkWidgets Login "alice" "Secret" true "" "" false false
            "aapl" (mkDate 2021 1 1) (mkDate 2021 6 1) 20 20 14 false.

(** * Properties *)

(** ** Credential store *)

Lemma username_taken_In (u : string) (t : table) :
  username_taken u t = true <-> In u (map username (rows t)).
Proof.
  unfold username_taken. rewrite existsb_exists, in_map_iff. split.
  - intros [r [Hin Heq]]. apply String.eqb_eq in Heq. now exists r.
  - intros [r [Heq Hin]]. exists r. split; [assumption|]. now apply String.eqb_eq.
Qed.

Lemma register_user_fresh (u p : string) (t : table) :
  username_taken u t = false ->
  register_user u p t
  = (mkTable (rows t ++ [mkUser (last_id t + 1) u p]) (last_id t + 1), true).
Proof. intros H. unfold register_user. now rewrite H. Qed.

Lemma register_user_taken (u p : string) (t : table) :
  username_taken u t = true -> register_user u p t = (t, false).
Proof. intros H. unfold register_user. now rewrite H. Qed.

Lemma username_taken_register (u u' p' : string) (t : table) :
  username_taken u (fst (register_user u' p' t))
  = username_taken u t || String.eqb u' u.
Proof.
  unfold register_user. destruct (username_taken u' t) eqn:Ht; simpl.
  - destruct (String.eqb_spec u' u) as [->|]; [|now rewrite orb_false_r].
    now rewrite Ht.
  - unfold username_taken at 1. simpl. rewrite existsb_app. simpl.
    now rewrite orb_false_r.
Qed.

Lemma register_user_ok_iff (u p : string) (t : table) :
  snd (register_user u p t) = negb (username_taken u t).
Proof. unfold register_user. now destruct (username_taken u t). Qed.

Lemma find_app_none {A} (f : A -> bool) (l1 l2 : list A) :
  find f l1 = None -> find f (l1 ++ l2) = find f l2.
Proof.
  induction l1 as [|a l1 IH]; simpl; [reflexivity|].
  destruct (f a); [discriminate|exact IH].
Qed.

Lemma not_taken_find (u : string) (t : table) :
  username_taken u t = false ->
  find (fun r => String.eqb (username r) u) (rows t) = None.
Proof.
  unfold username_taken. induction (rows t) as [|r l IH]; simpl; [reflexivity|].
  destruct (String.eqb (username r) u); [discriminate|exact IH].
Qed.

Lemma successes_taken (u : string) (calls : list (string * string)) (t : table) :
  username_taken u t = true -> successes u calls t = 0%nat.
Proof.
  revert t. induction calls as [|[u' p'] calls IH]; intros t Ht; simpl; [reflexivity|].
  destruct (register_user u' p' t) as [t' ok] eqn:Hr.
  assert (Ht' : username_taken u t' = true).
  { change t' with (fst (t', ok)). rewrite <- Hr, username_taken_register.
    now rewrite Ht. }
  rewrite (IH t' Ht').
  assert (Hok : ok = negb (username_taken u' t)).
  { change ok with (snd (t', ok)). rewrite <- Hr. apply register_user_ok_iff. }
  destruct (String.eqb_spec u' u) as [->|]; [|now rewrite andb_false_r].
  now rewrite Hok, Ht.
Qed.

Lemma register_keeps_unique (u p : string) (t : table) :
  unique_usernames t -> unique_usernames (fst (register_user u p t)).
Proof.
  unfold unique_usernames, register_user. intros Hu.
  destruct (username_taken u t) eqn:Ht; simpl; [assumption|].
  rewrite map_app. simpl.
  assert (Hnin : ~ In u (map username (rows t))).
  { intros Hin. apply username_taken_In in Hin. congruence. }
  clear Ht. induction (map username (rows t)) as [|x l IH]; simpl.
  - constructor; [intros []|constructor].
  - inversion Hu; subst. constructor.
    + rewrite in_app_iff. simpl. intros [Hx|[Hx|[]]]; [contradiction|].
      apply Hnin. now left.
    + apply IH; [assumption|]. intros Hin. apply Hnin. now right.
Qed.

(** Every table that registrations build from the empty one has unique
    usernames. *)
Lemma register_all_unique (calls : list (string * string)) (t : table) :
  unique_usernames t -> unique_usernames (register_all calls t).
Proof.
  revert t. induction calls as [|[u p] calls IH]; intros t Ht; simpl;
    [exact Ht|].
  apply IH. now apply register_keeps_unique.
Qed.

Lemma empty_table_unique : unique_usernames empty_table.
Proof. constructor. Qed.

Lemma authenticate_user_spec (u p : string) (t : table) :
  authenticate_user u p t = true
  <-> exists r, In r (rows t) /\ username r = u /\ password r = p.
Proof.
  unfold authenticate_user, select_user. split.
  - destruct (find _ (rows t)) as [r|] eqn:Hf; [intros _|discriminate].
    apply find_some in Hf. destruct Hf as [Hin Hb].
    apply andb_true_iff in Hb. destruct Hb as [Hu Hp].
    apply String.eqb_eq in Hu, Hp. now exists r.
  - intros [r [Hin [Hu Hp]]].
    destruct (find _ (rows t)) as [r'|] eqn:Hf; [reflexivity|].
    apply (find_none _ _ Hf) in Hin. subst.
    now rewrite !String.eqb_refl in Hin.
Qed.

Lemma stored_password_In (u p : string) (t : table) :
  unique_usernames t ->
  stored_password u t = Some p ->
  forall r, In r (rows t) -> username r = u -> password r = p.
Proof.
  unfold unique_usernames, stored_password.
  induction (rows t) as [|a l IH]; simpl; intros Hu Hs r Hin Hr; [contradiction|].
  inversion Hu as [|x l' Hnin Hnd]; subst x l'.
  destruct (String.eqb_spec (username a) u) as [Ha|Ha].
  - simpl in Hs. injection Hs as Hs. destruct Hin as [->|Hin]; [assumption|].
    exfalso. apply Hnin. rewrite Ha, <- Hr. now apply in_map.
  - destruct Hin as [->|Hin]; [contradiction|]. now apply IH.
Qed.

(** C2.  On a table where the username is still free, [register_user]
    returns [True] and [authenticate_user] with the same pair then returns
    [True]; the password is stored as given; every later [register_user]
    with this username, whatever the password, returns [False] and leaves
    the table (so the stored password) as it was; and in any sequence of
    registrations that starts with this one, exactly one call for this
    username returns [True]. *)
Theorem register_then_authenticate :
  forall (u p : string) (t : table),
    username_taken u t = false ->
    let t1 := fst (register_user u p t) in
    snd (register_user u p t) = true
    /\ authenticate_user u p t1 = true
    /\ stored_password u t1 = Some p
    /\ (forall p', register_user u p' t1 = (t1, false)
                   /\ stored_password u (fst (register_user u p' t1)) = Some p
                   /\ authenticate_user u p (fst (register_user u p' t1)) = true)
    /\ (forall calls, successes u ((u, p) :: calls) t = 1%nat).
Proof.
  intros u p t Hfree t1.
  assert (Hreg := register_user_fresh u p t Hfree).
  assert (Ht1 : t1 = mkTable (rows t ++ [mkUser (last_id t + 1) u p]) (last_id t + 1)).
  { unfold t1. now rewrite Hreg. }
  assert (Htaken : username_taken u t1 = true).
  { unfold t1. rewrite username_taken_register, String.eqb_refl. apply orb_true_r. }
  assert (Hauth : authenticate_user u p t1 = true).
  { apply authenticate_user_spec. exists (mkUser (last_id t + 1) u p).
    rewrite Ht1. simpl. rewrite in_app_iff. simpl. auto. }
  assert (Hstored : stored_password u t1 = Some p).
  { unfold stored_password. rewrite Ht1. simpl.
    rewrite (find_app_none _ _ _ (not_taken_find u t Hfree)). simpl.
    now rewrite String.eqb_refl. }
  split; [now rewrite Hreg|].
  split; [exact Hauth|].
  split; [exact Hstored|].
  split.
  - intros p'. rewrite (register_user_taken u p' t1 Htaken). simpl. auto.
  - intros calls. simpl. fold t1.
    rewrite Hreg. simpl. rewrite String.eqb_refl. simpl.
    rewrite <- Ht1. now rewrite (successes_taken u calls t1 Htaken).
Qed.

(** C7.  [authenticate_user] returns [True] exactly when the table has a row
    with this username and this password, compared as strings; so on a table
    with unique usernames every password other than the stored one is
    refused, and a password that differs from the stored one in letter case
    is such a password. *)
Theorem authenticate_exact_match :
  forall (u p : string) (t : table),
    (authenticate_user u p t = true
     <-> exists r, In r (rows t) /\ username r = u /\ password r = p)
    /\ (forall stored, unique_usernames t -> stored_password u t = Some stored ->
                       (authenticate_user u p t = true <-> p = stored))
    /\ (upper p <> p ->
        authenticate_user u (upper p) (fst (register_user u p empty_table)) = false).
Proof.
  intros u p t. split; [apply authenticate_user_spec|]. split.
  - intros stored Huniq Hstored. split.
    + intros Ha. apply authenticate_user_spec in Ha.
      destruct Ha as [r [Hin [Hu Hp]]].
      rewrite <- Hp. now apply (stored_password_In u stored t Huniq Hstored).
    + intros ->. apply authenticate_user_spec.
      unfold stored_password in Hstored.
      destruct (find _ (rows t)) as [r|] eqn:Hf; [|discriminate].
      injection Hstored as Hp. apply find_some in Hf. destruct Hf as [Hin Hu].
      apply String.eqb_eq in Hu. now exists r.
  - intros Hne. unfold authenticate_user, select_user. simpl.
    rewrite String.eqb_refl. simpl.
    destruct (String.eqb_spec p (upper p)) as [He|_]; [|reflexivity].
    now elim Hne.
Qed.

(** ** Session gate *)

Lemma login_authenticated (w : widgets) (st : world) :
  authenticated (fst (login w st))
  = authenticated st
    || (login_button w
        && authenticate_user (login_username w) (login_password w) (db st)).
Proof.
  unfold login. destruct (login_button w); simpl; [|now rewrite orb_false_r].
  destruct (authenticate_user _ _ _); simpl;
    [now rewrite orb_true_r|now rewrite orb_false_r].
Qed.

Lemma register_authenticated (w : widgets) (st : world) :
  authenticated (fst (register w st)) = authenticated st.
Proof.
  unfold register. destruct (register_button w); [|reflexivity].
  destruct (register_user _ _ _) as [t ok]. now destruct ok.
Qed.

(** C9.  A new session is anonymous.  In one run of the script the flag goes
    from false to true only when the Login page is shown, its button is
    pressed and [authenticate_user] accepts the pair typed there; it goes
    from true to false only when the Logout button is pressed; and a run that
    shows the Register page leaves an anonymous session anonymous, whether
    the button is pressed or not and whether the registration succeeds or
    not.  So in every session the flag after a run that showed the Register
    page to an anonymous user is false. *)
Theorem session_gate :
  forall (np_sqrt : Q -> Q) (yf_download : string -> date -> date -> fetch_result)
         (w : widgets) (st : world),
    (forall file, authenticated (new_session file) = false)
    /\ (authenticated st = false -> authenticated (fst (script np_sqrt yf_download w st)) = true ->
        menu w = Login /\ login_button w = true
        /\ authenticate_user (login_username w) (login_password w) (db st) = true)
    /\ (authenticated st = true -> authenticated (fst (script np_sqrt yf_download w st)) = false ->
        logout_button w = true)
    /\ (authenticated st = true -> logout_button w = true ->
        authenticated (fst (script np_sqrt yf_download w st)) = false)
    /\ (authenticated st = false -> menu w = Register ->
        authenticated (fst (script np_sqrt yf_download w st)) = false)
    /\ (forall ws file,
          let before := session np_sqrt yf_download ws (new_session file) in
          authenticated before = false -> menu w = Register ->
          authenticated (session np_sqrt yf_download (ws ++ [w]) (new_session file)) = false).
Proof.
  intros np_sqrt yf_download w st.
  assert (Hreg : forall s, authenticated s = false -> menu w = Register ->
                           authenticated (fst (script np_sqrt yf_download w s)) = false).
  { intros s Hs Hm. unfold script. rewrite Hm.
    destruct s as [[[|]|] t]; simpl in *; try discriminate;
      now rewrite register_authenticated. }
  split; [reflexivity|]. split; [|split; [|split; [|split]]].
  - intros Hs Hs'. unfold script in Hs'.
    destruct st as [[[|]|] t]; simpl in *; try discriminate;
      (destruct (menu w); [|now rewrite register_authenticated in Hs']);
      rewrite login_authenticated in Hs'; simpl in Hs';
      apply andb_true_iff in Hs'; now destruct Hs'.
  - intros Hs Hs'. unfold script in Hs'.
    destruct st as [[[|]|] t]; simpl in *; try discriminate.
    destruct (logout_button w); [reflexivity|discriminate].
  - intros Hs Hl. unfold script.
    destruct st as [[[|]|] t]; simpl in *; try discriminate.
    now rewrite Hl.
  - apply Hreg.
  - intros ws file before Hb Hm.
    assert (Hsess : forall l s, session np_sqrt yf_download (l ++ [w]) s = fst (script np_sqrt yf_download w (session np_sqrt yf_download l s))).
    { induction l as [|a l IH]; intros s; simpl; [reflexivity|apply IH]. }
    rewrite Hsess. now apply Hreg.
Qed.

(** ** Charting view *)

Lemma codes_eqb_eq (l1 l2 : list N) : codes_eqb l1 l2 = true <-> l1 = l2.
Proof.
  revert l2. induction l1 as [|a l1 IH]; intros [|b l2]; simpl;
    try (split; [discriminate|discriminate]); [tauto|].
  rewrite andb_true_iff, N.eqb_eq, IH. split.
  - intros [-> ->]. reflexivity.
  - intros [= -> ->]. auto.
Qed.

Lemma In_ascii_codes (a : N) : (a < 128)%N -> In a ascii_codes.
Proof.
  intros H. unfold ascii_codes. apply in_map_iff. exists (N.to_nat a).
  split; [apply N2Nat.id|]. apply in_seq. lia.
Qed.

(** The case forms of the ASCII code points, read off the two tables. *)
Lemma ascii_case_check :
  forallb (fun a => match upper_code a, lower_code a with
                    | [u], [l] =>
                        (u <? 128)%N && (l <? 128)%N
                        && codes_eqb (upper_code u) [u]
                        && codes_eqb (upper_code l) [u]
                    | _, _ => false
                    end) ascii_codes = true.
Proof. vm_compute. reflexivity. Qed.

Lemma ascii_case_forms (a : N) :
  (a < 128)%N ->
  exists u l, upper_code a = [u] /\ lower_code a = [l]
              /\ (u < 128)%N /\ (l < 128)%N
              /\ upper_code u = [u] /\ upper_code l = [u].
Proof.
  intros Ha. assert (H := ascii_case_check). rewrite forallb_forall in H.
  specialize (H a (In_ascii_codes a Ha)).
  destruct (upper_code a) as [|u [|? ?]]; try discriminate.
  destruct (lower_code a) as [|l [|? ?]]; try discriminate.
  rewrite !andb_true_iff, !N.ltb_lt, !codes_eqb_eq in H.
  exists u, l. tauto.
Qed.

Lemma case_variant_ascii (a b : N) :
  (a < 128)%N -> (b < 128)%N -> case_variant a b = true ->
  upper_code a = upper_code b.
Proof.
  intros Ha Hb H.
  destruct (ascii_case_forms a Ha) as [ua [la [Eua [Ela [_ [_ [Uua Ula]]]]]]].
  destruct (ascii_case_forms b Hb) as [ub [lb [Eub [Elb [_ [_ [Uub Ulb]]]]]]].
  unfold case_variant in H.
  rewrite !orb_true_iff, N.eqb_eq, !codes_eqb_eq in H.
  destruct H as [[[[H|H]|H]|H]|H].
  - now subst b.
  - rewrite Eua in H. injection H as ->. congruence.
  - rewrite Eub in H. injection H as ->. congruence.
  - rewrite Ela in H. injection H as ->. congruence.
  - rewrite Elb in H. injection H as ->. congruence.
Qed.

Lemma upper_code_ascii_check :
  forallb (fun a => codes_eqb (upper_code a)
                              [N_of_ascii (upper_ascii (ascii_of_N a))])
          ascii_codes = true.
Proof. vm_compute. reflexivity. Qed.

Lemma upper_code_ascii (c : ascii) :
  (N_of_ascii c <? 128)%N = true ->
  upper_code (N_of_ascii c) = [N_of_ascii (upper_ascii c)]
  /\ (N_of_ascii (upper_ascii c) <? 128)%N = true.
Proof.
  intros Hc. apply N.ltb_lt in Hc.
  assert (H := upper_code_ascii_check). rewrite forallb_forall in H.
  specialize (H _ (In_ascii_codes _ Hc)).
  rewrite ascii_N_embedding in H. apply codes_eqb_eq in H.
  split; [exact H|].
  destruct (ascii_case_forms _ Hc) as [u [_ [Eu [_ [Hu _]]]]].
  rewrite Eu in H. injection H as <-. now apply N.ltb_lt.
Qed.

Lemma utf8_decode_head (c : ascii) (rest : string) :
  (N_of_ascii c <? 128)%N = true ->
  utf8_decode (String c rest) = N_of_ascii c :: utf8_decode rest.
Proof.
  intros H. cbn [utf8_decode]. cbv zeta.
  replace (N_of_ascii c <? 192)%N with true; [reflexivity|].
  symmetry. apply N.ltb_lt. apply N.ltb_lt in H. lia.
Qed.

Lemma utf8_encode_head (n : N) (l : list N) :
  (n <? 128)%N = true ->
  utf8_encode (n :: l) = String (ascii_of_N n) (utf8_encode l).
Proof.
  intros H. cbn [utf8_encode]. unfold utf8_encode_code. now rewrite H.
Qed.

Lemma upper_head (c : ascii) (rest : string) :
  (N_of_ascii c <? 128)%N = true ->
  upper (String c rest) = String (upper_ascii c) (upper rest).
Proof.
  intros H. unfold upper. rewrite (utf8_decode_head c rest H).
  cbn [flat_map]. destruct (upper_code_ascii c H) as [-> Hu].
  cbn [app]. rewrite (utf8_encode_head _ _ Hu).
  now rewrite ascii_N_embedding.
Qed.

(** On ASCII text [str.upper()] is the ASCII uppercase. *)
Lemma upper_ascii_text (s : string) :
  is_ascii s = true -> upper s = ascii_upper s.
Proof.
  induction s as [|c s IH]; intros H; [reflexivity|].
  simpl in H. apply andb_true_iff in H. destruct H as [Hc Hs].
  rewrite (upper_head c s Hc). simpl. now rewrite IH.
Qed.

Lemma case_variants_upper_codes (t1 : string) :
  forall t2,
    is_ascii t1 = true -> is_ascii t2 = true ->
    all_case_variants (utf8_decode t1) (utf8_decode t2) = true ->
    flat_map upper_code (utf8_decode t1) = flat_map upper_code (utf8_decode t2).
Proof.
  induction t1 as [|a r1 IH]; intros [|b r2] H1 H2 H.
  - reflexivity.
  - simpl in H2. apply andb_true_iff in H2. destruct H2 as [Hb _].
    rewrite (utf8_decode_head b r2 Hb) in H. discriminate.
  - simpl in H1. apply andb_true_iff in H1. destruct H1 as [Ha _].
    rewrite (utf8_decode_head a r1 Ha) in H. discriminate.
  - simpl in H1, H2. apply andb_true_iff in H1, H2.
    destruct H1 as [Ha Hr1]. destruct H2 as [Hb Hr2].
    rewrite (utf8_decode_head a r1 Ha), (utf8_decode_head b r2 Hb) in *.
    cbn [all_case_variants] in H. apply andb_true_iff in H. destruct H as [Hv Hr].
    cbn [flat_map]. rewrite (IH r2 Hr1 Hr2 Hr). f_equal.
    apply case_variant_ascii; [now apply N.ltb_lt|now apply N.ltb_lt|exact Hv].
Qed.

Lemma differ_in_letter_case_only_upper (t1 t2 : string) :
  is_ascii t1 = true -> is_ascii t2 = true ->
  differ_in_letter_case_only t1 t2 = true -> upper t1 = upper t2.
Proof.
  intros H1 H2 H. unfold upper.
  now rewrite (case_variants_upper_codes t1 t2 H1 H2 H).
Qed.

(** C8.  When the start date is after the end date, [main_app] shows the
    title, emits the date-order error and stops: these are all its calls,
    and no call to [yf.download] is among them. *)
Theorem start_after_end_rejected :
  forall (np_sqrt : Q -> Q) (yf_download : string -> date -> date -> fetch_result)
         (w : widgets),
    date_gt (start_date w) (end_date w) = true ->
    main_app np_sqrt yf_download w
    = [st_title "Interactive Stock Candlestick App";
       st_error "Start date must be before end date.";
       st_stop]
    /\ (forall ticker start stop, ~ In (yf_download_call ticker start stop) (main_app np_sqrt yf_download w)).
Proof.
  intros np_sqrt yf_download w H. unfold main_app. rewrite H. split; [reflexivity|].
  intros ticker start stop [Hin|[Hin|[Hin|[]]]]; discriminate.
Qed.

Lemma tab4_no_fetch (np_sqrt : Q -> Q) (w : widgets) (data : list PriceRow) ticker start stop :
  ~ In (yf_download_call ticker start stop) (tab4 np_sqrt w data).
Proof.
  unfold tab4. destruct (show_data_table w); simpl; [|tauto].
  intros [H|[]]. discriminate.
Qed.

(** C10, as the code has it.  Every call to [yf.download] that [main_app]
    makes carries [str.upper()] of the ticker text and the two dates as
    entered, and there is such a call whenever the start date is not after
    the end date.  On ASCII text [str.upper()] is the ASCII uppercase, and
    on other text it follows Unicode ("strasse" written with U+00DF becomes
    "STRASSE").  So two runs whose ticker texts are ASCII and differ only
    in letter case, all other widgets equal, make the same calls, with the
    same request and the same data. *)
Theorem fetch_uses_uppercased_ticker :
  forall (np_sqrt : Q -> Q) (yf_download : string -> date -> date -> fetch_result)
         (w : widgets),
    (forall ticker start stop,
        In (yf_download_call ticker start stop) (main_app np_sqrt yf_download w) ->
        ticker = upper (ticker_input w) /\ start = start_date w /\ stop = end_date w)
    /\ (date_gt (start_date w) (end_date w) = false ->
        In (yf_download_call (upper (ticker_input w)) (start_date w) (end_date w))
           (main_app np_sqrt yf_download w))
    /\ (forall t, is_ascii t = true -> upper t = ascii_upper t)
    /\ upper strasse = "STRASSE"%string
    /\ (forall t1 t2,
           is_ascii t1 = true -> is_ascii t2 = true ->
           differ_in_letter_case_only t1 t2 = true ->
           main_app np_sqrt yf_download (with_ticker t1 w)
           = main_app np_sqrt yf_download (with_ticker t2 w)).
Proof.
  intros np_sqrt yf_download w. split; [|split; [|split; [|split]]].
  - intros ticker start stop. unfold main_app.
    destruct (date_gt (start_date w) (end_date w)).
    + intros [H|[H|[H|[]]]]; discriminate.
    + intros [H|[H|H]]; [discriminate|now injection H as <- <- <-|].
      exfalso. destruct (yf_download _ _ _) as [[|r data]|e].
      * destruct H as [H|[]]. discriminate.
      * destruct H as [H|[H|[H|[H|H]]]]; try discriminate.
        now apply tab4_no_fetch in H.
      * destruct H as [H|[]]. discriminate.
  - intros H. unfold main_app. rewrite H. right. now left.
  - apply upper_ascii_text.
  - vm_compute. reflexivity.
  - intros t1 t2 H1 H2 H. unfold main_app, tab1, tab2, tab4, final_frame.
    cbn [ticker_input start_date end_date ma_days bb_window rsi_period
         show_data_table with_ticker].
    now rewrite (differ_in_letter_case_only_upper t1 t2 H1 H2 H).
Qed.

(** ** Rolling windows *)

Lemma length_rolling (agg : list Q -> cell) (w : nat) (s : Series) :
  length (rolling agg w s) = length s.
Proof. unfold rolling. now rewrite length_map, length_seq. Qed.

Lemma nth_error_rolling (agg : list Q -> cell) (w i : nat) (s : Series) :
  (i < length s)%nat ->
  nth_error (rolling agg w s) i = Some (rolling_at agg w s i).
Proof.
  intros Hi. unfold rolling. rewrite nth_error_map, nth_error_seq.
  apply Nat.ltb_lt in Hi. now rewrite Hi.
Qed.

Lemma observations_Some (l : list Q) : observations (map Some l) = l.
Proof. induction l as [|x l IH]; simpl; [reflexivity|now rewrite IH]. Qed.

Lemma length_observations (win : Series) :
  (length (observations win) <= length win)%nat.
Proof. induction win as [|[x|] win IH]; simpl; lia. Qed.

Lemma observations_In (x : Q) (win : Series) :
  In x (observations win) <-> In (Some x) win.
Proof.
  induction win as [|[y|] win IH]; simpl; [tauto| |].
  - rewrite IH. split; intros [H|H]; auto; left; congruence.
  - rewrite IH. split; [auto|]. intros [H|H]; [discriminate|assumption].
Qed.

Lemma window_incl (w i : nat) (s : Series) (c : cell) :
  In c (window w i s) -> In c s.
Proof.
  unfold window. intros H.
  assert (H1 : In c (firstn (i + 1) s)).
  { rewrite <- (firstn_skipn (i + 1 - w) (firstn (i + 1) s)).
    apply in_or_app. now right. }
  rewrite <- (firstn_skipn (i + 1) s). apply in_or_app. now left.
Qed.

Lemma window_Some (w i : nat) (qs : list Q) :
  observations (window w i (map Some qs)) = Qwindow w i qs.
Proof.
  unfold window, Qwindow. now rewrite firstn_map, skipn_map, observations_Some.
Qed.

Lemma length_Qwindow (w i : nat) (qs : list Q) :
  length (Qwindow w i qs) = (Nat.min (i + 1) (length qs) - (i + 1 - w))%nat.
Proof. unfold Qwindow. now rewrite length_skipn, length_firstn. Qed.

Lemma firstn_nth (w : nat) (qs : list Q) :
  (w <= length qs)%nat ->
  firstn w qs = map (fun k => nth k qs 0) (seq 0 w).
Proof.
  revert qs. induction w as [|w IH]; intros qs Hw; [reflexivity|].
  destruct qs as [|q qs]; simpl in Hw; [lia|].
  simpl. f_equal. rewrite <- seq_shift, map_map. apply IH. lia.
Qed.

Lemma skipn_firstn_nth (lo w : nat) (qs : list Q) :
  (lo + w <= length qs)%nat ->
  skipn lo (firstn (lo + w) qs) = map (fun k => nth (lo + k) qs 0) (seq 0 w).
Proof.
  revert qs. induction lo as [|lo IH]; intros qs H.
  - simpl. now apply firstn_nth.
  - destruct qs as [|q qs]; simpl in H; [lia|].
    simpl. apply IH. lia.
Qed.

Lemma Qwindow_nth (w i : nat) (qs : list Q) :
  (w <= i + 1)%nat -> (i < length qs)%nat ->
  Qwindow w i qs = map (fun k => nth (i + 1 - w + k) qs 0) (seq 0 w).
Proof.
  intros Hw Hi. unfold Qwindow.
  replace (i + 1)%nat with (i + 1 - w + w)%nat at 2 by lia.
  apply skipn_firstn_nth. lia.
Qed.

Lemma rolling_at_early (agg : list Q -> cell) (w i : nat) (s : Series) :
  (i + 1 < w)%nat -> rolling_at agg w s i = NaN.
Proof.
  intros Hw. unfold rolling_at.
  assert (H : (length (observations (window w i s)) <? w)%nat = true).
  { apply Nat.ltb_lt.
    assert (H1 := length_observations (window w i s)).
    unfold window in H1 at 2. rewrite length_skipn, length_firstn in H1. lia. }
  now rewrite H.
Qed.

Lemma MA_early (w i : nat) (s : Series) :
  (i + 1 < w)%nat -> (i < length s)%nat -> nth_error (MA w s) i = Some NaN.
Proof.
  intros Hw Hi. unfold MA, rolling_mean. rewrite nth_error_rolling by assumption.
  now rewrite rolling_at_early.
Qed.

Lemma MA_full (w i : nat) (qs : list Q) :
  (1 <= w)%nat -> (w <= i + 1)%nat -> (i < length qs)%nat ->
  nth_error (MA w (map Some qs)) i = Some (Some (mean_of_closes qs i w)).
Proof.
  intros H1 Hw Hi. unfold MA, rolling_mean.
  rewrite nth_error_rolling by (now rewrite length_map).
  unfold rolling_at. rewrite window_Some.
  assert (Hlen : length (Qwindow w i qs) = w).
  { rewrite length_Qwindow. lia. }
  rewrite Hlen, Nat.ltb_irrefl.
  unfold mean, Qlen. rewrite Hlen.
  destruct (Qwindow w i qs) as [|q l] eqn:E; [simpl in Hlen; lia|].
  rewrite <- E, (Qwindow_nth w i qs Hw Hi). reflexivity.
Qed.

(** C4.  On a close series without NaN and for a window [w >= 1], the
    moving average at row [i] is NaN when [i < w - 1] and is the mean of the
    closes of rows [i-w+1 .. i] when [i >= w - 1]; on the scenario closes
    with [w = 5] rows 0 to 3 are NaN, row 4 holds 12 and row 10 holds 18. *)
Theorem moving_average_is_window_mean :
  forall (qs : list Q) (w i : nat),
    (1 <= w)%nat -> (i < length qs)%nat ->
    ((i + 1 < w)%nat -> nth_error (MA w (map Some qs)) i = Some NaN)
    /\ ((w <= i + 1)%nat ->
        nth_error (MA w (map Some qs)) i = Some (Some (mean_of_closes qs i w)))
    /\ firstn 4 (MA 5 (map Some scenario_closes)) = [NaN; NaN; NaN; NaN]
    /\ cell_eq (nth 4 (MA 5 (map Some scenario_closes)) NaN) (Some 12)
    /\ cell_eq (nth 10 (MA 5 (map Some scenario_closes)) NaN) (Some 18)
    /\ Forall defined (skipn 4 (MA 5 (map Some scenario_closes))).
Proof.
  intros qs w i H1 Hi. split; [|split].
  - intros Hw. apply MA_early; [assumption|now rewrite length_map].
  - intros Hw. now apply MA_full.
  - split; [reflexivity|]. split; [reflexivity|]. split; [reflexivity|].
    repeat constructor; discriminate.
Qed.

(** ** Exponentially weighted means *)

Lemma length_ewm_from (a : Q) (s : Series) :
  forall weighted old_wt, length (ewm_from a weighted old_wt s) = length s.
Proof.
  induction s as [|cur s IH]; intros weighted old_wt; [reflexivity|].
  simpl. destruct weighted, cur; simpl; now rewrite IH.
Qed.

Lemma length_series_op (f : cell -> cell -> cell) (a b : Series) :
  length a = length b -> length (series_op f a b) = length a.
Proof.
  intros H. unfold series_op. rewrite length_map, length_combine. lia.
Qed.

(** On a series without NaN the pandas computation is the recurrence. *)
Lemma ewm_from_recurrence (a : Q) (qs : list Q) :
  forall wv wv', wv == wv' ->
    Forall2 cell_eq (ewm_from a (Some wv) 1 (map Some qs))
            (map Some (ema_from a wv' qs)).
Proof.
  induction qs as [|c qs IH]; intros wv wv' Hw; simpl; constructor.
  - simpl. rewrite Hw. field. intros H. ring_simplify in H. discriminate.
  - apply IH. rewrite Hw. field. intros H. ring_simplify in H. discriminate.
Qed.

Lemma ewm_mean_recurrence (span : Z) (qs : list Q) :
  Forall2 cell_eq (ewm_mean span (map Some qs)) (map Some (ema (alpha span) qs)).
Proof.
  unfold ewm_mean, ema. destruct qs as [|c qs]; simpl; constructor.
  - simpl. reflexivity.
  - apply ewm_from_recurrence. reflexivity.
Qed.

Lemma ewm_from_constant (a c : Q) (s : Series) :
  all_equal_to c s ->
  forall wv, wv == c -> all_equal_to c (ewm_from a (Some wv) 1 s).
Proof.
  unfold all_equal_to. induction 1 as [|x s Hx Hs IH]; intros wv Hw; simpl;
    [constructor|].
  destruct x as [x|]; simpl in Hx; [|contradiction].
  assert (E : (1 * (1 - a) * wv + a * x) / (1 * (1 - a) + a) == c).
  { rewrite Hw, Hx. field. intros H. ring_simplify in H. discriminate. }
  constructor; [exact E|]. now apply IH.
Qed.

Lemma ewm_mean_constant (span : Z) (c : Q) (s : Series) :
  all_equal_to c s -> all_equal_to c (ewm_mean span s).
Proof.
  unfold ewm_mean. intros H. destruct H as [|x s Hx Hs]; simpl; [constructor|].
  destruct x as [x|]; simpl in Hx; [|contradiction].
  constructor; [exact Hx|]. now apply ewm_from_constant.
Qed.

Lemma series_sub_constant (c d : Q) (a b : Series) :
  length a = length b ->
  all_equal_to c a -> all_equal_to d b -> all_equal_to (c - d) (series_op csub a b).
Proof.
  unfold all_equal_to, series_op. intros Hlen Ha. revert b Hlen.
  induction Ha as [|x a Hx Ha IH]; intros b Hlen Hb; simpl; [constructor|].
  destruct b as [|y b]; [discriminate|]. inversion Hb as [|y' b' Hy Hb']; subst.
  simpl. constructor.
  - destruct x as [x|], y as [y|]; simpl in *; try contradiction.
    now rewrite Hx, Hy.
  - apply IH; [now injection Hlen|assumption].
Qed.

Lemma all_equal_to_repeat (v : Q) (n : nat) : all_equal_to v (repeat (Some v) n).
Proof.
  unfold all_equal_to. induction n; simpl; constructor; [reflexivity|assumption].
Qed.

Lemma all_equal_to_eq (c d : Q) (s : Series) :
  c == d -> all_equal_to c s -> all_equal_to d s.
Proof.
  unfold all_equal_to. intros E H. induction H as [|x s Hx Hs IH]; constructor;
    [|exact IH].
  destruct x as [x|]; simpl in *; [|contradiction]. now rewrite Hx.
Qed.

(** C6.  On a constant close series of value [v] and any length, every cell
    of the MACD column and every cell of the Signal column holds 0, and both
    columns have one cell per row; each EMA behind them follows, on a series
    without NaN, the recurrence [ema[0] = close[0]],
    [ema[i] = close[i] * k + ema[i-1] * (1 - k)] with [k = 2 / (span + 1)]. *)
Theorem macd_signal_constant_zero :
  forall (v : Q) (n : nat),
    all_equal_to 0 (MACD (repeat (Some v) n))
    /\ all_equal_to 0 (Signal_Line (repeat (Some v) n))
    /\ length (MACD (repeat (Some v) n)) = n
    /\ length (Signal_Line (repeat (Some v) n)) = n
    /\ (forall span qs,
           Forall2 cell_eq (ewm_mean span (map Some qs))
                   (map Some (ema (2 / (inject_Z span + 1)) qs))).
Proof.
  intros v n.
  assert (Hlen : length (exp1 (repeat (Some v) n)) = length (exp2 (repeat (Some v) n))).
  { unfold exp1, exp2, ewm_mean. now rewrite !length_ewm_from. }
  assert (Hm : all_equal_to 0 (MACD (repeat (Some v) n))).
  { apply all_equal_to_eq with (c := v - v); [ring|].
    unfold MACD. apply series_sub_constant; [exact Hlen| |];
      apply ewm_mean_constant, all_equal_to_repeat. }
  assert (Hl : length (MACD (repeat (Some v) n)) = n).
  { unfold MACD. rewrite length_series_op by exact Hlen.
    unfold exp1, ewm_mean. now rewrite length_ewm_from, repeat_length. }
  split; [exact Hm|]. split; [now apply ewm_mean_constant|].
  split; [exact Hl|]. split.
  - unfold Signal_Line, ewm_mean. now rewrite length_ewm_from.
  - intros span qs. apply ewm_mean_recurrence.
Qed.

(** ** Bollinger bands *)

Lemma Qlen_cons (x : Q) (l : list Q) : Qlen (x :: l) == Qlen l + 1.
Proof.
  unfold Qlen. simpl length. rewrite Nat2Z.inj_succ, <- Z.add_1_r, inject_Z_plus.
  reflexivity.
Qed.

Lemma Qlen_nonneg (l : list Q) : 0 <= Qlen l.
Proof.
  unfold Qlen. change 0 with (inject_Z 0). rewrite <- Zle_Qle. lia.
Qed.

Lemma Qlen_pos (x : Q) (l : list Q) : 0 < Qlen (x :: l).
Proof. rewrite Qlen_cons. assert (H := Qlen_nonneg l). lra. Qed.

Lemma Qsum_all (c : Q) (l : list Q) :
  Forall (fun x => x == c) l -> Qsum l == Qlen l * c.
Proof.
  induction 1 as [|x l Hx Hl IH].
  - unfold Qlen. simpl. ring.
  - rewrite Qlen_cons. simpl. rewrite IH, Hx. ring.
Qed.

Lemma mean_all (c : Q) (obs : list Q) (x : Q) :
  Forall (fun y => y == c) obs -> mean obs = Some x -> x == c.
Proof.
  intros Hall Hm. destruct obs as [|y obs]; [discriminate|].
  simpl in Hm. injection Hm as <-.
  change (y + Qsum obs) with (Qsum (y :: obs)).
  rewrite (Qsum_all c (y :: obs) Hall). field.
  assert (H := Qlen_pos y obs). lra.
Qed.

Lemma obs_constant (v : Q) (n w i : nat) :
  Forall (fun y => y == v) (observations (window w i (repeat (Some v) n))).
Proof.
  apply Forall_forall. intros y Hy.
  apply observations_In, window_incl, repeat_spec in Hy.
  injection Hy as ->. reflexivity.
Qed.

Lemma nth_error_series_op (f : cell -> cell -> cell) (a b : Series) (i : nat) :
  nth_error (series_op f a b) i
  = match nth_error a i, nth_error b i with
    | Some x, Some y => Some (f x y)
    | _, _ => None
    end.
Proof.
  unfold series_op. revert b i. induction a as [|x a IH]; intros b i.
  - simpl. now destruct i.
  - destruct b as [|y b]; simpl.
    + destruct i; simpl; [reflexivity|]. now destruct (nth_error a i).
    + destruct i; simpl; [reflexivity|apply IH].
Qed.

Lemma nth_error_rolling_ge (agg : list Q -> cell) (w i : nat) (s : Series) :
  (length s <= i)%nat -> nth_error (rolling agg w s) i = None.
Proof. intros H. apply nth_error_None. now rewrite length_rolling. Qed.

(** ** Relative strength index *)

Lemma length_diff_from (s : Series) :
  forall prev, length (diff_from prev s) = length s.
Proof. induction s as [|x s IH]; intros prev; simpl; [reflexivity|now rewrite IH]. Qed.

Lemma length_up (close : Series) : length (up close) = length close.
Proof. unfold up, clip_lower, delta, diff. now rewrite length_map, length_diff_from. Qed.

Lemma length_down (close : Series) : length (down close) = length close.
Proof.
  unfold down, clip_upper, delta, diff.
  now rewrite !length_map, length_diff_from.
Qed.

(** The RSI column, row by row. *)
Lemma nth_error_RSI (p i : nat) (close : Series) :
  (i < length close)%nat ->
  nth_error (RSI p close) i
  = Some (rsi_cell (rolling_at mean p (up close) i)
                   (rolling_at mean p (down close) i)).
Proof.
  intros Hi. unfold RSI, rsi_divisor, rs, rs_divisor, replace, avg_up, avg_down.
  rewrite !nth_error_map, nth_error_series_op, nth_error_map.
  unfold rolling_mean.
  rewrite !nth_error_rolling by (rewrite ?length_up, ?length_down; exact Hi).
  reflexivity.
Qed.

Lemma every_rolling_mean (P : Q -> Prop) (p : nat) (s : Series) :
  (forall obs m, Forall P obs -> mean obs = Some m -> P m) ->
  every P s -> every P (rolling_mean p s).
Proof.
  intros Hmean Hs. unfold every, rolling_mean, rolling.
  apply Forall_forall. intros c Hc. apply in_map_iff in Hc.
  destruct Hc as [i [<- _]]. unfold rolling_at.
  destruct (_ <? _)%nat; [exact I|].
  destruct (mean _) as [m|] eqn:Em; [|exact I].
  apply (Hmean (observations (window p i s)) m); [|exact Em].
  apply Forall_forall. intros y Hy.
  apply observations_In, window_incl in Hy.
  unfold every in Hs. rewrite Forall_forall in Hs. exact (Hs _ Hy).
Qed.

Lemma diff_from_Some (qs : list Q) :
  forall prev, diff_from (Some prev) (map Some qs) = map Some (Qdiffs prev qs).
Proof.
  induction qs as [|x qs IH]; intros prev; simpl; [reflexivity|now rewrite IH].
Qed.

Lemma diff_Some (q : Q) (qs : list Q) :
  diff (map Some (q :: qs)) = NaN :: map Some (Qdiffs q qs).
Proof. unfold diff. simpl. now rewrite diff_from_Some. Qed.

Lemma Qdiffs_increasing (qs : list Q) :
  forall prev, increasing_from prev qs -> Forall (fun d => 0 < d) (Qdiffs prev qs).
Proof.
  induction qs as [|x qs IH]; intros prev H; simpl; constructor.
  - destruct H as [H _]. lra.
  - apply IH. now destruct H.
Qed.

Lemma down_increasing (qs : list Q) :
  strictly_increasing qs -> every (fun x => x == 0) (down (map Some qs)).
Proof.
  intros H. destruct qs as [|q qs]; [constructor|].
  unfold down, delta, clip_upper. rewrite diff_Some. simpl.
  constructor; [exact I|].
  apply Qdiffs_increasing in H. unfold every.
  rewrite !map_map. apply Forall_map.
  revert H. apply Forall_impl. intros d Hd. simpl.
  destruct (Qle_bool d 0) eqn:E; [|ring].
  apply Qle_bool_iff in E. lra.
Qed.

Lemma replace_zero (s : Series) :
  every (fun x => x == 0) s -> replace 0 NaN s = repeat NaN (length s).
Proof.
  unfold every, replace. induction 1 as [|c s Hc Hs IH]; simpl; [reflexivity|].
  rewrite IH. f_equal. destruct c as [x|]; [|reflexivity].
  simpl. now rewrite (Qeq_eq_bool x 0 Hc).
Qed.

Lemma series_div_nan (a : Series) (n : nat) :
  length a = n -> series_op cdiv a (repeat NaN n) = repeat NaN n.
Proof.
  unfold series_op. revert n. induction a as [|x a IH]; intros n H; subst n;
    [reflexivity|].
  simpl. rewrite IH by reflexivity. now destruct x.
Qed.

Lemma RSI_increasing (p : nat) (qs : list Q) :
  strictly_increasing qs -> RSI p (map Some qs) = repeat NaN (length qs).
Proof.
  intros H. unfold RSI, rsi_divisor, rs, rs_divisor, avg_down.
  rewrite replace_zero.
  - unfold rolling_mean. rewrite length_rolling, length_down, length_map.
    rewrite series_div_nan.
    + now rewrite !map_repeat.
    + unfold avg_up, rolling_mean. now rewrite length_rolling, length_up, length_map.
  - apply every_rolling_mean; [|now apply down_increasing].
    intros obs m Hobs Hm. now apply (mean_all 0 obs m).
Qed.

Lemma Qsum_nonneg (l : list Q) : Forall (Qle 0) l -> 0 <= Qsum l.
Proof.
  induction 1 as [|x l Hx Hl IH]; simpl; [apply Qle_refl|]. lra.
Qed.

Lemma mean_nonneg (obs : list Q) (m : Q) :
  Forall (Qle 0) obs -> mean obs = Some m -> 0 <= m.
Proof.
  intros Hall Hm. destruct obs as [|y obs]; [discriminate|].
  simpl in Hm. injection Hm as <-.
  change (y + Qsum obs) with (Qsum (y :: obs)).
  apply Qle_shift_div_l; [apply Qlen_pos|].
  rewrite Qmult_0_l. now apply Qsum_nonneg.
Qed.

Lemma up_nonneg (close : Series) : every (Qle 0) (up close).
Proof.
  unfold every, up, clip_lower. apply Forall_map, Forall_forall.
  intros [x|] _; simpl; [|exact I].
  destruct (Qle_bool 0 x) eqn:E; [now apply Qle_bool_iff|apply Qle_refl].
Qed.

Lemma down_nonneg (close : Series) : every (Qle 0) (down close).
Proof.
  unfold every, down, clip_upper. rewrite map_map. apply Forall_map, Forall_forall.
  intros [x|] _; simpl; [|exact I].
  destruct (Qle_bool x 0) eqn:E; [apply Qle_bool_iff in E|]; lra.
Qed.

Lemma avg_up_nonneg (p : nat) (close : Series) : every (Qle 0) (avg_up p close).
Proof. apply every_rolling_mean; [apply mean_nonneg|apply up_nonneg]. Qed.

Lemma avg_down_nonneg (p : nat) (close : Series) : every (Qle 0) (avg_down p close).
Proof. apply every_rolling_mean; [apply mean_nonneg|apply down_nonneg]. Qed.

Lemma rs_divisor_pos (p : nat) (close : Series) :
  every (fun x => 0 < x) (rs_divisor p close).
Proof.
  unfold rs_divisor, replace. assert (H := avg_down_nonneg p close).
  unfold every in *. apply Forall_map. revert H. apply Forall_impl.
  intros [x|] Hx; simpl; [|exact I].
  destruct (Qeq_bool x 0) eqn:E; [exact I|].
  apply Qeq_bool_neq in E. lra.
Qed.

Lemma every_series_div (a b : Series) :
  every (Qle 0) a -> every (fun x => 0 < x) b -> every (Qle 0) (series_op cdiv a b).
Proof.
  unfold every, series_op. intros Ha. revert b.
  induction Ha as [|x a Hx Ha IH]; intros b Hb; simpl; [constructor|].
  destruct Hb as [|y b Hy Hb]; simpl; constructor; [|now apply IH].
  destruct x as [x|], y as [y|]; simpl; try exact I.
  destruct (Qeq_bool y 0); [exact I|].
  apply Qle_shift_div_l; [exact Hy|]. now rewrite Qmult_0_l.
Qed.

Lemma rsi_divisor_pos (p : nat) (close : Series) :
  every (fun x => 1 <= x) (rsi_divisor p close).
Proof.
  unfold rsi_divisor.
  assert (H : every (Qle 0) (rs p close)).
  { apply every_series_div; [apply avg_up_nonneg|apply rs_divisor_pos]. }
  unfold every in *. apply Forall_map. revert H. apply Forall_impl.
  intros [x|] Hx; simpl; [lra|exact I].
Qed.

(** No division of the RSI computation has a zero divisor. *)
Lemma rsi_divisors_nonzero (p : nat) (close : Series) :
  Forall (fun c => ~ cell_eq c (Some 0)) (rs_divisor p close)
  /\ Forall (fun c => ~ cell_eq c (Some 0)) (rsi_divisor p close).
Proof.
  split.
  - assert (H := rs_divisor_pos p close). revert H. apply Forall_impl.
    intros [x|]; simpl; [lra|tauto].
  - assert (H := rsi_divisor_pos p close). revert H. apply Forall_impl.
    intros [x|]; simpl; [lra|tauto].
Qed.

(** C1, as the code has it.  On a close series that rises at every row the
    RSI column is NaN at every row, for every period: the rolling mean of the
    falls is 0 wherever it is defined, [replace(0, np.nan)] turns it into
    NaN, and the NaN goes through the division and the final formula.  No
    division of the computation has a zero divisor, on any close series. *)
Theorem rsi_increasing_is_nan :
  forall (qs : list Q) (p : nat),
    strictly_increasing qs ->
    RSI p (map Some qs) = repeat NaN (length qs)
    /\ rs_divisor p (map Some qs) = repeat NaN (length qs)
    /\ (forall close : Series,
           Forall (fun c => ~ cell_eq c (Some 0)) (rs_divisor p close)
           /\ Forall (fun c => ~ cell_eq c (Some 0)) (rsi_divisor p close)).
Proof.
  intros qs p H. split; [now apply RSI_increasing|]. split.
  - unfold rs_divisor, avg_down. rewrite replace_zero.
    + unfold rolling_mean. now rewrite length_rolling, length_down, length_map.
    + apply every_rolling_mean; [|now apply down_increasing].
      intros obs m Hobs Hm. now apply (mean_all 0 obs m).
  - intros close. apply rsi_divisors_nonzero.
Qed.

Lemma up_head (x : cell) (close : Series) :
  exists rest, up (x :: close) = NaN :: rest.
Proof.
  unfold up, delta, diff, clip_lower. simpl. eexists. f_equal.
  now destruct x.
Qed.

Lemma rolling_at_head_nan (agg : list Q -> cell) (p i : nat) (rest : Series) :
  (i < p)%nat -> rolling_at agg p (NaN :: rest) i = NaN.
Proof.
  intros Hi. unfold rolling_at, window.
  replace (i + 1 - p)%nat with 0%nat by lia.
  replace (i + 1)%nat with (S i) by lia. simpl.
  assert (H := length_observations (firstn i rest)).
  assert (H' := firstn_le_length i rest).
  destruct (Nat.ltb_spec (length (observations (firstn i rest))) p); [reflexivity|lia].
Qed.

(** The first [p] rows of the RSI column are NaN, on any close series. *)
Lemma RSI_early (p i : nat) (close : Series) :
  (i < p)%nat -> (i < length close)%nat -> nth_error (RSI p close) i = Some NaN.
Proof.
  intros Hp Hi. rewrite nth_error_RSI by exact Hi.
  destruct close as [|x close]; [simpl in Hi; lia|].
  destruct (up_head x close) as [rest ->].
  now rewrite rolling_at_head_nan.
Qed.

Lemma rolling_at_tail (agg : list Q -> cell) (p i : nat) (rest : Series) :
  (1 <= p)%nat -> (p <= i)%nat ->
  rolling_at agg p (NaN :: rest) i = rolling_at agg p rest (i - 1).
Proof.
  intros H1 Hp. unfold rolling_at, window.
  replace (i + 1 - p)%nat with (S (i - p)) by lia.
  replace (i + 1)%nat with (S i) by lia.
  replace (i - 1 + 1 - p)%nat with (i - p)%nat by lia.
  replace (i - 1 + 1)%nat with i by lia.
  reflexivity.
Qed.

Lemma up_Some (q : Q) (qs : list Q) :
  up (map Some (q :: qs)) = NaN :: map Some (rises (Qdiffs q qs)).
Proof.
  unfold up, delta, clip_lower, rises. rewrite diff_Some. simpl.
  now rewrite !map_map.
Qed.

Lemma down_Some (q : Q) (qs : list Q) :
  down (map Some (q :: qs)) = NaN :: map Some (falls (Qdiffs q qs)).
Proof.
  unfold down, delta, clip_upper, falls. rewrite diff_Some. simpl.
  now rewrite !map_map.
Qed.

Lemma length_Qdiffs (qs : list Q) : forall prev, length (Qdiffs prev qs) = length qs.
Proof. induction qs as [|x qs IH]; intros prev; simpl; [reflexivity|now rewrite IH]. Qed.

Lemma nth_Qdiffs (qs : list Q) :
  forall prev m, (m < length qs)%nat ->
    nth m (Qdiffs prev qs) 0 = nth (S m) (prev :: qs) 0 - nth m (prev :: qs) 0.
Proof.
  induction qs as [|x qs IH]; intros prev m Hm; simpl in Hm; [lia|].
  destruct m as [|m]; [reflexivity|].
  simpl Qdiffs. change (nth (S m) (x - prev :: Qdiffs x qs) 0)
    with (nth m (Qdiffs x qs) 0).
  rewrite IH by lia. reflexivity.
Qed.

Lemma rises_nonneg (ds : list Q) : Forall (Qle 0) (rises ds).
Proof.
  unfold rises. apply Forall_map, Forall_forall. intros x _.
  destruct (Qle_bool 0 x) eqn:E; [now apply Qle_bool_iff|apply Qle_refl].
Qed.

Lemma falls_nonneg (ds : list Q) : Forall (Qle 0) (falls ds).
Proof.
  unfold falls. apply Forall_map, Forall_forall. intros x _.
  destruct (Qle_bool x 0) eqn:E; [apply Qle_bool_iff in E|]; lra.
Qed.

Lemma nth_map_lt {A B : Type} (f : A -> B) (l : list A) (m : nat) (d : B) (d' : A) :
  (m < length l)%nat -> nth m (map f l) d = f (nth m l d').
Proof.
  revert m. induction l as [|x l IH]; intros m Hm; simpl in Hm; [lia|].
  destruct m as [|m]; [reflexivity|]. simpl. apply IH. lia.
Qed.

Lemma nth_falls_pos (ds : list Q) (m : nat) :
  (m < length ds)%nat -> (0 < nth m (falls ds) 0 <-> nth m ds 0 < 0).
Proof.
  intros Hm. unfold falls. rewrite (nth_map_lt _ ds m 0 0 Hm).
  destruct (Qle_bool (nth m ds 0) 0) eqn:E.
  - apply Qle_bool_iff in E. split; intros H; lra.
  - assert (H0 : ~ nth m ds 0 <= 0).
    { intros H. apply Qle_bool_iff in H. congruence. }
    split; intros H; lra.
Qed.

Lemma Qsum_nonzero_iff (l : list Q) :
  Forall (Qle 0) l -> (~ Qsum l == 0 <-> exists x, In x l /\ 0 < x).
Proof.
  induction 1 as [|y l Hy Hl IH]; simpl.
  - split; [intros H; now elim H|intros [x [[] _]]].
  - assert (Hs := Qsum_nonneg l Hl). split.
    + intros H. destruct (Qlt_le_dec 0 y) as [Hpos|Hle].
      * exists y. auto.
      * assert (Hn : ~ Qsum l == 0) by (intros E; apply H; lra).
        apply IH in Hn. destruct Hn as [x [Hin Hx]]. exists x. auto.
    + intros [x [[->|Hin] Hx]] E; [lra|].
      assert (Hn : ~ Qsum l == 0) by (apply IH; now exists x).
      apply Hn. lra.
Qed.

Lemma mean_nonzero_iff (obs : list Q) (m : Q) :
  Forall (Qle 0) obs -> mean obs = Some m ->
  (~ m == 0 <-> exists x, In x obs /\ 0 < x).
Proof.
  intros Hall Hm. rewrite <- (Qsum_nonzero_iff obs Hall).
  destruct obs as [|y obs]; [discriminate|].
  simpl in Hm. injection Hm as <-.
  change (y + Qsum obs) with (Qsum (y :: obs)).
  assert (Hp := Qlen_pos y obs).
  split; intros H E; apply H.
  - rewrite E. field. lra.
  - assert (E' : Qsum (y :: obs) == Qsum (y :: obs) / Qlen (y :: obs) * Qlen (y :: obs))
      by (field; lra).
    rewrite E', E. ring.
Qed.

Lemma rsi_cell_defined (au ad : Q) :
  0 <= au -> 0 <= ad ->
  (defined (rsi_cell (Some au) (Some ad)) <-> ~ ad == 0).
Proof.
  intros Hu Hd. unfold rsi_cell, replace_cell, defined.
  destruct (Qeq_bool ad 0) eqn:E.
  - apply Qeq_bool_eq in E. simpl. split; intros H; now elim H.
  - unfold cdiv at 2. rewrite E. apply Qeq_bool_neq in E.
    unfold cadd, lift2.
    assert (Hq : 0 <= au / ad).
    { apply Qle_shift_div_l; [lra|]. now rewrite Qmult_0_l. }
    unfold cdiv.
    destruct (Qeq_bool (1 + au / ad) 0) eqn:E1.
    + apply Qeq_bool_eq in E1. lra.
    + split; [intros _; exact E|intros _; discriminate].
Qed.

Lemma rolling_at_full (agg : list Q -> cell) (w i : nat) (qs : list Q) :
  (w <= i + 1)%nat -> (i < length qs)%nat ->
  rolling_at agg w (map Some qs) i = agg (Qwindow w i qs)
  /\ length (Qwindow w i qs) = w.
Proof.
  intros Hw Hi.
  assert (Hlen : length (Qwindow w i qs) = w) by (rewrite length_Qwindow; lia).
  split; [|exact Hlen].
  unfold rolling_at. now rewrite window_Some, Hlen, Nat.ltb_irrefl.
Qed.

Lemma mean_defined (obs : list Q) :
  (1 <= length obs)%nat -> exists m, mean obs = Some m.
Proof.
  destruct obs as [|y obs]; simpl; [lia|]. intros _. eexists. reflexivity.
Qed.

Lemma std_defined (np_sqrt : Q -> Q) (obs : list Q) :
  (2 <= length obs)%nat -> exists sd, std np_sqrt obs = Some sd.
Proof.
  intros H. unfold std. destruct (Nat.leb_spec (length obs) 1); [lia|].
  eexists. reflexivity.
Qed.

Lemma Qwindow_incl (w i : nat) (l : list Q) (x : Q) :
  In x (Qwindow w i l) -> In x l.
Proof.
  unfold Qwindow. intros H.
  assert (H1 : In x (firstn (i + 1) l)).
  { rewrite <- (firstn_skipn (i + 1 - w) (firstn (i + 1) l)).
    apply in_or_app. now right. }
  rewrite <- (firstn_skipn (i + 1) l). apply in_or_app. now left.
Qed.

Lemma Qwindow_nonneg (w i : nat) (l : list Q) :
  Forall (Qle 0) l -> Forall (Qle 0) (Qwindow w i l).
Proof.
  rewrite !Forall_forall. intros H x Hx. apply H. now apply Qwindow_incl in Hx.
Qed.

(** From row [p] on, the RSI is defined exactly when the close fell at
    one of the last [p] rows. *)
Lemma RSI_late (p i : nat) (qs : list Q) :
  (1 <= p)%nat -> (p <= i)%nat -> (i < length qs)%nat ->
  (defined (nth i (RSI p (map Some qs)) NaN)
   <-> exists j, (i + 1 - p <= j <= i)%nat /\ nth j qs 0 < nth (j - 1) qs 0).
Proof.
  intros H1 Hp Hi.
  rewrite (nth_error_nth _ _ NaN (nth_error_RSI p i (map Some qs)
                                    ltac:(now rewrite length_map))).
  destruct qs as [|q qs]; [simpl in Hi; lia|]. simpl in Hi.
  rewrite up_Some, down_Some, !rolling_at_tail by assumption.
  set (D := Qdiffs q qs).
  assert (HD : length D = length qs) by apply length_Qdiffs.
  assert (Hlr : length (rises D) = length qs) by (unfold rises; now rewrite length_map).
  assert (Hlf : length (falls D) = length qs) by (unfold falls; now rewrite length_map).
  destruct (rolling_at_full mean p (i - 1) (rises D)) as [-> Hlu]; [lia|lia|].
  destruct (rolling_at_full mean p (i - 1) (falls D)) as [-> Hld]; [lia|lia|].
  destruct (mean_defined (Qwindow p (i - 1) (rises D))) as [au Eau]; [lia|].
  destruct (mean_defined (Qwindow p (i - 1) (falls D))) as [ad Ead]; [lia|].
  rewrite Eau, Ead.
  assert (Nu := Qwindow_nonneg p (i - 1) _ (rises_nonneg D)).
  assert (Nd := Qwindow_nonneg p (i - 1) _ (falls_nonneg D)).
  rewrite (rsi_cell_defined au ad (mean_nonneg _ au Nu Eau) (mean_nonneg _ ad Nd Ead)).
  rewrite (mean_nonzero_iff _ ad Nd Ead).
  rewrite Qwindow_nth by lia.
  split.
  - intros [x [Hin Hx]]. apply in_map_iff in Hin. destruct Hin as [k [<- Hk]].
    apply in_seq in Hk.
    apply nth_falls_pos in Hx; [|lia].
    unfold D in Hx. rewrite nth_Qdiffs in Hx by lia.
    exists (S (i - 1 + 1 - p + k)). split; [lia|].
    replace (S (i - 1 + 1 - p + k) - 1)%nat with (i - 1 + 1 - p + k)%nat by lia.
    lra.
  - intros [j [Hj Hlt]].
    exists (nth (i - 1 + 1 - p + (j - 1 - (i - p))) (falls D) 0). split.
    + apply in_map_iff. exists (j - 1 - (i - p))%nat. split; [reflexivity|].
      apply in_seq. lia.
    + replace (i - 1 + 1 - p + (j - 1 - (i - p)))%nat with (j - 1)%nat by lia.
      apply nth_falls_pos; [lia|].
      unfold D. rewrite nth_Qdiffs by lia.
      replace (S (j - 1)) with j by lia. lra.
Qed.

Lemma nth_error_bands (np_sqrt : Q -> Q) (w i : nat) (s : Series) :
  (i < length s)%nat ->
  nth_error (Upper_Band np_sqrt w s) i
  = Some (cadd (rolling_at mean w s i) (cmul (rolling_at (std np_sqrt) w s i) (Some 2)))
  /\ nth_error (Lower_Band np_sqrt w s) i
     = Some (csub (rolling_at mean w s i) (cmul (rolling_at (std np_sqrt) w s i) (Some 2))).
Proof.
  intros Hi. unfold Upper_Band, Lower_Band, MA, Std, rolling_mean, rolling_std.
  rewrite !nth_error_series_op, !nth_error_map, !nth_error_rolling by exact Hi.
  split; reflexivity.
Qed.

Lemma defined_Some (x : Q) : defined (Some x).
Proof. discriminate. Qed.

Lemma not_defined_NaN : ~ defined NaN.
Proof. intros H. now apply H. Qed.

(** C3, as the code has it.  On a close series without NaN and for a window
    of two rows or more (every slider starts at 2 or above): the moving
    average, the rolling standard deviation and the two Bollinger bands are
    NaN at the first [n - 1] rows and defined at every later row; the RSI is
    NaN at the first [n] rows, and at a later row it is defined exactly when
    the close fell at one of the last [n] rows. *)
Theorem derived_columns_leading_nan :
  forall (np_sqrt : Q -> Q) (qs : list Q) (n i : nat),
    (2 <= n)%nat -> (i < length qs)%nat ->
    let close := map Some qs in
    (defined (nth i (MA n close) NaN) <-> (n <= i + 1)%nat)
    /\ (defined (nth i (Std np_sqrt n close) NaN) <-> (n <= i + 1)%nat)
    /\ (defined (nth i (Upper_Band np_sqrt n close) NaN) <-> (n <= i + 1)%nat)
    /\ (defined (nth i (Lower_Band np_sqrt n close) NaN) <-> (n <= i + 1)%nat)
    /\ ((i < n)%nat -> nth i (RSI n close) NaN = NaN)
    /\ ((n <= i)%nat ->
        (defined (nth i (RSI n close) NaN)
         <-> exists j, (i + 1 - n <= j <= i)%nat /\ nth j qs 0 < nth (j - 1) qs 0)).
Proof.
  intros np_sqrt qs n i Hn Hi close.
  assert (Hi' : (i < length close)%nat) by (unfold close; now rewrite length_map).
  assert (Em : nth i (MA n close) NaN = rolling_at mean n close i).
  { apply nth_error_nth. now apply nth_error_rolling. }
  assert (Es : nth i (Std np_sqrt n close) NaN = rolling_at (std np_sqrt) n close i).
  { apply nth_error_nth. now apply nth_error_rolling. }
  destruct (nth_error_bands np_sqrt n i close Hi') as [Eu El].
  apply (nth_error_nth _ _ NaN) in Eu, El.
  rewrite Em, Es, Eu, El.
  split; [|split; [|split; [|split; [|split]]]].
  5: { intros Hlt. apply nth_error_nth. now apply RSI_early. }
  5: { intros Hle. apply RSI_late; [lia|assumption|assumption]. }
  all: destruct (Nat.lt_ge_cases (i + 1) n) as [Hearly|Hfull].
  all: try (rewrite !rolling_at_early by exact Hearly; simpl;
            split; [intros H; now apply not_defined_NaN in H|lia]).
  all: unfold close;
    destruct (rolling_at_full mean n i qs Hfull Hi) as [Hm Hlen];
    destruct (rolling_at_full (std np_sqrt) n i qs Hfull Hi) as [Hs _];
    rewrite ?Hm, ?Hs;
    destruct (mean_defined (Qwindow n i qs)) as [mid Emid]; [lia|];
    destruct (std_defined np_sqrt (Qwindow n i qs)) as [sd Esd]; [lia|];
    rewrite ?Emid, ?Esd; simpl; split; [intros _; exact Hfull|intros _; apply defined_Some].
Qed.

Section Constant_series.

(** What the properties need of the square root. *)
Variable np_sqrt : Q -> Q.
Hypothesis np_sqrt_zero : forall x : Q, x == 0 -> np_sqrt x == 0.

Lemma std_all (c : Q) (obs : list Q) (x : Q) :
  Forall (fun y => y == c) obs -> std np_sqrt obs = Some x -> x == 0.
Proof.
  intros Hall Hs. unfold std in Hs.
  destruct (Nat.leb_spec (length obs) 1) as [|Hlen]; [discriminate|].
  injection Hs as <-. apply np_sqrt_zero.
  remember (Qsum obs / Qlen obs) as m eqn:Em.
  assert (Hm : m == c).
  { subst m. destruct obs as [|y obs]; [simpl in Hlen; lia|].
    rewrite (Qsum_all c (y :: obs) Hall). field.
    assert (H := Qlen_pos y obs). lra. }
  assert (Hz : Forall (fun z => z == 0) (map (fun y => (y - m) * (y - m)) obs)).
  { apply Forall_forall. intros z Hin. apply in_map_iff in Hin.
    destruct Hin as [y [<- Hy]].
    rewrite Forall_forall in Hall. rewrite (Hall y Hy), Hm. ring. }
  rewrite (Qsum_all 0 _ Hz). unfold Qdiv. ring.
Qed.

(** C5.  On a constant close series of value [v], at every row and for
    every window: when the rolling standard deviation is defined it is 0,
    and when the moving average, the upper band or the lower band is defined
    it is [v]; all four are defined at every row [i >= w - 1] once the
    window has two rows or more. *)
Theorem bollinger_constant_collapse :
  forall (v : Q) (n w i : nat),
    let close := repeat (Some v) n in
    (forall x, nth_error (Std np_sqrt w close) i = Some (Some x) -> x == 0)
    /\ (forall x, nth_error (MA w close) i = Some (Some x) -> x == v)
    /\ (forall x, nth_error (Upper_Band np_sqrt w close) i = Some (Some x) -> x == v)
    /\ (forall x, nth_error (Lower_Band np_sqrt w close) i = Some (Some x) -> x == v)
    /\ ((2 <= w)%nat -> (w <= i + 1)%nat -> (i < n)%nat ->
        exists sd mid hi lo,
          nth_error (Std np_sqrt w close) i = Some (Some sd)
          /\ nth_error (MA w close) i = Some (Some mid)
          /\ nth_error (Upper_Band np_sqrt w close) i = Some (Some hi)
          /\ nth_error (Lower_Band np_sqrt w close) i = Some (Some lo)).
Proof.
  intros v n w i close.
  assert (Hobs := obs_constant v n w i). fold close in Hobs.
  assert (Hstd : forall x, rolling_at (std np_sqrt) w close i = Some x -> x == 0).
  { intros x. unfold rolling_at. destruct (_ <? _)%nat; [discriminate|].
    now apply std_all with (c := v). }
  assert (Hma : forall x, rolling_at mean w close i = Some x -> x == v).
  { intros x. unfold rolling_at. destruct (_ <? _)%nat; [discriminate|].
    now apply mean_all. }
  destruct (Nat.lt_ge_cases i (length close)) as [Hi|Hi].
  - assert (Es : nth_error (Std np_sqrt w close) i = Some (rolling_at (std np_sqrt) w close i)).
    { now apply nth_error_rolling. }
    assert (Em : nth_error (MA w close) i = Some (rolling_at mean w close i)).
    { now apply nth_error_rolling. }
    assert (Eu : nth_error (Upper_Band np_sqrt w close) i
                 = Some (cadd (rolling_at mean w close i)
                              (cmul (rolling_at (std np_sqrt) w close i) (Some 2)))).
    { unfold Upper_Band. now rewrite nth_error_series_op, nth_error_map, Em, Es. }
    assert (El : nth_error (Lower_Band np_sqrt w close) i
                 = Some (csub (rolling_at mean w close i)
                              (cmul (rolling_at (std np_sqrt) w close i) (Some 2)))).
    { unfold Lower_Band. now rewrite nth_error_series_op, nth_error_map, Em, Es. }
    rewrite Es, Em, Eu, El. split; [|split; [|split; [|split]]].
    + intros x [= E]. now apply Hstd.
    + intros x [= E]. now apply Hma.
    + intros x [= E].
      destruct (rolling_at mean w close i) as [mid|]; [|discriminate].
      destruct (rolling_at (std np_sqrt) w close i) as [sd|]; [|discriminate].
      injection E as <-. rewrite (Hstd sd eq_refl), (Hma mid eq_refl). ring.
    + intros x [= E].
      destruct (rolling_at mean w close i) as [mid|]; [|discriminate].
      destruct (rolling_at (std np_sqrt) w close i) as [sd|]; [|discriminate].
      injection E as <-. rewrite (Hstd sd eq_refl), (Hma mid eq_refl). ring.
    + intros H2 Hw Hn. unfold close in *. rewrite <- map_repeat in *.
      rewrite length_map in Hi.
      destruct (rolling_at_full (std np_sqrt) w i (repeat v n) Hw Hi) as [-> Hlen].
      destruct (rolling_at_full mean w i (repeat v n) Hw Hi) as [-> _].
      destruct (std_defined np_sqrt (Qwindow w i (repeat v n))) as [sd ->]; [lia|].
      destruct (mean_defined (Qwindow w i (repeat v n))) as [mid ->]; [lia|].
      exists sd, mid, (mid + sd * 2), (mid - sd * 2). auto.
  - assert (Es : nth_error (Std np_sqrt w close) i = None).
    { now apply nth_error_rolling_ge. }
    assert (Em : nth_error (MA w close) i = None).
    { now apply nth_error_rolling_ge. }
    unfold Upper_Band, Lower_Band. rewrite !nth_error_series_op, Es, Em.
    unfold close in Hi. rewrite repeat_length in Hi.
    repeat split; try discriminate. intros. lia.
Qed.

End Constant_series.

(** * Further properties of the credential store *)

Lemma authenticate_user_existsb (u p : string) (t : table) :
  authenticate_user u p t
  = existsb (fun r => String.eqb (username r) u && String.eqb (password r) p)
            (rows t).
Proof.
  unfold authenticate_user, select_user.
  induction (rows t) as [|r l IH]; simpl; [reflexivity|].
  destruct (String.eqb (username r) u && String.eqb (password r) p);
    [reflexivity|exact IH].
Qed.

(** X1.  A registration changes the answer of [authenticate_user] for one
    pair only: after [register_user u p] a pair is accepted when it was
    accepted before, or when the username was free and the pair is [(u, p)]
    itself. *)
Theorem register_adds_one_credential :
  forall (u p u' p' : string) (t : table),
    authenticate_user u' p' (fst (register_user u p t))
    = authenticate_user u' p' t
      || (negb (username_taken u t) && String.eqb u u' && String.eqb p p').
Proof.
  intros u p u' p' t. unfold register_user.
  destruct (username_taken u t); simpl; [now rewrite orb_false_r|].
  rewrite !authenticate_user_existsb. simpl. rewrite existsb_app. simpl.
  now rewrite orb_false_r.
Qed.

Lemma authenticate_user_kept (u p u' p' : string) (t : table) :
  authenticate_user u p t = true ->
  authenticate_user u p (fst (register_user u' p' t)) = true.
Proof.
  intros H. unfold register_user. destruct (username_taken u' t); simpl;
    [exact H|].
  rewrite authenticate_user_existsb in *. simpl. rewrite existsb_app, H.
  reflexivity.
Qed.

Lemma StronglySorted_snoc (l : list Z) (x : Z) :
  StronglySorted Z.lt l -> Forall (fun y => (y < x)%Z) l ->
  StronglySorted Z.lt (l ++ [x]).
Proof.
  induction 1 as [|y l Hl IH Hy]; intros Hx; simpl.
  - constructor; constructor.
  - inversion Hx as [|y' l' Hyx Hlx]; subst. constructor; [now apply IH|].
    apply Forall_app. split; [exact Hy|]. constructor; [exact Hyx|constructor].
Qed.

Lemma StronglySorted_NoDup (l : list Z) : StronglySorted Z.lt l -> NoDup l.
Proof.
  induction 1 as [|y l Hl IH Hy]; constructor; [|exact IH].
  intros Hin. rewrite Forall_forall in Hy. specialize (Hy y Hin). lia.
Qed.

Lemma register_user_ids (u p : string) (t : table) :
  ids_ordered t -> ids_ordered (fst (register_user u p t)).
Proof.
  unfold ids_ordered, register_user. intros [Hs Hb].
  destruct (username_taken u t); simpl; [now split|]. split.
  - rewrite map_app. simpl. apply StronglySorted_snoc; [exact Hs|].
    apply Forall_map. revert Hb. apply Forall_impl. intros r Hr. lia.
  - apply Forall_app. split.
    + revert Hb. apply Forall_impl. intros r Hr. lia.
    + constructor; [simpl; lia|constructor].
Qed.

(** X2.  Registrations keep the ids in order: on a table whose ids grow in
    insertion order below the counter, any list of registrations gives a
    table with the same property, so no two rows share an id. *)
Theorem registrations_keep_ids_ordered :
  forall (calls : list (string * string)) (t : table),
    ids_ordered t ->
    ids_ordered (register_all calls t)
    /\ NoDup (map id (rows (register_all calls t))).
Proof.
  intros calls t Ht.
  assert (H : ids_ordered (register_all calls t)).
  { revert t Ht. induction calls as [|[u p] calls IH]; intros t Ht; simpl;
      [exact Ht|].
    apply IH. now apply register_user_ids. }
  split; [exact H|]. apply StronglySorted_NoDup. now destruct H.
Qed.

Lemma find_app_some {A} (f : A -> bool) (l1 l2 : list A) (a : A) :
  find f l1 = Some a -> find f (l1 ++ l2) = Some a.
Proof.
  induction l1 as [|b l1 IH]; simpl; [discriminate|].
  destruct (f b); [trivial|exact IH].
Qed.

Lemma stored_password_taken (u : string) (t : table) :
  stored_password u t = None <-> username_taken u t = false.
Proof.
  unfold stored_password, username_taken.
  induction (rows t) as [|r l IH]; simpl; [tauto|].
  destruct (String.eqb (username r) u); simpl; [|exact IH].
  split; discriminate.
Qed.

Lemma stored_password_register (u u' p' : string) (t : table) :
  stored_password u (fst (register_user u' p' t))
  = match stored_password u t with
    | Some p => Some p
    | None => if String.eqb u' u then Some p' else None
    end.
Proof.
  unfold register_user. destruct (username_taken u' t) eqn:E; simpl.
  - destruct (stored_password u t) eqn:Es; [reflexivity|].
    apply stored_password_taken in Es.
    destruct (String.eqb_spec u' u) as [->|]; [congruence|reflexivity].
  - unfold stored_password at 1. simpl.
    destruct (stored_password u t) eqn:Es; unfold stored_password in Es.
    + destruct (find _ (rows t)) as [r|] eqn:Ef; [|discriminate].
      now rewrite (find_app_some _ _ _ r Ef).
    + destruct (find _ (rows t)) as [r|] eqn:Ef; [discriminate|].
      rewrite (find_app_none _ _ _ Ef). simpl.
      now destruct (String.eqb u' u).
Qed.

Lemma stored_password_register_all (u : string) (calls : list (string * string)) :
  forall t,
    stored_password u (register_all calls t)
    = match stored_password u t with
      | Some p => Some p
      | None => option_map snd (find (fun c => String.eqb (fst c) u) calls)
      end.
Proof.
  induction calls as [|[u' p'] calls IH]; intros t; simpl.
  - now destruct (stored_password u t).
  - rewrite IH, stored_password_register.
    destruct (stored_password u t); [reflexivity|].
    now destruct (String.eqb u' u).
Qed.

Lemma authenticate_iff_stored (u p : string) (t : table) :
  unique_usernames t ->
  (authenticate_user u p t = true <-> stored_password u t = Some p).
Proof.
  intros Hu. rewrite authenticate_user_spec. split.
  - intros [r [Hin [Hr Hp]]].
    destruct (stored_password u t) as [q|] eqn:Es.
    + f_equal. rewrite <- Hp. symmetry.
      now apply (stored_password_In u q t Hu Es).
    + apply stored_password_taken in Es.
      assert (Ht : username_taken u t = true).
      { apply username_taken_In. rewrite <- Hr. now apply in_map. }
      congruence.
  - unfold stored_password. intros Hs.
    destruct (find _ (rows t)) as [r|] eqn:Ef; [|discriminate].
    injection Hs as Hp. apply find_some in Ef. destruct Ef as [Hin Hr].
    apply String.eqb_eq in Hr. now exists r.
Qed.

(** X3.  The first registration of a username wins: after any list of
    registrations on the empty table, a pair is accepted exactly when its
    password is the one of the first call of the list that names the
    username. *)
Theorem first_registration_wins :
  forall (calls : list (string * string)) (u p : string),
    authenticate_user u p (register_all calls empty_table) = true
    <-> option_map snd (find (fun c => String.eqb (fst c) u) calls) = Some p.
Proof.
  intros calls u p.
  rewrite (authenticate_iff_stored u p _
             (register_all_unique calls empty_table empty_table_unique)).
  now rewrite stored_password_register_all.
Qed.

(** * Further properties of the session gate and the charting view *)

Lemma main_app_fetch_iff (np_sqrt : Q -> Q)
      (yf_download : string -> date -> date -> fetch_result)
      (w : widgets) (ticker : string) (start stop : date) :
  In (yf_download_call ticker start stop) (main_app np_sqrt yf_download w)
  <-> date_gt (start_date w) (end_date w) = false
      /\ ticker = upper (ticker_input w)
      /\ start = start_date w /\ stop = end_date w.
Proof.
  unfold main_app. destruct (date_gt (start_date w) (end_date w)).
  - split; [|intros [H _]; discriminate].
    intros [H|[H|[H|[]]]]; discriminate.
  - split.
    + intros [H|[H|H]]; [discriminate|now injection H as <- <- <-|].
      exfalso. destruct (yf_download _ _ _) as [[|r data]|e].
      * destruct H as [H|[]]. discriminate.
      * destruct H as [H|[H|[H|[H|H]]]]; try discriminate.
        now apply tab4_no_fetch in H.
      * destruct H as [H|[]]. discriminate.
    + intros [_ [-> [-> ->]]]. right. now left.
Qed.

Lemma anonymous_calls (np_sqrt : Q -> Q)
      (yf_download : string -> date -> date -> fetch_result)
      (w : widgets) (st : world) :
  authenticated st = false ->
  Forall (fun c => charting_call c = false) (snd (script np_sqrt yf_download w st)).
Proof.
  intros Ha. unfold script.
  destruct st as [[[|]|] t]; simpl in *; try discriminate;
    (destruct (menu w);
     [unfold login; destruct (login_button w); simpl;
      [destruct (authenticate_user _ _ _)|]
     |unfold register; destruct (register_button w); simpl;
      [destruct (register_user _ _ _) as [t' [|]]|]]);
    simpl; repeat constructor.
Qed.

(** X4.  The auth gate guards the fetch: a run of the script calls
    [yf.download] exactly when the session is authenticated, Logout is not
    pressed and the start date is not after the end date, and the call then
    carries the uppercased ticker and the dates entered; a run of an
    anonymous session makes no fetch, tabs, chart or table call at all. *)
Theorem fetch_only_when_authenticated :
  forall (np_sqrt : Q -> Q) (yf_download : string -> date -> date -> fetch_result)
         (w : widgets) (st : world),
    (forall ticker start stop,
        In (yf_download_call ticker start stop) (snd (script np_sqrt yf_download w st))
        <-> authenticated st = true /\ logout_button w = false
            /\ date_gt (start_date w) (end_date w) = false
            /\ ticker = upper (ticker_input w)
            /\ start = start_date w /\ stop = end_date w)
    /\ (authenticated st = false ->
        Forall (fun c => charting_call c = false)
               (snd (script np_sqrt yf_download w st))).
Proof.
  intros np_sqrt yf_download w st. split; [|apply anonymous_calls].
  intros ticker start stop.
  destruct (authenticated st) eqn:Ha.
  - assert (E : snd (script np_sqrt yf_download w st)
                = if logout_button w then [st_info "You have logged out."]
                  else main_app np_sqrt yf_download w).
    { unfold script. destruct st as [[[|]|] t]; simpl in *; try discriminate.
      now destruct (logout_button w). }
    rewrite E. destruct (logout_button w).
    + split; [intros [H|[]]; discriminate|intros [_ [H _]]; discriminate].
    + rewrite main_app_fetch_iff. tauto.
  - split; [|intros [H _]; discriminate].
    intros Hin. assert (Hf := anonymous_calls np_sqrt yf_download w st Ha).
    rewrite Forall_forall in Hf. specialize (Hf _ Hin). discriminate.
Qed.

Lemma script_db (np_sqrt : Q -> Q)
      (yf_download : string -> date -> date -> fetch_result)
      (w : widgets) (st : world) :
  db (fst (script np_sqrt yf_download w st))
  = if negb (authenticated st)
       && match menu w with Register => register_button w | Login => false end
    then fst (register_user (register_username w) (register_password w) (db st))
    else db st.
Proof.
  unfold script.
  destruct st as [[[|]|] t]; simpl;
    try (destruct (logout_button w); reflexivity);
    (destruct (menu w);
     [unfold login; destruct (login_button w); simpl;
      [destruct (authenticate_user _ _ _)|]; reflexivity
     |unfold register; destruct (register_button w); simpl; [|reflexivity];
      destruct (register_user _ _ _) as [t' [|]]; reflexivity]).
Qed.

(** X5.  Only a registration changes the table: a run of the script either
    leaves the table as it was, or the session is anonymous, the Register
    page is shown with its button pressed and a free username, and the
    table gains exactly one row, at the end, with the username and the
    password typed there and the next id. *)
Theorem only_registration_changes_table :
  forall (np_sqrt : Q -> Q) (yf_download : string -> date -> date -> fetch_result)
         (w : widgets) (st : world),
    db (fst (script np_sqrt yf_download w st)) = db st
    \/ (authenticated st = false /\ menu w = Register /\ register_button w = true
        /\ username_taken (register_username w) (db st) = false
        /\ rows (db (fst (script np_sqrt yf_download w st)))
           = rows (db st)
               ++ [mkUser (last_id (db st) + 1) (register_username w)
                          (register_password w)]).
Proof.
  intros np_sqrt yf_download w st. rewrite script_db.
  destruct (authenticated st); simpl; [now left|].
  destruct (menu w); [now left|].
  destruct (register_button w); [|now left].
  unfold register_user.
  destruct (username_taken (register_username w) (db st)); [now left|].
  right. repeat split.
Qed.

Lemma script_keeps_credentials (np_sqrt : Q -> Q)
      (yf_download : string -> date -> date -> fetch_result)
      (w : widgets) (st : world) (u p : string) :
  authenticate_user u p (db st) = true ->
  authenticate_user u p (db (fst (script np_sqrt yf_download w st))) = true.
Proof.
  intros H. rewrite script_db.
  destruct (_ && _); [now apply authenticate_user_kept|exact H].
Qed.

Lemma session_keeps_credentials (np_sqrt : Q -> Q)
      (yf_download : string -> date -> date -> fetch_result)
      (ws : list widgets) (u p : string) :
  forall st, authenticate_user u p (db st) = true ->
             authenticate_user u p (db (session np_sqrt yf_download ws st)) = true.
Proof.
  induction ws as [|w ws IH]; intros st H; simpl; [exact H|].
  apply IH. now apply script_keeps_credentials.
Qed.

(** X6.  Credentials outlive runs and sessions: a pair that the table of a
    session accepts is accepted after any further runs, and after any runs
    of a later session that [initialize_database] opens over the table the
    first one left. *)
Theorem credentials_survive_sessions :
  forall (np_sqrt : Q -> Q) (yf_download : string -> date -> date -> fetch_result)
         (ws1 ws2 : list widgets) (st : world) (u p : string),
    authenticate_user u p (db st) = true ->
    let st1 := session np_sqrt yf_download ws1 st in
    authenticate_user u p (db st1) = true
    /\ authenticate_user u p
         (db (session np_sqrt yf_download ws2 (new_session (Some (db st1))))) = true.
Proof.
  intros np_sqrt yf_download ws1 ws2 st u p H st1.
  assert (H1 : authenticate_user u p (db st1) = true)
    by now apply session_keeps_credentials.
  split; [exact H1|]. now apply session_keeps_credentials.
Qed.

Lemma script_register_fresh (np_sqrt : Q -> Q)
      (yf_download : string -> date -> date -> fetch_result)
      (w : widgets) (st : world) :
  authenticated st = false -> menu w = Register -> register_button w = true ->
  username_taken (register_username w) (db st) = false ->
  fst (script np_sqrt yf_download w st)
  = mkWorld (Some false)
            (fst (register_user (register_username w) (register_password w) (db st))).
Proof.
  intros Ha M B Hfree. unfold script. rewrite M.
  destruct st as [[[|]|] t]; simpl in *; try discriminate;
    unfold register; rewrite B; simpl;
    now rewrite (register_user_fresh _ _ _ Hfree).
Qed.

Lemma script_login_accepted (np_sqrt : Q -> Q)
      (yf_download : string -> date -> date -> fetch_result)
      (w : widgets) (st : world) :
  authenticated st = false -> menu w = Login -> login_button w = true ->
  authenticate_user (login_username w) (login_password w) (db st) = true ->
  fst (script np_sqrt yf_download w st) = mkWorld (Some true) (db st).
Proof.
  intros Ha M B Hok. unfold script. rewrite M.
  destruct st as [[[|]|] t]; simpl in *; try discriminate;
    unfold login; rewrite B; simpl; now rewrite Hok.
Qed.

(** X7.  Register, then log in: from an anonymous session and a free
    username, a run that presses Register and a run that presses Login with
    the same username and password leave the session authenticated, and the
    next run without Logout shows the charting view. *)
Theorem register_then_login_authenticates :
  forall (np_sqrt : Q -> Q) (yf_download : string -> date -> date -> fetch_result)
         (w1 w2 w3 : widgets) (st : world),
    authenticated st = false ->
    menu w1 = Register -> register_button w1 = true ->
    username_taken (register_username w1) (db st) = false ->
    menu w2 = Login -> login_button w2 = true ->
    login_username w2 = register_username w1 ->
    login_password w2 = register_password w1 ->
    logout_button w3 = false ->
    let st2 := session np_sqrt yf_download [w1; w2] st in
    authenticated st2 = true
    /\ snd (script np_sqrt yf_download w3 st2) = main_app np_sqrt yf_download w3.
Proof.
  intros np_sqrt yf_download w1 w2 w3 st Ha M1 B1 Hfree M2 B2 Eu Ep L3 st2.
  assert (E2 : st2 = mkWorld (Some true)
                       (fst (register_user (register_username w1)
                                           (register_password w1) (db st)))).
  { unfold st2. simpl.
    rewrite (script_register_fresh np_sqrt yf_download w1 st Ha M1 B1 Hfree).
    rewrite script_login_accepted; [reflexivity|reflexivity|exact M2|exact B2|].
    simpl. rewrite Eu, Ep, authenticate_user_existsb.
    rewrite (register_user_fresh _ _ _ Hfree). simpl.
    rewrite existsb_app. simpl. rewrite !String.eqb_refl. apply orb_true_r. }
  rewrite E2. split; [reflexivity|].
  unfold script. simpl. now rewrite L3.
Qed.

Lemma tab4_counts (np_sqrt : Q -> Q) (w : widgets) (data : list PriceRow) :
  filter is_chart (tab4 np_sqrt w data) = []
  /\ filter is_fetch (tab4 np_sqrt w data) = []
  /\ filter is_message (tab4 np_sqrt w data) = []
  /\ ~ In st_stop (tab4 np_sqrt w data).
Proof.
  unfold tab4. destruct (show_data_table w); simpl; repeat split; try tauto.
  intros [H|[]]. discriminate.
Qed.

(** X8.  Every run of [main_app] has one outcome: it makes no fetch when
    the dates are reversed and exactly one otherwise; it draws the three
    charts when the fetch returns rows and no chart otherwise; whenever it
    draws no chart it emits exactly one error or warning; and it stops the
    script exactly when the dates are reversed. *)
Theorem main_app_one_outcome :
  forall (np_sqrt : Q -> Q) (yf_download : string -> date -> date -> fetch_result)
         (w : widgets),
    let calls := main_app np_sqrt yf_download w in
    let reversed := date_gt (start_date w) (end_date w) in
    let has_rows :=
      negb reversed
      && match yf_download (upper (ticker_input w)) (start_date w) (end_date w) with
         | Fetched (_ :: _) => true
         | _ => false
         end in
    length (filter is_fetch calls) = (if reversed then 0 else 1)%nat
    /\ length (filter is_chart calls) = (if has_rows then 3 else 0)%nat
    /\ length (filter is_message calls) = (if has_rows then 0 else 1)%nat
    /\ (In st_stop calls <-> reversed = true).
Proof.
  intros np_sqrt yf_download w. unfold main_app. simpl.
  destruct (date_gt (start_date w) (end_date w)); simpl.
  - repeat split; auto.
  - destruct (yf_download _ _ _) as [[|r data]|e]; simpl.
    + repeat split; try discriminate. intros [H|[H|[H|[]]]]; discriminate.
    + destruct (tab4_counts np_sqrt w (r :: data)) as [-> [-> [-> Hs]]].
      repeat split; try discriminate.
      intros [H|[H|[H|[H|[H|[H|H]]]]]]; try discriminate. contradiction.
    + repeat split; try discriminate. intros [H|[H|[H|[]]]]; discriminate.
Qed.

Lemma length_RSI (p : nat) (close : Series) : length (RSI p close) = length close.
Proof.
  unfold RSI, rsi_divisor, rs, rs_divisor, replace, avg_up, avg_down, rolling_mean.
  rewrite !length_map, length_series_op; rewrite ?length_map, !length_rolling.
  - apply length_up.
  - now rewrite length_up, length_down.
Qed.

Lemma length_bands (np_sqrt : Q -> Q) (w : nat) (close : Series) :
  length (Upper_Band np_sqrt w close) = length close
  /\ length (Lower_Band np_sqrt w close) = length close.
Proof.
  unfold Upper_Band, Lower_Band, MA, Std, rolling_mean, rolling_std.
  rewrite !length_series_op; rewrite ?length_map, !length_rolling; auto.
Qed.

Lemma length_MACD (close : Series) :
  length (MACD close) = length close
  /\ length (Signal_Line close) = length close.
Proof.
  assert (H : length (MACD close) = length close).
  { unfold MACD, exp1, exp2, ewm_mean.
    rewrite length_series_op; now rewrite !length_ewm_from. }
  split; [exact H|]. unfold Signal_Line, ewm_mean.
  now rewrite length_ewm_from.
Qed.

(** X9.  One cell per fetched row: every column that the script adds to
    [data] and every trace of the three charts has as many cells as the
    fetch returned rows, whatever the windows and the closes (NaN closes
    too). *)
Theorem derived_columns_one_cell_per_row :
  forall (np_sqrt : Q -> Q) (w : widgets) (data : list PriceRow),
    Forall (fun cs => length (snd cs) = length data)
           (derived (final_frame np_sqrt w data))
    /\ (forall ticker title fig,
           In (st_plotly_chart title fig)
              [tab1 np_sqrt ticker w data; tab2 ticker w data; tab3 ticker data] ->
           Forall (fun tr => trace_points tr = length data) fig).
Proof.
  intros np_sqrt w data.
  assert (Hc : length (Close data) = length data)
    by (unfold Close; apply length_map).
  assert (Hma : forall n, length (MA n (Close data)) = length data).
  { intros n. unfold MA, rolling_mean. now rewrite length_rolling. }
  assert (Hstd : length (Std np_sqrt (bb_window w) (Close data)) = length data).
  { unfold Std, rolling_std. now rewrite length_rolling. }
  destruct (length_bands np_sqrt (bb_window w) (Close data)) as [Hu Hl].
  destruct (length_MACD (Close data)) as [Hm Hs].
  assert (Hr := length_RSI (rsi_period w) (Close data)).
  rewrite Hc in Hu, Hl, Hm, Hs, Hr.
  split.
  - unfold final_frame. simpl. repeat constructor; simpl; auto.
  - intros ticker title fig [H|[H|[H|[]]]];
      injection H as _ <-; repeat constructor; simpl; auto; apply length_map.
Qed.

(** * Further properties of dates and tickers *)

Lemma date_gt_iff (a b : date) :
  date_gt a b = true
  <-> (year b < year a
       \/ (year a = year b
           /\ (month b < month a \/ (month a = month b /\ day b < day a))))%Z.
Proof.
  unfold date_gt.
  destruct (Z.compare_spec (year a) (year b));
    [destruct (Z.compare_spec (month a) (month b)); [rewrite Z.ltb_lt| |]| |];
    split; intros; try discriminate; try reflexivity; lia.
Qed.

(** X10.  [start_date > end_date] is a strict total order on dates: no
    date is after itself, of two dates at most one is after the other, the
    order is transitive, and two dates neither of which is after the other
    are equal.  So a request with equal start and end dates is not
    rejected: [main_app] makes the fetch. *)
Theorem date_gt_strict_total_order :
  forall a b c : date,
    date_gt a a = false
    /\ (date_gt a b = true -> date_gt b a = false)
    /\ (date_gt a b = true -> date_gt b c = true -> date_gt a c = true)
    /\ (date_gt a b = false -> date_gt b a = false -> a = b)
    /\ (forall np_sqrt yf_download w,
           start_date w = end_date w ->
           In (yf_download_call (upper (ticker_input w)) (start_date w) (end_date w))
              (main_app np_sqrt yf_download w)).
Proof.
  intros a b c.
  assert (N : forall x y, date_gt x y = false <-> ~ date_gt x y = true).
  { intros x y. destruct (date_gt x y); split; intros; congruence. }
  assert (R : forall x, date_gt x x = false).
  { intros x. apply N. rewrite date_gt_iff. lia. }
  split; [apply R|]. split; [|split; [|split]].
  - rewrite N, !date_gt_iff. lia.
  - rewrite !date_gt_iff. lia.
  - rewrite !N, !date_gt_iff. intros H1 H2. destruct a, b; simpl in *. f_equal; lia.
  - intros np_sqrt yf_download w E. apply main_app_fetch_iff.
    rewrite E. auto.
Qed.

Lemma upper_ascii_idempotent (c : ascii) : upper_ascii (upper_ascii c) = upper_ascii c.
Proof.
  unfold upper_ascii. cbv zeta.
  destruct ((97 <=? nat_of_ascii c) && (nat_of_ascii c <=? 122))%nat eqn:E;
    [|now rewrite E].
  apply andb_true_iff in E. destruct E as [E1 E2]. apply Nat.leb_le in E1, E2.
  rewrite nat_ascii_embedding by lia.
  replace (97 <=? nat_of_ascii c - 32)%nat with false; [reflexivity|].
  symmetry. apply Nat.leb_gt. lia.
Qed.

Lemma ascii_upper_facts (s : string) :
  is_ascii s = true ->
  String.length (ascii_upper s) = String.length s
  /\ is_ascii (ascii_upper s) = true
  /\ all_case_variants (utf8_decode s) (utf8_decode (ascii_upper s)) = true
  /\ ascii_upper (ascii_upper s) = ascii_upper s.
Proof.
  induction s as [|c s IH]; intros H; [repeat split|].
  simpl in H. apply andb_true_iff in H. destruct H as [Hc Hs].
  destruct (IH Hs) as [IH1 [IH2 [IH3 IH4]]].
  destruct (upper_code_ascii c Hc) as [Eu Hu].
  cbn [ascii_upper String.length is_ascii].
  rewrite IH1, IH2, IH4, Hu, upper_ascii_idempotent.
  repeat split.
  rewrite (utf8_decode_head c s Hc), (utf8_decode_head _ _ Hu).
  cbn [all_case_variants]. rewrite IH3, andb_true_r.
  unfold case_variant. rewrite Eu. cbn [codes_eqb].
  rewrite N.eqb_refl. cbn [andb]. now rewrite orb_true_r.
Qed.

(** X11.  On ASCII ticker text [str.upper()] changes letter case only,
    once: the uppercased ticker is ASCII, has the length of the text
    entered, differs from it only in letter case, and uppercasing it again
    changes nothing.  On other text the length can change: "strasse"
    written with U+00DF has 6 characters and its uppercase has 7. *)
Theorem upper_changes_case_only :
  (forall s : string,
      is_ascii s = true ->
      String.length (upper s) = String.length s
      /\ is_ascii (upper s) = true
      /\ differ_in_letter_case_only s (upper s) = true
      /\ upper (upper s) = upper s)
  /\ length (utf8_decode strasse) = 6%nat
  /\ length (utf8_decode (upper strasse)) = 7%nat.
Proof.
  split; [|split; vm_compute; reflexivity].
  intros s H. destruct (ascii_upper_facts s H) as [H1 [H2 [H3 H4]]].
  rewrite (upper_ascii_text s H).
  split; [exact H1|]. split; [exact H2|]. split; [exact H3|].
  now rewrite (upper_ascii_text _ H2).
Qed.

(** * Further properties of the indicator engine *)

Lemma length_window (w i : nat) (s : Series) :
  (i < length s)%nat -> length (window w i s) = Nat.min w (i + 1).
Proof.
  intros Hi. unfold window. rewrite length_skipn, length_firstn. lia.
Qed.

Lemma observations_all (win : Series) :
  length (observations win) = length win <-> Forall defined win.
Proof.
  induction win as [|[x|] win IH]; simpl.
  - split; [constructor|reflexivity].
  - split.
    + intros H. constructor; [discriminate|]. apply IH. lia.
    + intros H. inversion H; subst. f_equal. now apply IH.
  - assert (H := length_observations win). split; [lia|].
    intros H'. inversion H' as [|c l Hc Hl]; subst. now elim Hc.
Qed.

Lemma rolling_at_defined (agg : list Q -> cell) (w i : nat) (s : Series) :
  (i < length s)%nat ->
  (forall obs, length obs = w -> defined (agg obs)) ->
  (defined (rolling_at agg w s i)
   <-> (w <= i + 1)%nat /\ Forall defined (window w i s)).
Proof.
  intros Hi Hagg. unfold rolling_at.
  assert (Hl := length_window w i s Hi).
  assert (Ho := length_observations (window w i s)).
  destruct (Nat.ltb_spec (length (observations (window w i s))) w) as [Hlt|Hge].
  - split; [intros H; now elim H|].
    intros [Hw Hall]. apply observations_all in Hall. lia.
  - split.
    + intros _. split; [lia|]. apply observations_all. lia.
    + intros _. apply Hagg. lia.
Qed.

(** X12.  A NaN close blanks the rows whose window holds it: on any close
    series, the moving average of window [w >= 1] and the rolling standard
    deviation of window [w >= 2] are defined at a row exactly when the
    window is full and none of its closes is NaN. *)
Theorem rolling_defined_iff_window_clean :
  forall (np_sqrt : Q -> Q) (close : Series) (w i : nat),
    (i < length close)%nat ->
    ((1 <= w)%nat ->
     (defined (nth i (MA w close) NaN)
      <-> (w <= i + 1)%nat /\ Forall defined (window w i close)))
    /\ ((2 <= w)%nat ->
        (defined (nth i (Std np_sqrt w close) NaN)
         <-> (w <= i + 1)%nat /\ Forall defined (window w i close))).
Proof.
  intros np_sqrt close w i Hi. split; intros Hw.
  - unfold MA, rolling_mean.
    rewrite (nth_error_nth _ _ NaN (nth_error_rolling mean w i close Hi)).
    apply rolling_at_defined; [exact Hi|].
    intros obs Hlen. destruct obs as [|x obs]; [simpl in Hlen; lia|].
    apply defined_Some.
  - unfold Std, rolling_std.
    rewrite (nth_error_nth _ _ NaN (nth_error_rolling (std np_sqrt) w i close Hi)).
    apply rolling_at_defined; [exact Hi|].
    intros obs Hlen. destruct (std_defined np_sqrt obs) as [sd ->]; [lia|].
    apply defined_Some.
Qed.

Lemma Qsum_bounds (lo hi : Q) (l : list Q) :
  Forall (fun x => lo <= x <= hi) l ->
  Qlen l * lo <= Qsum l <= Qlen l * hi.
Proof.
  induction 1 as [|x l Hx Hl IH].
  - change (Qlen []) with 0. simpl. lra.
  - rewrite Qlen_cons. simpl. destruct IH as [IH1 IH2]. destruct Hx as [Hx1 Hx2].
    split; ring_simplify; lra.
Qed.

Lemma mean_bounds (lo hi : Q) (obs : list Q) (m : Q) :
  Forall (fun x => lo <= x <= hi) obs -> mean obs = Some m -> lo <= m <= hi.
Proof.
  intros Hall Hm. destruct obs as [|y obs]; [discriminate|].
  simpl in Hm. injection Hm as <-.
  change (y + Qsum obs) with (Qsum (y :: obs)).
  assert (Hp := Qlen_pos y obs). assert (Hb := Qsum_bounds lo hi _ Hall).
  split.
  - apply Qle_shift_div_l; [exact Hp|]. rewrite Qmult_comm. tauto.
  - apply Qle_shift_div_r; [exact Hp|]. rewrite Qmult_comm. tauto.
Qed.

(** X13.  The moving average stays within the closes: when every close
    lies between [lo] and [hi], so does every defined cell of the moving
    average, for every window. *)
Theorem moving_average_within_closes :
  forall (lo hi : Q) (w : nat) (close : Series),
    every (fun x => lo <= x <= hi) close ->
    every (fun x => lo <= x <= hi) (MA w close).
Proof.
  intros lo hi w close H. unfold MA.
  apply every_rolling_mean; [|exact H].
  intros obs m. apply mean_bounds.
Qed.

(** X14.  The bands are centred on the moving average: wherever the upper
    and the lower band are defined, so is the moving average of the same
    window, the two bands are at the same distance from it, and with a
    square root that is never negative the lower band is below and the
    upper band above it. *)
Theorem bands_centred_on_moving_average :
  forall (np_sqrt : Q -> Q),
    (forall x, 0 <= np_sqrt x) ->
    forall (w i : nat) (close : Series) (hi lo : Q),
      nth_error (Upper_Band np_sqrt w close) i = Some (Some hi) ->
      nth_error (Lower_Band np_sqrt w close) i = Some (Some lo) ->
      exists mid,
        nth_error (MA w close) i = Some (Some mid)
        /\ hi + lo == 2 * mid /\ lo <= mid <= hi.
Proof.
  intros np_sqrt Hsqrt w i close hi lo Hu Hl.
  destruct (Nat.lt_ge_cases i (length close)) as [Hi|Hi].
  - destruct (nth_error_bands np_sqrt w i close Hi) as [Eu El].
    rewrite Eu in Hu. rewrite El in Hl.
    assert (Em : nth_error (MA w close) i = Some (rolling_at mean w close i)).
    { now apply nth_error_rolling. }
    rewrite Em.
    destruct (rolling_at mean w close i) as [mid|]; [|discriminate].
    destruct (rolling_at (std np_sqrt) w close i) as [sd|] eqn:Es; [|discriminate].
    simpl in Hu, Hl. injection Hu as <-. injection Hl as <-.
    assert (Hsd : 0 <= sd).
    { revert Es. unfold rolling_at, std.
      destruct (_ <? _)%nat; [discriminate|].
      destruct (_ <=? _)%nat; [discriminate|]. intros [= <-]. apply Hsqrt. }
    exists mid. split; [reflexivity|]. split; [ring|lra].
  - exfalso. destruct (length_bands np_sqrt w close) as [Lu _].
    apply nth_error_None in Hi.
    assert (Hn : nth_error (Upper_Band np_sqrt w close) i = None).
    { apply nth_error_None. rewrite Lu. now apply nth_error_None. }
    congruence.
Qed.

(** X15.  The RSI lies between 0 and 100: on any close series and for any
    period, every defined cell of the RSI column is at least 0 and at most
    100, the range of the chart's y-axis. *)
Theorem rsi_between_0_and_100 :
  forall (p : nat) (close : Series),
    every (fun x => 0 <= x <= 100) (RSI p close).
Proof.
  intros p close. unfold RSI.
  assert (H := rsi_divisor_pos p close). unfold every in *.
  rewrite map_map. apply Forall_map. revert H. apply Forall_impl.
  intros [d|] Hd; simpl; [|exact I].
  destruct (Qeq_bool d 0); simpl; [exact I|].
  assert (Hq : 0 < 100 / d) by (apply Qlt_shift_div_l; lra).
  assert (Hq' : 100 / d <= 100).
  { apply Qle_shift_div_r; [lra|]. nra. }
  split; lra.
Qed.

Lemma nth_error_diff_from (s : Series) :
  forall prev i,
    nth_error (diff_from prev s) i
    = option_map (fun c => csub c (match i with
                                   | O => prev
                                   | S j => nth j s NaN
                                   end)) (nth_error s i).
Proof.
  induction s as [|x s IH]; intros prev i; simpl.
  - now destruct i.
  - destruct i as [|i]; simpl; [reflexivity|].
    rewrite IH. destruct i; reflexivity.
Qed.

(** X16.  Rises and falls split the difference: on any close series, at
    every row the rise minus the fall is the difference of the closes, and
    one of the two is 0; the difference at a row is the close minus the
    close of the row before, and NaN at row 0. *)
Theorem rises_and_falls_split_delta :
  forall (close : Series),
    Forall2 cell_eq (series_op csub (up close) (down close)) (delta close)
    /\ every (fun x => x == 0) (series_op cmul (up close) (down close))
    /\ (forall i, (i < length close)%nat ->
                  nth_error (delta close) i
                  = Some (match i with
                          | O => NaN
                          | S j => csub (nth i close NaN) (nth j close NaN)
                          end)).
Proof.
  intros close. unfold up, down, delta, clip_lower, clip_upper, series_op, every.
  split; [|split].
  - induction (diff close) as [|c l IH]; simpl; constructor; [|exact IH].
    destruct c as [x|]; simpl; [|exact I].
    destruct (Qle_bool 0 x) eqn:E1, (Qle_bool x 0) eqn:E2;
      try apply Qle_bool_iff in E1; try apply Qle_bool_iff in E2; try lra.
    assert (N1 : ~ 0 <= x) by (intros H; apply Qle_bool_iff in H; congruence).
    assert (N2 : ~ x <= 0) by (intros H; apply Qle_bool_iff in H; congruence).
    lra.
  - induction (diff close) as [|c l IH]; simpl; constructor; [|exact IH].
    destruct c as [x|]; simpl; [|exact I].
    destruct (Qle_bool 0 x) eqn:E1, (Qle_bool x 0) eqn:E2;
      try apply Qle_bool_iff in E1; try apply Qle_bool_iff in E2; nra.
  - intros i Hi. unfold diff. rewrite nth_error_diff_from.
    destruct (nth_error close i) as [c|] eqn:E.
    + simpl. rewrite (nth_error_nth _ _ NaN E).
      destruct i; [now destruct c|reflexivity].
    + apply nth_error_None in E. lia.
Qed.

Lemma mean_map_seq (f : nat -> Q) (p : nat) :
  (1 <= p)%nat ->
  mean (map f (seq 0 p)) = Some (Qsum (map f (seq 0 p)) / inject_Z (Z.of_nat p)).
Proof.
  intros Hp. unfold mean, Qlen. rewrite length_map, length_seq.
  destruct p as [|p]; [lia|reflexivity].
Qed.

Lemma rsi_window_means (p i : nat) (qs : list Q) :
  (1 <= p)%nat -> (p <= i)%nat -> (i < length qs)%nat ->
  rolling_at mean p (up (map Some qs)) i
  = Some (gains qs i p / inject_Z (Z.of_nat p))
  /\ rolling_at mean p (down (map Some qs)) i
     = Some (losses qs i p / inject_Z (Z.of_nat p)).
Proof.
  intros H1 Hp Hi. destruct qs as [|q qs]; [simpl in Hi; lia|]. simpl in Hi.
  rewrite up_Some, down_Some, !rolling_at_tail by assumption.
  set (D := Qdiffs q qs).
  assert (HD : length D = length qs) by apply length_Qdiffs.
  assert (Hlr : length (rises D) = length qs) by (unfold rises; now rewrite length_map).
  assert (Hlf : length (falls D) = length qs) by (unfold falls; now rewrite length_map).
  destruct (rolling_at_full mean p (i - 1) (rises D)) as [-> _]; [lia|lia|].
  destruct (rolling_at_full mean p (i - 1) (falls D)) as [-> _]; [lia|lia|].
  rewrite !Qwindow_nth by lia.
  assert (Eg : map (fun k => nth (i - 1 + 1 - p + k) (rises D) 0) (seq 0 p)
               = map (fun k => gain (q :: qs) (i + 1 - p + k)) (seq 0 p)).
  { apply map_ext_in. intros k Hk. apply in_seq in Hk.
    unfold rises, gain. rewrite (nth_map_lt _ D _ 0 0) by lia.
    unfold D. rewrite nth_Qdiffs by lia.
    replace (i + 1 - p + k)%nat with (S (i - 1 + 1 - p + k)) by lia.
    replace (S (i - 1 + 1 - p + k) - 1)%nat with (i - 1 + 1 - p + k)%nat by lia.
    reflexivity. }
  assert (El : map (fun k => nth (i - 1 + 1 - p + k) (falls D) 0) (seq 0 p)
               = map (fun k => loss (q :: qs) (i + 1 - p + k)) (seq 0 p)).
  { apply map_ext_in. intros k Hk. apply in_seq in Hk.
    unfold falls, loss. rewrite (nth_map_lt _ D _ 0 0) by lia.
    unfold D. rewrite nth_Qdiffs by lia.
    replace (i + 1 - p + k)%nat with (S (i - 1 + 1 - p + k)) by lia.
    replace (S (i - 1 + 1 - p + k) - 1)%nat with (i - 1 + 1 - p + k)%nat by lia.
    reflexivity. }
  rewrite Eg, El, !mean_map_seq by exact H1. split; reflexivity.
Qed.

Lemma gains_nonneg (qs : list Q) (i p : nat) : 0 <= gains qs i p.
Proof.
  unfold gains. apply Qsum_nonneg, Forall_map, Forall_forall. intros k _.
  unfold gain. cbv zeta.
  destruct (Qle_bool 0 _) eqn:E; [now apply Qle_bool_iff|apply Qle_refl].
Qed.

Lemma losses_nonneg (qs : list Q) (i p : nat) : 0 <= losses qs i p.
Proof.
  unfold losses. apply Qsum_nonneg, Forall_map, Forall_forall. intros k _.
  unfold loss. cbv zeta.
  destruct (Qle_bool _ 0) eqn:E; [apply Qle_bool_iff in E|]; lra.
Qed.

Lemma rsi_cell_no_losses (au ad : Q) :
  ad == 0 -> rsi_cell (Some au) (Some ad) = NaN.
Proof.
  intros E. unfold rsi_cell, replace_cell. now rewrite (Qeq_eq_bool _ _ E).
Qed.

Lemma rsi_cell_value (au ad : Q) :
  0 <= au -> 0 < ad ->
  rsi_cell (Some au) (Some ad) = Some (100 - 100 / (1 + au / ad)).
Proof.
  intros Hu Hd. unfold rsi_cell, replace_cell.
  destruct (Qeq_bool ad 0) eqn:E0; [apply Qeq_bool_eq in E0; lra|].
  unfold cdiv at 2. rewrite E0. unfold cadd, lift2.
  assert (Hq : 0 <= au / ad).
  { apply Qle_shift_div_l; [exact Hd|]. now rewrite Qmult_0_l. }
  unfold cdiv.
  destruct (Qeq_bool (1 + au / ad) 0) eqn:E1; [apply Qeq_bool_eq in E1; lra|].
  reflexivity.
Qed.

Lemma Qdiv_pos (x y : Q) : 0 < x -> 0 < y -> 0 < x / y.
Proof.
  intros Hx Hy. apply Qlt_shift_div_l; [exact Hy|]. now rewrite Qmult_0_l.
Qed.

Lemma Qdiv_nonneg (x y : Q) : 0 <= x -> 0 < y -> 0 <= x / y.
Proof.
  intros Hx Hy. apply Qle_shift_div_l; [exact Hy|]. now rewrite Qmult_0_l.
Qed.

(** X17.  The RSI from gains and losses: on a close series without NaN, at
    a row [i >= p], with [G] the sum of the rises and [L] the sum of the
    falls of the close over the last [p] rows, the RSI is NaN when [L] is 0
    and is [100 * G / (G + L)] otherwise. *)
Theorem rsi_from_gains_and_losses :
  forall (qs : list Q) (p i : nat),
    (1 <= p)%nat -> (p <= i)%nat -> (i < length qs)%nat ->
    (losses qs i p == 0 -> nth i (RSI p (map Some qs)) NaN = NaN)
    /\ (~ losses qs i p == 0 ->
        cell_eq (nth i (RSI p (map Some qs)) NaN)
                (Some (100 * gains qs i p / (gains qs i p + losses qs i p)))).
Proof.
  intros qs p i H1 Hp Hi.
  rewrite (nth_error_nth _ _ NaN (nth_error_RSI p i (map Some qs)
                                    ltac:(now rewrite length_map))).
  destruct (rsi_window_means p i qs H1 Hp Hi) as [-> ->].
  assert (HG := gains_nonneg qs i p). assert (HL := losses_nonneg qs i p).
  set (G := gains qs i p) in *. set (L := losses qs i p) in *.
  assert (HP : 0 < inject_Z (Z.of_nat p)).
  { change 0 with (inject_Z 0). rewrite <- Zlt_Qlt. lia. }
  set (P := inject_Z (Z.of_nat p)) in *.
  split.
  - intros E. apply rsi_cell_no_losses. rewrite E. field. lra.
  - intros N. assert (HL' : 0 < L) by lra.
    rewrite rsi_cell_value; [|now apply Qdiv_nonneg|now apply Qdiv_pos].
    simpl. field. repeat split; lra.
Qed.

Lemma ewm_from_started (a : Q) (s : Series) :
  forall wv old_wt, Forall defined (ewm_from a (Some wv) old_wt s).
Proof.
  induction s as [|cur s IH]; intros wv old_wt; simpl; [constructor|].
  destruct cur as [c|]; constructor; try apply defined_Some; apply IH.
Qed.

Lemma ewm_defined_iff (a : Q) (s : Series) :
  forall i, (i < length s)%nat ->
    (defined (nth i (ewm_from a NaN 1 s) NaN)
     <-> exists j, (j <= i)%nat /\ defined (nth j s NaN)).
Proof.
  induction s as [|cur s IH]; intros i Hi; simpl in Hi; [lia|].
  destruct cur as [c|]; simpl.
  - split.
    + intros _. exists 0%nat. split; [lia|apply defined_Some].
    + intros _. destruct i as [|i]; [apply defined_Some|].
      assert (H := ewm_from_started a s c 1). rewrite Forall_forall in H.
      apply H, nth_In. rewrite length_ewm_from. lia.
  - destruct i as [|i].
    + split; [intros H; now elim H|].
      intros [j [Hj Hd]]. replace j with 0%nat in Hd by lia. exact Hd.
    + rewrite IH by lia. split.
      * intros [j [Hj Hd]]. exists (S j). split; [lia|exact Hd].
      * intros [j [Hj Hd]]. destruct j as [|j]; [now elim Hd|].
        exists j. split; [lia|exact Hd].
Qed.

Lemma nth_series_op (f : cell -> cell -> cell) (a b : Series) (i : nat) :
  (i < length a)%nat -> length a = length b ->
  nth i (series_op f a b) NaN = f (nth i a NaN) (nth i b NaN).
Proof.
  intros Hi Hl. apply nth_error_nth. rewrite nth_error_series_op.
  destruct (nth_error a i) as [x|] eqn:Ea;
    [|apply nth_error_None in Ea; lia].
  destruct (nth_error b i) as [y|] eqn:Eb;
    [|apply nth_error_None in Eb; lia].
  now rewrite (nth_error_nth _ _ NaN Ea), (nth_error_nth _ _ NaN Eb).
Qed.

(** X18.  MACD and Signal have no warm-up window: on any close series both
    are defined at a row exactly when some row up to it has a close, so
    they are NaN only before the first close, and a later NaN close does
    not interrupt them. *)
Theorem macd_defined_from_first_close :
  forall (close : Series) (i : nat),
    (i < length close)%nat ->
    (defined (nth i (MACD close) NaN)
     <-> exists j, (j <= i)%nat /\ defined (nth j close NaN))
    /\ (defined (nth i (Signal_Line close) NaN)
        <-> exists j, (j <= i)%nat /\ defined (nth j close NaN)).
Proof.
  intros close i Hi.
  assert (Hm : forall k, (k < length close)%nat ->
                 (defined (nth k (MACD close) NaN)
                  <-> exists j, (j <= k)%nat /\ defined (nth j close NaN))).
  { intros k Hk. unfold MACD, exp1, exp2, ewm_mean.
    rewrite nth_series_op by (rewrite !length_ewm_from; auto).
    rewrite <- (ewm_defined_iff (alpha 12) close k Hk).
    assert (H26 := ewm_defined_iff (alpha 26) close k Hk).
    assert (H12 := ewm_defined_iff (alpha 12) close k Hk).
    destruct (nth k (ewm_from (alpha 12) NaN 1 close) NaN) as [x|],
             (nth k (ewm_from (alpha 26) NaN 1 close) NaN) as [y|]; simpl.
    - split; intros _; apply defined_Some.
    - exfalso. apply (proj2 H26); [|reflexivity].
      apply H12. apply defined_Some.
    - split; intros H; now elim H.
    - split; intros H; now elim H. }
  split; [now apply Hm|].
  unfold Signal_Line, ewm_mean.
  rewrite ewm_defined_iff by (now rewrite (proj1 (length_MACD close))).
  split.
  - intros [j [Hj Hd]]. apply Hm in Hd; [|lia].
    destruct Hd as [j' [Hj' Hd']]. exists j'. split; [lia|exact Hd'].
  - intros H. exists i. split; [lia|]. now apply Hm.
Qed.

Lemma every_nth (P : Q -> Prop) (s : Series) (i : nat) (x : Q) :
  every P s -> nth i s NaN = Some x -> P x.
Proof.
  unfold every. intros Hs Hn.
  destruct (Nat.lt_ge_cases i (length s)) as [Hi|Hi].
  - rewrite Forall_forall in Hs. specialize (Hs _ (nth_In s NaN Hi)).
    now rewrite Hn in Hs.
  - rewrite nth_overflow in Hn by exact Hi. discriminate.
Qed.

Lemma ewm_from_bounds (a lo hi : Q) (s : Series) :
  0 < a -> a <= 1 ->
  every (fun x => lo <= x <= hi) s ->
  forall weighted old_wt,
    0 <= old_wt ->
    match weighted with Some wv => lo <= wv <= hi | None => True end ->
    every (fun x => lo <= x <= hi) (ewm_from a weighted old_wt s).
Proof.
  intros Ha0 Ha1 Hs. unfold every in *.
  induction Hs as [|cur s Hc Hs IH]; intros weighted old_wt Ho Hw; simpl;
    [constructor|].
  destruct weighted as [wv|], cur as [c|]; simpl.
  - assert (Hd : 0 <= old_wt * (1 - a)) by nra.
    set (ow := old_wt * (1 - a)) in *.
    assert (Hb : lo <= (ow * wv + a * c) / (ow + a) <= hi).
    { split.
      - apply Qle_shift_div_l; [lra|]. nra.
      - apply Qle_shift_div_r; [lra|]. nra. }
    constructor; [exact Hb|]. apply IH; [lra|exact Hb].
  - constructor; [exact Hw|]. apply IH; [nra|exact Hw].
  - constructor; [exact Hc|]. apply IH; [lra|exact Hc].
  - constructor; [exact I|]. apply IH; [lra|exact I].
Qed.

Lemma alpha_range (span : Z) : (1 <= span)%Z -> 0 < alpha span /\ alpha span <= 1.
Proof.
  intros H. unfold alpha.
  assert (Hs : 1 <= inject_Z span).
  { change 1 with (inject_Z 1). now rewrite <- Zle_Qle. }
  split.
  - apply Qlt_shift_div_l; lra.
  - apply Qle_shift_div_r; lra.
Qed.

Lemma ewm_mean_bounds (span : Z) (lo hi : Q) (s : Series) :
  (1 <= span)%Z ->
  every (fun x => lo <= x <= hi) s ->
  every (fun x => lo <= x <= hi) (ewm_mean span s).
Proof.
  intros Hspan Hs. destruct (alpha_range span Hspan) as [H0 H1].
  unfold ewm_mean. apply ewm_from_bounds; try assumption; [lra|exact I].
Qed.

(** X19.  The averages stay within the closes, and MACD within their
    spread: when every close lies between [lo] and [hi], every defined cell
    of an exponentially weighted mean of span 1 or more lies between [lo]
    and [hi], and every defined cell of MACD and of Signal lies between
    [lo - hi] and [hi - lo]. *)
Theorem macd_within_spread :
  forall (lo hi : Q) (close : Series),
    every (fun x => lo <= x <= hi) close ->
    (forall span, (1 <= span)%Z ->
                  every (fun x => lo <= x <= hi) (ewm_mean span close))
    /\ every (fun x => lo - hi <= x <= hi - lo) (MACD close)
    /\ every (fun x => lo - hi <= x <= hi - lo) (Signal_Line close).
Proof.
  intros lo hi close H.
  assert (H12 : every (fun x => lo <= x <= hi) (exp1 close))
    by (apply ewm_mean_bounds; [lia|exact H]).
  assert (H26 : every (fun x => lo <= x <= hi) (exp2 close))
    by (apply ewm_mean_bounds; [lia|exact H]).
  assert (Hm : every (fun x => lo - hi <= x <= hi - lo) (MACD close)).
  { unfold MACD, series_op, every in *.
    revert H12 H26. generalize (exp1 close) (exp2 close). intros a.
    induction a as [|x a IH]; intros b Ha Hb; simpl; [constructor|].
    destruct b as [|y b]; simpl; [constructor|].
    inversion Ha as [|? ? Hx Ha']; inversion Hb as [|? ? Hy Hb']; subst.
    constructor; [|now apply IH].
    destruct x as [x|], y as [y|]; simpl; try exact I. lra. }
  split; [intros span Hspan; now apply ewm_mean_bounds|].
  split; [exact Hm|].
  unfold Signal_Line. apply ewm_mean_bounds; [lia|exact Hm].
Qed.

Lemma decreasing_from_nth (qs : list Q) :
  forall prev j, decreasing_from prev qs -> (1 <= j)%nat -> (j <= length qs)%nat ->
    nth j (prev :: qs) 0 < nth (j - 1) (prev :: qs) 0.
Proof.
  induction qs as [|x qs IH]; intros prev j H H1 Hj; simpl in Hj; [lia|].
  destruct H as [Hx Hr].
  destruct j as [|[|j]]; [lia|exact Hx|].
  specialize (IH x (S j) Hr ltac:(lia) ltac:(lia)).
  replace (S (S j) - 1)%nat with (S (S j - 1)) by lia. exact IH.
Qed.

Lemma strictly_decreasing_nth (qs : list Q) (j : nat) :
  strictly_decreasing qs -> (1 <= j)%nat -> (j < length qs)%nat ->
  nth j qs 0 < nth (j - 1) qs 0.
Proof.
  destruct qs as [|q qs]; simpl; [lia|]. intros H H1 Hj.
  apply decreasing_from_nth; [exact H|exact H1|lia].
Qed.

(** X20.  On a close series that falls at every row the RSI is 0 from row
    [p] on, for every period [p >= 1]. *)
Theorem rsi_decreasing_is_zero :
  forall (qs : list Q) (p i : nat),
    strictly_decreasing qs ->
    (1 <= p)%nat -> (p <= i)%nat -> (i < length qs)%nat ->
    cell_eq (nth i (RSI p (map Some qs)) NaN) (Some 0).
Proof.
  intros qs p i Hdec H1 Hp Hi.
  assert (Hfall : forall k, In k (seq 0 p) ->
            nth (i + 1 - p + k) qs 0 - nth (i + 1 - p + k - 1) qs 0 < 0).
  { intros k Hk. apply in_seq in Hk.
    assert (H := strictly_decreasing_nth qs (i + 1 - p + k) Hdec
                   ltac:(lia) ltac:(lia)). lra. }
  assert (HG : gains qs i p == 0).
  { unfold gains.
    rewrite (Qsum_all 0); [ring|].
    apply Forall_map, Forall_forall. intros k Hk. unfold gain. cbv zeta.
    specialize (Hfall k Hk).
    destruct (Qle_bool 0 _) eqn:E; [apply Qle_bool_iff in E; lra|reflexivity]. }
  assert (HL : ~ losses qs i p == 0).
  { unfold losses. apply Qsum_nonzero_iff.
    - apply Forall_map, Forall_forall. intros k _. unfold loss. cbv zeta.
      destruct (Qle_bool _ 0) eqn:E; [apply Qle_bool_iff in E|]; lra.
    - exists (loss qs (i + 1 - p + 0)). split.
      + apply in_map_iff. exists 0%nat. split; [reflexivity|].
        apply in_seq. lia.
      + assert (H0 : In 0%nat (seq 0 p)) by (apply in_seq; lia).
        specialize (Hfall 0%nat H0). unfold loss. cbv zeta.
        destruct (Qle_bool _ 0) eqn:E; [lra|].
        assert (N : ~ nth (i + 1 - p + 0) qs 0 - nth (i + 1 - p + 0 - 1) qs 0 <= 0)
          by (intros H; apply Qle_bool_iff in H; congruence).
        lra. }
  assert (HLn := losses_nonneg qs i p).
  assert (HP : 0 < inject_Z (Z.of_nat p)).
  { change 0 with (inject_Z 0). rewrite <- Zlt_Qlt. lia. }
  rewrite (nth_error_nth _ _ NaN (nth_error_RSI p i (map Some qs)
                                    ltac:(now rewrite length_map))).
  destruct (rsi_window_means p i qs H1 Hp Hi) as [-> ->].
  rewrite rsi_cell_value;
    [|rewrite HG; apply Qdiv_nonneg; lra|apply Qdiv_pos; lra].
  simpl. rewrite HG. field. repeat split; lra.
Qed.

(** * The properties at sample inputs *)

Lemma sample_sqrt_zero (x : Q) : x == 0 -> sample_sqrt x == 0.
Proof.
  unfold sample_sqrt, Qeq. simpl. intros H. rewrite Z.mul_1_r in H.
  now rewrite H.
Qed.

Lemma register_then_authenticate_alice :
  authenticate_user "alice" "Secret"
    (fst (register_user "alice" "Secret" empty_table)) = true
  /\ successes "alice" [("alice", "Secret"); ("bob", "pw"); ("alice", "other")]%string
       empty_table = 1%nat.
Proof.
  destruct (register_then_authenticate "alice" "Secret" empty_table eq_refl)
    as [_ [Ha [_ [_ Hs]]]].
  split; [exact Ha|apply Hs].
Defined.

Lemma authenticate_wrong_case_refused :
  authenticate_user "alice" "SECRET"
    (fst (register_user "alice" "Secret" empty_table)) = false
  /\ (authenticate_user "alice" "secret"
        (fst (register_user "alice" "Secret" empty_table)) = true
      <-> "secret"%string = "Secret"%string).
Proof.
  destruct (authenticate_exact_match "alice" "Secret"
              (fst (register_user "alice" "Secret" empty_table))) as [_ [_ Hc]].
  destruct (authenticate_exact_match "alice" "secret"
              (fst (register_user "alice" "Secret" empty_table))) as [_ [Hs _]].
  split.
  - apply Hc. discriminate.
  - apply Hs; [|reflexivity].
    unfold unique_usernames. simpl. constructor; [intros []|constructor].
Defined.

Lemma register_keeps_anonymous :
  authenticated
    (fst (script sample_sqrt sample_download sample_widgets (new_session None)))
  = false.
Proof.
  destruct (session_gate sample_sqrt sample_download sample_widgets (new_session None))
    as [_ [_ [_ [_ [H _]]]]].
  apply H; reflexivity.
Defined.

Lemma reversed_dates_rejected :
  main_app sample_sqrt sample_download reversed_dates
  = [st_title "Interactive Stock Candlestick App";
     st_error "Start date must be before end date.";
     st_stop].
Proof.
  exact (proj1 (start_after_end_rejected sample_sqrt sample_download
                  reversed_dates eq_refl)).
Defined.

Lemma fetch_aapl_any_case :
  In (yf_download_call "AAPL" (mkDate 2021 1 1) (mkDate 2021 6 1))
     (main_app sample_sqrt sample_download sample_widgets)
  /\ main_app sample_sqrt sample_download (with_ticker "aapl" sample_widgets)
     = main_app sample_sqrt sample_download (with_ticker "AaPL" sample_widgets).
Proof.
  destruct (fetch_uses_uppercased_ticker sample_sqrt sample_download sample_widgets)
    as [_ [Hin [_ [_ Heq]]]].
  split; [apply Hin; reflexivity|].
  apply Heq; vm_compute; reflexivity.
Defined.

Lemma moving_average_scenario_row_4 :
  nth_error (MA 5 (map Some scenario_closes)) 4
  = Some (Some (mean_of_closes scenario_closes 4 5)).
Proof.
  destruct (moving_average_is_window_mean scenario_closes 5 4) as [_ [H _]].
  - repeat constructor.
  - unfold lt. simpl. repeat constructor.
  - apply H. repeat constructor.
Defined.

Lemma bollinger_constant_sample :
  exists sd mid hi lo,
    nth_error (Std sample_sqrt 5 (repeat (Some 7) 6)) 4 = Some (Some sd)
    /\ nth_error (MA 5 (repeat (Some 7) 6)) 4 = Some (Some mid)
    /\ nth_error (Upper_Band sample_sqrt 5 (repeat (Some 7) 6)) 4 = Some (Some hi)
    /\ nth_error (Lower_Band sample_sqrt 5 (repeat (Some 7) 6)) 4 = Some (Some lo).
Proof.
  destruct (bollinger_constant_collapse sample_sqrt sample_sqrt_zero 7 6 5 4)
    as [_ [_ [_ [_ H]]]].
  apply H; unfold lt; repeat constructor.
Defined.

Lemma rsi_rising_sample :
  RSI 2 (map Some [1; 2; 3; 4]) = repeat NaN 4.
Proof.
  refine (proj1 (rsi_increasing_is_nan [1; 2; 3; 4] 2 _)).
  simpl. repeat split.
Defined.

Lemma derived_columns_sample :
  nth 1 (RSI 2 (map Some [3; 1; 2; 1])) NaN = NaN
  /\ (defined (nth 1 (MA 2 (map Some [3; 1; 2; 1])) NaN) <-> (2 <= 1 + 1)%nat).
Proof.
  destruct (derived_columns_leading_nan sample_sqrt [3; 1; 2; 1] 2 1)
    as [Hm [_ [_ [_ [Hr _]]]]].
  - repeat constructor.
  - unfold lt. simpl. repeat constructor.
  - split; [apply Hr; repeat constructor|exact Hm].
Defined.

(** * Where the specification and the code part *)

(** C1 as stated fails: on the rising closes 1, 2, 3, 4 with period 2, row 2
    has a full window of differences, yet the RSI there is NaN, not 100. *)
Lemma rsi_rising_is_not_100 :
  strictly_increasing [1; 2; 3; 4]
  /\ (2 <= 2 <= length [1; 2; 3; 4])%nat
  /\ (2 <= 2 < length [1; 2; 3; 4])%nat
  /\ nth 2 (RSI 2 (map Some [1; 2; 3; 4])) NaN = NaN
  /\ ~ cell_eq (nth 2 (RSI 2 (map Some [1; 2; 3; 4])) NaN) (Some 100).
Proof.
  split; [simpl; repeat split|].
  split; [simpl; lia|]. split; [simpl; lia|].
  split; [reflexivity|]. simpl. tauto.
Qed.

(** C10 as stated fails off ASCII: the Kelvin sign U+212A and [k] differ
    only in letter case ([k] is the lowercase form of the sign), yet
    [str.upper()] keeps the sign and turns [k] into [K], so the two runs
    fetch different tickers. *)
Lemma kelvin_and_k_fetch_differently :
  differ_in_letter_case_only kelvin_sign "k" = true
  /\ lower_code 8490 = [107%N]
  /\ utf8_decode kelvin_sign = [8490%N]
  /\ upper kelvin_sign = kelvin_sign
  /\ upper "k" = "K"%string
  /\ In (yf_download_call kelvin_sign (mkDate 2021 1 1) (mkDate 2021 6 1))
        (main_app sample_sqrt sample_download (with_ticker kelvin_sign sample_widgets))
  /\ ~ In (yf_download_call kelvin_sign (mkDate 2021 1 1) (mkDate 2021 6 1))
          (main_app sample_sqrt sample_download (with_ticker "k" sample_widgets))
  /\ main_app sample_sqrt sample_download (with_ticker kelvin_sign sample_widgets)
     <> main_app sample_sqrt sample_download (with_ticker "k" sample_widgets).
Proof.
  repeat split; try (vm_compute; reflexivity).
  - vm_compute. right. left. reflexivity.
  - vm_compute. intros [H|[H|[H|[]]]]; discriminate.
  - vm_compute. discriminate.
Qed.

(** C3 as stated fails for the RSI column: with period 2 on the closes
    3, 1, 2, 1, row 1 (the row [n - 1]) is NaN, and the first defined row is
    row 2. *)
Lemma rsi_row_before_period_is_nan :
  (2 - 1 <= 1 < length [3; 1; 2; 1])%nat
  /\ nth 1 (RSI 2 (map Some [3; 1; 2; 1])) NaN = NaN
  /\ ~ defined (nth 1 (RSI 2 (map Some [3; 1; 2; 1])) NaN)
  /\ defined (nth 2 (RSI 2 (map Some [3; 1; 2; 1])) NaN).
Proof.
  split; [simpl; lia|]. split; [reflexivity|].
  split; [intros H; now apply H|]. vm_compute. discriminate.
Qed.

(** * The further properties at sample inputs *)

Lemma sample_sqrt_nonneg (x : Q) : 0 <= sample_sqrt x.
Proof.
  unfold sample_sqrt, Qle. simpl. rewrite Z.mul_1_r. apply Z.sqrt_nonneg.
Qed.

Lemma ids_after_three_registrations :
  NoDup (map id (rows (register_all
                         [("alice", "a"); ("bob", "b"); ("alice", "c")]%string
                         empty_table))).
Proof.
  refine (proj2 (registrations_keep_ids_ordered
                   [("alice", "a"); ("bob", "b"); ("alice", "c")]%string
                   empty_table _)).
  split; constructor.
Defined.

Lemma anonymous_run_makes_no_chart :
  Forall (fun c => charting_call c = false)
         (snd (script sample_sqrt sample_download sample_widgets (new_session None))).
Proof.
  apply (proj2 (fetch_only_when_authenticated sample_sqrt sample_download
                  sample_widgets (new_session None))).
  reflexivity.
Defined.

Lemma alice_survives_a_new_session :
  authenticate_user "alice" "Secret"
    (db (session sample_sqrt sample_download [reversed_dates]
           (new_session
              (Some (db (session sample_sqrt sample_download [sample_login]
                           (mkWorld None
                              (fst (register_user "alice" "Secret" empty_table))))))))) = true.
Proof.
  exact (proj2 (credentials_survive_sessions sample_sqrt sample_download
                  [sample_login] [reversed_dates]
                  (mkWorld None (fst (register_user "alice" "Secret" empty_table)))
                  "alice" "Secret" eq_refl)).
Defined.

Lemma alice_registers_and_logs_in :
  authenticated (session sample_sqrt sample_download [sample_widgets; sample_login]
                         (new_session None)) = true.
Proof.
  exact (proj1 (register_then_login_authenticates sample_sqrt sample_download
                  sample_widgets sample_login sample_login (new_session None)
                  eq_refl eq_refl eq_refl eq_refl eq_refl eq_refl eq_refl eq_refl
                  eq_refl)).
Defined.

Lemma rsi_chart_has_one_point_per_row :
  Forall (fun tr => trace_points tr = length sample_rows)
         [Scatter col_RSI (RSI (rsi_period sample_widgets) (Close sample_rows))].
Proof.
  apply (proj2 (derived_columns_one_cell_per_row sample_sqrt sample_widgets
                  sample_rows) "AAPL"%string ("RSI AAPL")%string).
  right. left. reflexivity.
Defined.

Lemma june_is_after_december :
  date_gt (mkDate 2021 6 1) (mkDate 2020 12 31) = true.
Proof.
  destruct (date_gt_strict_total_order (mkDate 2021 6 1) (mkDate 2021 1 1)
              (mkDate 2020 12 31)) as [_ [_ [H _]]].
  apply H; reflexivity.
Defined.

Lemma moving_average_after_a_gap :
  defined (nth 3 (MA 2 [Some 1; NaN; Some 3; Some 4; Some 5]) NaN)
  /\ ~ defined (nth 2 (MA 2 [Some 1; NaN; Some 3; Some 4; Some 5]) NaN).
Proof.
  destruct (rolling_defined_iff_window_clean sample_sqrt
              [Some 1; NaN; Some 3; Some 4; Some 5] 2 3) as [H3 _];
    [unfold lt; simpl; repeat constructor|].
  destruct (rolling_defined_iff_window_clean sample_sqrt
              [Some 1; NaN; Some 3; Some 4; Some 5] 2 2) as [H2 _];
    [unfold lt; simpl; repeat constructor|].
  split.
  - apply H3; [repeat constructor|]. split; [repeat constructor|].
    repeat constructor; discriminate.
  - intros Hd. apply H2 in Hd; [|repeat constructor].
    destruct Hd as [_ Hall]. inversion Hall as [|c l Hc _]. now apply Hc.
Defined.

Lemma moving_average_of_three_closes :
  every (fun x => 1 <= x <= 3) (MA 2 [Some 1; Some 3; Some 2]).
Proof.
  apply (moving_average_within_closes 1 3 2 [Some 1; Some 3; Some 2]).
  repeat constructor; discriminate.
Defined.

Lemma bands_of_three_closes :
  exists mid,
    nth_error (MA 2 [Some 1; Some 3; Some 2]) 1 = Some (Some mid)
    /\ (152 # 32) + (-24 # 32) == 2 * mid
    /\ (-24 # 32) <= mid <= (152 # 32).
Proof.
  apply (bands_centred_on_moving_average sample_sqrt sample_sqrt_nonneg 2 1
           [Some 1; Some 3; Some 2] (152 # 32) (-24 # 32)); reflexivity.
Defined.

Lemma delta_of_three_closes :
  nth_error (delta [Some 3; Some 1; NaN]) 1 = Some (csub (Some 1) (Some 3)).
Proof.
  destruct (rises_and_falls_split_delta [Some 3; Some 1; NaN]) as [_ [_ H]].
  apply (H 1%nat). unfold lt. simpl. repeat constructor.
Defined.

Lemma rsi_of_four_closes :
  cell_eq (nth 2 (RSI 2 (map Some [3; 1; 2; 1])) NaN)
          (Some (100 * gains [3; 1; 2; 1] 2 2
                 / (gains [3; 1; 2; 1] 2 2 + losses [3; 1; 2; 1] 2 2))).
Proof.
  destruct (rsi_from_gains_and_losses [3; 1; 2; 1] 2 2) as [_ H].
  - repeat constructor.
  - repeat constructor.
  - unfold lt. simpl. repeat constructor.
  - apply H. intros E. vm_compute in E. discriminate.
Defined.

Lemma macd_runs_over_a_gap :
  defined (nth 2 (MACD [NaN; Some 1; NaN]) NaN).
Proof.
  destruct (macd_defined_from_first_close [NaN; Some 1; NaN] 2) as [H _].
  - unfold lt. simpl. repeat constructor.
  - apply H. exists 1%nat. split; [repeat constructor|discriminate].
Defined.

Lemma macd_of_three_closes :
  every (fun x => 1 - 3 <= x <= 3 - 1) (MACD [Some 1; Some 3; Some 2]).
Proof.
  refine (proj1 (proj2 (macd_within_spread 1 3 [Some 1; Some 3; Some 2] _))).
  repeat constructor; discriminate.
Defined.

Lemma rsi_of_a_falling_series :
  cell_eq (nth 2 (RSI 2 (map Some [4; 3; 2; 1])) NaN) (Some 0).
Proof.
  apply (rsi_decreasing_is_zero [4; 3; 2; 1] 2 2).
  - simpl. repeat split.
  - repeat constructor.
  - repeat constructor.
  - unfold lt. simpl. repeat constructor.
Defined.

Lemma alice_keeps_her_first_password :
  authenticate_user "alice" "a"
    (register_all [("alice", "a"); ("bob", "b"); ("alice", "c")]%string
                  empty_table) = true.
Proof.
  apply (proj2 (first_registration_wins
                  [("alice", "a"); ("bob", "b"); ("alice", "c")]%string
                  "alice" "a")).
  reflexivity.
Defined.

Lemma reversed_dates_stop_the_script :
  In st_stop (main_app sample_sqrt sample_download reversed_dates).
Proof.
  destruct (main_app_one_outcome sample_sqrt sample_download reversed_dates)
    as [_ [_ [_ H]]].
  apply H. reflexivity.
Defined.

Lemma ascii_ticker_uppercased_once :
  String.length (upper "aapl.jk") = String.length "aapl.jk"
  /\ upper (upper "aapl.jk") = upper "aapl.jk".
Proof.
  destruct (proj1 upper_changes_case_only "aapl.jk"%string) as [H1 [_ [_ H4]]].
  - vm_compute. reflexivity.
  - split; [exact H1|exact H4].
Defined.
